(** * GoSnap: short-code codec, validators, repositories and shortener service

    A shallow embedding of the Go sources of the URL shortener
    (packages [shortid], [validator], [repo] and [service]) together with
    the properties of the issuance and resolution pipeline.

    Conventions of the embedding:
    - a Go [string] is a byte sequence: Rocq's [string] (8-bit [ascii]);
    - Go's [int], [int64] and [rune] are [Z]; 64-bit wrap-around is written
      out with [wrap64] where the source does arithmetic that can overflow;
    - a Go function that can panic or loop returns an [outcome];
    - a Go [(value, error)] pair is a [result];
    - interfaces are type classes over the state of the implementation,
      with explicit state passing. *)

From Stdlib Require Import ZArith List String Ascii Bool Lia DecimalString.
From stdpp Require Import base option list gmap strings.

Local Open Scope Z_scope.

(** ** The Go runtime and standard library, as far as the sources use them *)

Module Go.

(** What running a Go function can give: a value, a run-time panic, or
    no answer within the fuel of the model (a loop that does not end). *)
Inductive outcome (A : Type) : Type :=
| Returned (a : A)
| Panicked (msg : string)
| OutOfFuel.
Arguments Returned {A} a.
Arguments Panicked {A} msg.
Arguments OutOfFuel {A}.

Definition index_out_of_range : string := "runtime error: index out of range".
Definition divide_by_zero : string := "runtime error: integer divide by zero".

(** [int64] arithmetic wraps around modulo 2^64. *)
Definition min_int64 : Z := - 2 ^ 63.
Definition max_int64 : Z := 2 ^ 63 - 1.
Definition wrap64 (z : Z) : Z := (z + 2 ^ 63) mod 2 ^ 64 - 2 ^ 63.

(** Bytes of a string, and back. *)
Definition byte_of_ascii (a : ascii) : Z := Z.of_N (N_of_ascii a).
Definition ascii_of_byte (b : Z) : ascii := ascii_of_N (Z.to_N b).
Definition bytes (s : string) : list Z := map byte_of_ascii (list_ascii_of_string s).
Definition string_of_bytes (bs : list Z) : string :=
  string_of_list_ascii (map ascii_of_byte bs).

(** [len(s)] *)
Definition len (s : string) : Z := Z.of_nat (String.length s).

(** [s[i]] on a slice or string, with the bounds check of the runtime. *)
Definition elem_at {A} (l : list A) (i : Z) : option A :=
  if (0 <=? i) && (i <? Z.of_nat (length l)) then l !! Z.to_nat i else None.

(** *** Package [unicode/utf8] *)

Definition RuneError : Z := 65533.
Definition RuneSelf : Z := 128.

Definition between (lo hi b : Z) : bool := (lo <=? b) && (b <=? hi).

(** [utf8.DecodeRuneInString]: the first rune of a byte sequence and its
    width; an invalid or incomplete sequence gives [(RuneError, 1)]. *)
Definition DecodeRune (bs : list Z) : Z * nat :=
  match bs with
  | [] => (RuneError, 0%nat)
  | b0 :: t =>
    if b0 <? RuneSelf then (b0, 1%nat)
    else if between 194 223 b0 then
      match t with
      | b1 :: _ =>
        if between 128 191 b1
        then ((b0 - 192) * 64 + (b1 - 128), 2%nat)
        else (RuneError, 1%nat)
      | _ => (RuneError, 1%nat)
      end
    else if between 224 239 b0 then
      match t with
      | b1 :: b2 :: _ =>
        let lo := if b0 =? 224 then 160 else 128 in
        let hi := if b0 =? 237 then 159 else 191 in
        if between lo hi b1 && between 128 191 b2
        then (((b0 - 224) * 64 + (b1 - 128)) * 64 + (b2 - 128), 3%nat)
        else (RuneError, 1%nat)
      | _ => (RuneError, 1%nat)
      end
    else if between 240 244 b0 then
      match t with
      | b1 :: b2 :: b3 :: _ =>
        let lo := if b0 =? 240 then 144 else 128 in
        let hi := if b0 =? 244 then 143 else 191 in
        if between lo hi b1 && between 128 191 b2 && between 128 191 b3
        then ((((b0 - 240) * 64 + (b1 - 128)) * 64 + (b2 - 128)) * 64
              + (b3 - 128), 4%nat)
        else (RuneError, 1%nat)
      | _ => (RuneError, 1%nat)
      end
    else (RuneError, 1%nat)
  end.

(** [utf8.AppendRune]: the bytes of one rune; a rune that is not a valid
    code point is written as [RuneError]. *)
Definition EncodeRune (r : Z) : list Z :=
  if (0 <=? r) && (r <? 128) then [r]
  else if (128 <=? r) && (r <? 2048) then [192 + r / 64; 128 + r mod 64]
  else if ((2048 <=? r) && (r <? 55296)) || ((57344 <=? r) && (r <? 65536))
  then [224 + r / 4096; 128 + (r / 64) mod 64; 128 + r mod 64]
  else if (65536 <=? r) && (r <=? 1114111)
  then [240 + r / 262144; 128 + (r / 4096) mod 64; 128 + (r / 64) mod 64;
        128 + r mod 64]
  else [239; 191; 189].

(** [for i, char := range s]: the pairs (byte offset, rune) the loop
    visits. [skip] counts the continuation bytes of the rune read last. *)
Fixpoint range_from (skip : nat) (i : Z) (bs : list Z) : list (Z * Z) :=
  match bs with
  | [] => []
  | _ :: t =>
    match skip with
    | S k => range_from k (i + 1) t
    | O => let '(r, w) := DecodeRune bs in
           (i, r) :: range_from (Nat.pred w) (i + 1) t
    end
  end.

Definition range (s : string) : list (Z * Z) := range_from 0 0 (bytes s).

(** [[]rune(s)] and [string(runes)] *)
Definition runes_of_string (s : string) : list Z := map snd (range s).
Definition string_of_runes (rs : list Z) : string :=
  string_of_bytes (concat (map EncodeRune rs)).

(** *** Package [strings] *)

(** [strings.IndexRune(s, r)]: the byte offset of the first rune of [s]
    equal to [r] (for [RuneError]: of the first invalid sequence too),
    or -1. *)
Fixpoint first_offset (r : Z) (visits : list (Z * Z)) : Z :=
  match visits with
  | [] => -1
  | (i, c) :: rest => if c =? r then i else first_offset r rest
  end.

Definition IndexRune (s : string) (r : Z) : Z := first_offset r (range s).

(** [strings.HasPrefix] *)
Definition HasPrefix (s p : string) : bool := String.prefix p s.

(** [strings.Builder]: [WriteByte] appends one byte. *)
Definition WriteByte (builder : list Z) (b : Z) : list Z := builder ++ [b].

(** [strings.TrimSpace] is taken as a parameter, with the two facts about
    it that the sources rely on: trimming is idempotent, and a trimmed
    string stays trimmed behind the prefix "https://". *)
Class Strings : Type := TrimSpace : string -> string.

Class StringsLaws (T : Strings) : Prop := {
  TrimSpace_idem : forall s, TrimSpace (TrimSpace s) = TrimSpace s;
  TrimSpace_https : forall s,
    TrimSpace ("https://" +:+ TrimSpace s) = "https://" +:+ TrimSpace s
}.

(** *** Package [errors] *)

(** An [error] value: one made by [errors.New] or [fmt.Errorf] (known by
    its message), one that wraps another error, or a [*pgconn.PgError]
    with its SQLSTATE code. *)
Inductive error : Type :=
| errorString (msg : string)
| wrapError (msg : string) (err : error)
| PgError (code : string).

Fixpoint error_eqb (a b : error) : bool :=
  match a, b with
  | errorString m, errorString n => String.eqb m n
  | wrapError m e, wrapError n f => String.eqb m n && error_eqb e f
  | PgError c, PgError d => String.eqb c d
  | _, _ => false
  end.

(** [errors.Is]: [err] or an error it wraps is [target]. *)
Fixpoint errors_Is (err target : error) : bool :=
  error_eqb err target ||
  match err with
  | wrapError _ inner => errors_Is inner target
  | _ => false
  end.

(** [errors.As(err, &pgErr)] for [*pgconn.PgError]: the first error of
    the chain that is one, if any. *)
Fixpoint errors_As_PgError (err : error) : option string :=
  match err with
  | PgError code => Some code
  | wrapError _ inner => errors_As_PgError inner
  | errorString _ => None
  end.

(** A returned pair [(value, error)]. *)
Inductive result (A : Type) : Type :=
| Ok (a : A)
| Err (e : error).
Arguments Ok {A} a.
Arguments Err {A} e.

(** *** Package [net/url] *)

(** The part of [*url.URL] that the sources read. [url.Parse] is a
    parameter. *)
Record URL : Type := { Host : string }.

Class NetURL : Type := url_Parse : string -> result URL.

End Go.

(** ** Package [regexp], for the patterns the sources compile *)

Module regexp.
Import Go.

Inductive Regexp : Type :=
| NoMatch
| EmptyMatch
| CharClass (ranges : list (ascii * ascii))
| Concat (r1 r2 : Regexp)
| Alternate (r1 r2 : Regexp)
| Star (r : Regexp).

(** [r+] *)
Definition Plus (r : Regexp) : Regexp := Concat r (Star r).

Definition in_class (ranges : list (ascii * ascii)) (c : Z) : bool :=
  existsb (fun '(lo, hi) => between (byte_of_ascii lo) (byte_of_ascii hi) c)
          ranges.

Fixpoint nullable (r : Regexp) : bool :=
  match r with
  | NoMatch => false
  | EmptyMatch => true
  | CharClass _ => false
  | Concat r1 r2 => nullable r1 && nullable r2
  | Alternate r1 r2 => nullable r1 || nullable r2
  | Star _ => true
  end.

Fixpoint deriv (c : Z) (r : Regexp) : Regexp :=
  match r with
  | NoMatch => NoMatch
  | EmptyMatch => NoMatch
  | CharClass ranges => if in_class ranges c then EmptyMatch else NoMatch
  | Concat r1 r2 =>
    if nullable r1
    then Alternate (Concat (deriv c r1) r2) (deriv c r2)
    else Concat (deriv c r1) r2
  | Alternate r1 r2 => Alternate (deriv c r1) (deriv c r2)
  | Star r1 => Concat (deriv c r1) (Star r1)
  end.

Fixpoint matches (r : Regexp) (runes : list Z) : bool :=
  match runes with
  | [] => nullable r
  | c :: rest => matches (deriv c r) rest
  end.

(** [MatchString] for a pattern of the form [^r$] compiled without
    flags: [r] has to match the whole text, rune by rune ([$] is the end
    of the text, not the end of a line). *)
Definition MatchString (r : Regexp) (s : string) : bool :=
  matches r (runes_of_string s).

End regexp.

(** ** Package [shortid]: the base-62 codec *)

Module shortid.
Import Go.

Definition base62Chars : string :=
  "0123456789ABCDEFGHIJKLMNOPQRSTUVWXYZabcdefghijklmnopqrstuvwxyz".

(** Generator is responsible for generating short IDs using a specified
    base. *)
Record Generator : Type := { base : Z }.

Definition NewGenerator : Generator := {| base := len base62Chars |}.

(** The first loop of [Encode]: [for number > 0 { ... }]. *)
Fixpoint encode_digits (fuel : nat) (g : Generator) (number : Z)
    (results : list Z) : outcome (list Z) :=
  if number >? 0 then
    match fuel with
    | O => OutOfFuel
    | S fuel' =>
      if base g =? 0 then Panicked divide_by_zero
      else
        let remainder := Z.rem number (base g) in
        match elem_at (bytes base62Chars) remainder with
        | None => Panicked index_out_of_range
        | Some b =>
          encode_digits fuel' g (Z.quot number (base g)) (WriteByte results b)
        end
    end
  else Returned results.

(** The second loop of [Encode]:
    [for i, j := 0, len(runes)-1; i < j; i, j = i+1, j+1 {
       runes[i], runes[j] = runes[j], runes[i] }]. *)
Fixpoint swap_loop (fuel : nat) (runes : list Z) (i j : Z)
    : outcome (list Z) :=
  if i <? j then
    match fuel with
    | O => OutOfFuel
    | S fuel' =>
      match elem_at runes j, elem_at runes i with
      | Some rj, Some ri =>
        swap_loop fuel' (<[Z.to_nat j := ri]> (<[Z.to_nat i := rj]> runes))
                  (i + 1) (j + 1)
      | _, _ => Panicked index_out_of_range
      end
    end
  else Returned runes.

(** Encode converts a given integer to a base62 encoded string. *)
Definition Encode (g : Generator) (number : Z) : outcome string :=
  if number =? 0 then
    match elem_at (bytes base62Chars) 0 with
    | Some b => Returned (string_of_runes [b])
    | None => Panicked index_out_of_range
    end
  else
    match encode_digits 64 g number [] with
    | Returned results =>
      let encoded := string_of_bytes results in
      let runes := runes_of_string encoded in
      match swap_loop (S (length runes)) runes 0
                      (Z.of_nat (length runes) - 1) with
      | Returned runes' => Returned (string_of_runes runes')
      | Panicked msg => Panicked msg
      | OutOfFuel => OutOfFuel
      end
    | Panicked msg => Panicked msg
    | OutOfFuel => OutOfFuel
    end.

(** [int64(math.Pow(float64(b), float64(p)))]: the float power of the
    base converted to [int64]. The conversion of a float outside the
    [int64] range is implementation-specific in Go, so the function is a
    parameter of the codec; [MathPowExact] says what every platform
    gives: the powers of 62 up to 62^10 are below 2^63 and exactly
    representable as [float64] (62^10 = 2^10 * 31^10, 31^10 < 2^53). *)
Class MathPow : Type := pow_int64 : Z -> Z -> Z.

Class MathPowExact (P : MathPow) : Prop :=
  pow_int64_exact : forall p, 0 <= p <= 10 -> pow_int64 62 p = 62 ^ p.

(** amd64, for the base 62 that [NewGenerator] sets: exact up to 62^10;
    62^11 and above exceed 2^63, and a float at or above 2^63 converts to
    the smallest [int64]. *)
Definition pow_amd64 : MathPow :=
  fun b p => if p <=? 10 then b ^ p else min_int64.

(** The loop of [Decode]: [for i, char := range encoded { ... }]. *)
Fixpoint decode_loop {P : MathPow} (g : Generator) (encoded : string)
    (visits : list (Z * Z)) (number : Z) : Z :=
  match visits with
  | [] => number
  | (i, char) :: rest =>
    let power := len encoded - i - 1 in
    let index := IndexRune base62Chars char in
    if index =? -1 then -1
    else
      decode_loop g encoded rest
        (wrap64 (number + wrap64 (index * pow_int64 (base g) power)))
  end.

(** Decode converts a base62 encoded string back to its integer
    representation. *)
Definition Decode {P : MathPow} (g : Generator) (encoded : string) : Z :=
  decode_loop g encoded (range encoded) 0.

End shortid.


(** ** Package [validator] *)

Module validator.
Import Go regexp.

Definition MinShortCodeLength : Z := 1.
Definition MaxShortCodeLength : Z := 10.
Definition StandardShortCodeLength : Z := 6.

(** [regexp.MustCompile(`^[0-9A-Za-z]+$`)] *)
Definition validShortCodeRegex : Regexp :=
  Plus (CharClass [("0", "9"); ("A", "Z"); ("a", "z")]%char).

(** IsValidShortCode checks if the provided short code is valid. A valid
    short code is between MinShortCodeLength and MaxShortCodeLength
    characters and contains only alphanumeric characters. *)
Definition IsValidShortCode (shortCode : string) : bool :=
  if String.eqb shortCode "" then false
  else
    let length := len shortCode in
    if (length <? MinShortCodeLength) || (length >? MaxShortCodeLength)
    then false
    else MatchString validShortCodeRegex shortCode.

Section URLs.
Context {T : Strings} {U : NetURL}.

(** IsValidURL checks if the provided string is a valid URL. *)
Definition IsValidURL (rawURL : string) : bool :=
  if String.eqb rawURL "" then false
  else if negb (HasPrefix rawURL "http://")
          && negb (HasPrefix rawURL "https://") then false
  else
    match url_Parse rawURL with
    | Err _ => false
    | Ok finalURL => if String.eqb (Host finalURL) "" then false else true
    end.

(** NormalizeURL trims the URL and prepends "https://" when it has no
    "http://" or "https://" prefix. *)
Definition NormalizeURL (rawURL : string) : string :=
  let rawURL := TrimSpace rawURL in
  if negb (HasPrefix rawURL "http://")
     && negb (HasPrefix rawURL "https://")
  then "https://" +:+ rawURL
  else rawURL.
End URLs.

End validator.

(** ** Package [domain] *)

Module domain.

(** URL represents a shortened URL entity. [CreatedAt] is an instant. *)
Record URL : Type := {
  ID : Z;
  ShortCode : string;
  LongURL : string;
  CreatedAt : Z;
  Clicks : Z
}.

(** CreateURLResponse is the payload returned after creating a short
    URL. *)
Record CreateURLResponse : Type := {
  resp_ShortCode : string;
  resp_ShortURL : string;
  resp_LongURL : string
}.

(** StatsResponse is the payload for URL statistics. *)
Record StatsResponse : Type := {
  stats_ShortCode : string;
  stats_LongURL : string;
  stats_Clicks : Z;
  stats_CreatedAt : Z
}.

(** CreateURLRequest is the request payload for creating a shortened
    URL. *)
Record CreateURLRequest : Type := { req_LongURL : string }.

End domain.

(** ** Package [repo]: the Postgres and Redis repositories *)

Module repo.
Import Go validator.

Definition ErrNotFound : error := errorString "url not found".
Definition ErrAlreadyExists : error :=
  errorString "short code for URL already exists".
Definition ErrInvalidShortCode : error :=
  errorString "invalid short code: must be between 1 and 10 characters".

(** [pgx.ErrNoRows] and [redis.Nil] *)
Definition pgx_ErrNoRows : error := errorString "no rows in result set".
Definition redis_Nil : error := errorString "redis: nil".

(** An argument of a statement. *)
Inductive arg : Type :=
| ArgString (s : string)
| ArgTime (t : Z).

(** [*pgxpool.Pool]: [QueryRow(...).Scan] into the fields of a
    [domain.URL] or into one [int64], and [Exec] with the number of rows
    affected. *)
Class Pool (DB : Type) : Type := {
  QueryRow_ScanURL : DB -> string -> list arg -> DB * result domain.URL;
  QueryRow_ScanInt64 : DB -> string -> list arg -> DB * result Z;
  Exec_RowsAffected : DB -> string -> list arg -> DB * result Z
}.

(** [*redis.Client] *)
Class Client (C : Type) : Type := {
  client_Set : C -> string -> string -> Z -> C * option error;
  client_Get : C -> string -> C * result string;
  client_Del : C -> string -> C * option error;
  client_Exists : C -> string -> C * result Z
}.

(** [encoding/json] on [domain.URL] *)
Class JSON : Type := {
  json_Marshal : domain.URL -> result string;
  json_Unmarshal : string -> result domain.URL
}.

(** PostgresRepo is a repository that uses PostgreSQL as the backend.
    [sent] lists the statements handed to the pool, oldest first. *)
Record PostgresRepo (DB : Type) : Type := {
  pool : DB;
  sent : list (string * list arg)
}.
Arguments Build_PostgresRepo {DB} pool sent.
Arguments pool {DB} p.
Arguments sent {DB} p.

(** [commands] lists the commands handed to the client, oldest first. *)
Record RedisRepo (C : Type) : Type := {
  client : C;
  ttl : Z;
  commands : list (string * string)
}.
Arguments Build_RedisRepo {C} client ttl commands.
Arguments client {C} r.
Arguments ttl {C} r.
Arguments commands {C} r.

Definition NewRedisRepo {C} (client : C) (ttl : Z) : RedisRepo C :=
  {| client := client; ttl := ttl; commands := [] |}.

Definition NewPostgresRepo {DB} (pool : DB) : PostgresRepo DB :=
  {| pool := pool; sent := [] |}.

Module PostgresRepo.
Section Methods.
Context {DB : Type} {PoolDB : Pool DB}.

Definition insert_query : string :=
  "INSERT INTO urls (short_code, long_url, created_at, clicks) VALUES ($1, $2, $3, 0) RETURNING id, short_code, long_url, created_at, clicks".
Definition select_query : string :=
  "SELECT id, short_code, long_url, created_at, clicks FROM urls WHERE short_code = $1".
Definition update_query : string :=
  "UPDATE urls SET clicks = clicks + 1 WHERE short_code = $1".
Definition nextval_query : string := "SELECT nextval('urls_id_seq')".

(** Create inserts a new URL mapping into the database. [now] is
    the value of [time.Now()]. *)
Definition Create (r : PostgresRepo DB) (now : Z)
    (shortCode longURL : string)
    : PostgresRepo DB * result domain.URL :=
  if negb (IsValidShortCode shortCode) then (r, Err ErrInvalidShortCode)
  else
    let args := [ArgString shortCode; ArgString longURL; ArgTime now] in
    let '(db, res) := QueryRow_ScanURL (pool r) insert_query args in
    let r' := {| pool := db; sent := sent r ++ [(insert_query, args)] |} in
    match res with
    | Err err =>
      match errors_As_PgError err with
      | Some code =>
        if String.eqb code "23505" then (r', Err ErrAlreadyExists)
        else (r', Err err)
      | None => (r', Err err)
      end
    | Ok url => (r', Ok url)
    end.

(** GetByShortCode retrieves a URL mapping by its short code. *)
Definition GetByShortCode (r : PostgresRepo DB) (shortCode : string)
    : PostgresRepo DB * result domain.URL :=
  if negb (IsValidShortCode shortCode) then (r, Err ErrInvalidShortCode)
  else
    let args := [ArgString shortCode] in
    let '(db, res) := QueryRow_ScanURL (pool r) select_query args in
    let r' := {| pool := db; sent := sent r ++ [(select_query, args)] |} in
    match res with
    | Err err =>
      if errors_Is err pgx_ErrNoRows then (r', Err ErrNotFound)
      else (r', Err err)
    | Ok url => (r', Ok url)
    end.

(** IncrementClicksCounter increments the click counter for a given
    short code. *)
Definition IncrementClicksCounter (r : PostgresRepo DB)
    (shortCode : string) : PostgresRepo DB * option error :=
  if negb (IsValidShortCode shortCode) then (r, Some ErrInvalidShortCode)
  else
    let args := [ArgString shortCode] in
    let '(db, res) := Exec_RowsAffected (pool r) update_query args in
    let r' := {| pool := db; sent := sent r ++ [(update_query, args)] |} in
    match res with
    | Err err => (r', Some err)
    | Ok rowsAffected =>
      if rowsAffected =? 0 then (r', Some ErrNotFound) else (r', None)
    end.

(** GetNextID retrieves the next value from the URL ID sequence. *)
Definition GetNextID (r : PostgresRepo DB)
    : PostgresRepo DB * result Z :=
  let '(db, res) := QueryRow_ScanInt64 (pool r) nextval_query [] in
  let r' := {| pool := db; sent := sent r ++ [(nextval_query, [])] |} in
  match res with
  | Err err => (r', Err err)
  | Ok id => (r', Ok id)
  end.
End Methods.
End PostgresRepo.

Module RedisRepo.
Section Methods.
Context {C : Type} {ClientC : Client C} {J : JSON}.

Definition sent_to (r : RedisRepo C) (c : C) (cmd key : string)
    : RedisRepo C :=
  {| client := c; ttl := ttl r; commands := commands r ++ [(cmd, key)] |}.

(** Set stores in cache the URL associated with the given short
    code in Redis with a TTL. *)
Definition Set_ (r : RedisRepo C) (shortCode : string)
    (url : domain.URL) : RedisRepo C * option error :=
  if negb (IsValidShortCode shortCode) then (r, Some ErrInvalidShortCode)
  else
    match json_Marshal url with
    | Err err => (r, Some err)
    | Ok data =>
      let '(c, e) := client_Set (client r) shortCode data (ttl r) in
      (sent_to r c "SET" shortCode, e)
    end.

(** Get retrieves from cache the URL associated with the given
    short code in Redis. *)
Definition Get (r : RedisRepo C) (shortCode : string)
    : RedisRepo C * result domain.URL :=
  if negb (IsValidShortCode shortCode) then (r, Err ErrInvalidShortCode)
  else
    let '(c, res) := client_Get (client r) shortCode in
    let r' := sent_to r c "GET" shortCode in
    match res with
    | Err err =>
      if errors_Is err redis_Nil then (r', Err ErrNotFound)
      else (r', Err err)
    | Ok data =>
      match json_Unmarshal data with
      | Err err => (r', Err err)
      | Ok url => (r', Ok url)
      end
    end.

(** Delete removes from cache the URL associated with the given
    short code in Redis. *)
Definition Delete (r : RedisRepo C) (shortCode : string)
    : RedisRepo C * option error :=
  if negb (IsValidShortCode shortCode) then (r, Some ErrInvalidShortCode)
  else
    let '(c, e) := client_Del (client r) shortCode in
    (sent_to r c "DEL" shortCode, e).

(** Exists checks if a short code exists in Redis. *)
Definition Exists (r : RedisRepo C) (shortCode : string)
    : RedisRepo C * result bool :=
  if negb (IsValidShortCode shortCode) then (r, Err ErrInvalidShortCode)
  else
    let '(c, res) := client_Exists (client r) shortCode in
    let r' := sent_to r c "EXISTS" shortCode in
    match res with
    | Err err => (r', Err err)
    | Ok n => (r', Ok (negb (n =? 0)))
    end.
End Methods.
End RedisRepo.

End repo.

(** ** Package [service]: the shortening and resolution orchestrators *)

Module service.
Import Go shortid validator.

(** *** Interfaces *)

Class PostgresRepository (P : Type) : Type := {
  Create : P -> Z -> string -> string -> P * result domain.URL;
  GetByShortCode : P -> string -> P * result domain.URL;
  IncrementClicksCounter : P -> string -> P * option error;
  GetNextID : P -> P * result Z
}.

Class RedisRepository (R : Type) : Type := {
  Get : R -> string -> R * result domain.URL;
  Set_ : R -> string -> domain.URL -> R * option error;
  Delete : R -> string -> R * option error;
  Exists : R -> string -> R * result bool
}.

(** A buffered [chan struct{}]: its capacity and the number of elements
    it holds. *)
Record chan : Type := { cap : nat; held : nat }.

Definition make_chan (capacity : nat) : chan := {| cap := capacity; held := 0 |}.

(** What the code hands to the logger. *)
Inductive Level : Type := DebugLevel | WarnLevel | ErrorLevel.

Record LogEntry : Type := {
  level : Level;
  log_err : option error;
  log_short_code : option string;
  message : string
}.

(** A call through one of the two interfaces. *)
Inductive Call : Type :=
| CallGetNextID
| CallCreate (id : Z) (shortCode longURL : string)
| CallGetByShortCode (shortCode : string)
| CallIncrementClicksCounter (shortCode : string)
| CallGet (shortCode : string)
| CallSet (shortCode : string) (url : domain.URL).

Section Service.
Context {P R : Type} {PG : PostgresRepository P} {RD : RedisRepository R}.
Context {T : Strings} {U : NetURL}.

Record ShortenerService : Type := {
  pgRepo : P;
  redisRepo : R;
  generator : Generator;
  baseURL : string;
  maxRetries : Z;
  clickWorkers : chan
}.

Definition NewShortenerService (pgRepo : P) (redisRepo : R)
    (generator : Generator) (baseURL : string) : ShortenerService :=
  {| pgRepo := pgRepo;
     redisRepo := redisRepo;
     generator := generator;
     baseURL := baseURL;
     maxRetries := 3;
     clickWorkers := make_chan 100 |}.

(** The running program: the service, the click-increment goroutines
    that were started and have not finished (each with the short code it
    captured), the log, and the calls made through the interfaces, oldest
    first. *)
Record Process : Type := {
  svc : ShortenerService;
  goroutines : list string;
  logs : list LogEntry;
  calls : list Call
}.

Definition start (s : ShortenerService) : Process :=
  {| svc := s; goroutines := []; logs := []; calls := [] |}.

(** *** State passing *)

Definition M (A : Type) : Type := Process -> outcome A * Process.

Definition ret {A} (a : A) : M A := fun w => (Returned a, w).

Definition bind {A B} (m : M A) (k : A -> M B) : M B :=
  fun w =>
    match m w with
    | (Returned a, w') => k a w'
    | (Panicked msg, w') => (Panicked msg, w')
    | (OutOfFuel, w') => (OutOfFuel, w')
    end.

Notation "x <- m ;; k" := (bind m (fun x => k))
  (at level 100, m at next level, right associativity).
Notation "m ;;; k" := (bind m (fun _ => k))
  (at level 100, right associativity).

Definition lift {A} (o : outcome A) : M A := fun w => (o, w).

Definition gets {A} (f : ShortenerService -> A) : M A :=
  fun w => (Returned (f (svc w)), w).

Definition with_pgRepo (s : ShortenerService) (p : P) : ShortenerService :=
  {| pgRepo := p; redisRepo := redisRepo s; generator := generator s;
     baseURL := baseURL s; maxRetries := maxRetries s;
     clickWorkers := clickWorkers s |}.

Definition with_redisRepo (s : ShortenerService) (r : R) : ShortenerService :=
  {| pgRepo := pgRepo s; redisRepo := r; generator := generator s;
     baseURL := baseURL s; maxRetries := maxRetries s;
     clickWorkers := clickWorkers s |}.

Definition with_clickWorkers (s : ShortenerService) (c : chan)
    : ShortenerService :=
  {| pgRepo := pgRepo s; redisRepo := redisRepo s; generator := generator s;
     baseURL := baseURL s; maxRetries := maxRetries s;
     clickWorkers := c |}.

(** A call on [s.pgRepo]: the repository moves to its new state and the
    call is recorded. *)
Definition on_pgRepo {A} (c : Call) (f : P -> P * A) : M A :=
  fun w =>
    let '(p, a) := f (pgRepo (svc w)) in
    (Returned a,
     {| svc := with_pgRepo (svc w) p; goroutines := goroutines w;
        logs := logs w; calls := calls w ++ [c] |}).

(** A call on [s.redisRepo]. *)
Definition on_redisRepo {A} (c : Call) (f : R -> R * A) : M A :=
  fun w =>
    let '(r, a) := f (redisRepo (svc w)) in
    (Returned a,
     {| svc := with_redisRepo (svc w) r; goroutines := goroutines w;
        logs := logs w; calls := calls w ++ [c] |}).

Definition log (e : LogEntry) : M unit :=
  fun w =>
    (Returned tt,
     {| svc := svc w; goroutines := goroutines w; logs := logs w ++ [e];
        calls := calls w |}).

Definition log_Debug (shortCode msg : string) : M unit :=
  log {| level := DebugLevel; log_err := None;
         log_short_code := Some shortCode; message := msg |}.

Definition log_Warn (err : option error) (shortCode : option string)
    (msg : string) : M unit :=
  log {| level := WarnLevel; log_err := err; log_short_code := shortCode;
         message := msg |}.

Definition log_Error (err : error) (shortCode : option string)
    (msg : string) : M unit :=
  log {| level := ErrorLevel; log_err := Some err;
         log_short_code := shortCode; message := msg |}.

(** [fmt.Errorf] without a wrapping verb *)
Definition Errorf (msg : string) : error := errorString msg.

(** *** Private methods *)

(** The body of the goroutine that [incrementClicksAsync] starts. *)
Definition incrementClicksTask (shortCode : string) : M unit :=
  e <- on_pgRepo (CallIncrementClicksCounter shortCode)
                 (fun p => IncrementClicksCounter p shortCode) ;;
  match e with
  | Some err =>
    log_Warn (Some err) (Some shortCode)
             "error incrementing clicks counter in background"
  | None => ret tt
  end.

(** incrementClicksAsync increments the click counter for the given short
    code asynchronously: [select] with one send to [s.clickWorkers] and a
    [default]. The send goes through when the buffer has room; the
    goroutine is then started. *)
Definition incrementClicksAsync (shortCode : string) : M unit :=
  fun w =>
    let c := clickWorkers (svc w) in
    if (held c <? cap c)%nat then
      (Returned tt,
       {| svc := with_clickWorkers (svc w) {| cap := cap c; held := S (held c) |};
          goroutines := goroutines w ++ [shortCode];
          logs := logs w; calls := calls w |})
    else
      log_Warn None None "click workers limit reached, skipping increment" w.

(** createShortURLWithRetries attempts to create a short URL for the given
    long URL, calling itself again after a collision. [fuel] bounds the
    depth of the recursion. *)
Fixpoint createShortURLWithRetries (fuel : nat) (longURL : string)
    (attempt maxRetries : Z) : M (result domain.CreateURLResponse) :=
  if attempt >=? maxRetries then
    ret (Err (Errorf "max retries reached for creating short URL"))
  else
    let longURL := NormalizeURL longURL in
    if negb (IsValidURL longURL) then
      ret (Err (Errorf ("invalid URL: " +:+ longURL)))
    else
      r <- on_pgRepo CallGetNextID GetNextID ;;
      match r with
      | Err err =>
        log_Error err None "error getting next ID" ;;;
        ret (Err (Errorf "error generating short code"))
      | Ok id =>
        g <- gets generator ;;
        shortCode <- lift (Encode g id) ;;
        r <- on_pgRepo (CallCreate id shortCode longURL)
                       (fun p => Create p id shortCode longURL) ;;
        match r with
        | Err err =>
          if errors_Is err repo.ErrAlreadyExists then
            log_Warn None (Some shortCode) "collision detected, retrying" ;;;
            match fuel with
            | O => lift OutOfFuel
            | S fuel' =>
              createShortURLWithRetries fuel' longURL (attempt + 1) maxRetries
            end
          else
            log_Error err None "error inserting URL into the database" ;;;
            ret (Err (Errorf "error creating short URL"))
        | Ok url =>
          e <- on_redisRepo (CallSet shortCode url)
                            (fun r => Set_ r shortCode url) ;;
          match e with
          | Some err =>
            log_Warn (Some err) (Some shortCode) "error caching URL with Redis"
          | None => ret tt
          end ;;;
          baseURL <- gets baseURL ;;
          ret (Ok {| domain.resp_ShortCode := shortCode;
                     domain.resp_ShortURL := baseURL +:+ "/" +:+ shortCode;
                     domain.resp_LongURL := longURL |})
        end
      end.

(** *** Public methods *)

(** CreateShortURL creates a short URL for the given long URL. *)
Definition CreateShortURL (longURL : string)
    : M (result domain.CreateURLResponse) :=
  maxRetries <- gets maxRetries ;;
  createShortURLWithRetries (Z.to_nat maxRetries) longURL 0 maxRetries.

(** GetLongURL retrieves the long URL associated with the given short
    code: first from the Redis cache, then from the Postgres database. *)
Definition GetLongURL (shortCode : string) : M (result string) :=
  if negb (IsValidShortCode shortCode) then
    ret (Err (Errorf "invalid short code format"))
  else
    r <- on_redisRepo (CallGet shortCode) (fun r => Get r shortCode) ;;
    match r with
    | Ok url =>
      log_Debug shortCode "cache hit" ;;;
      incrementClicksAsync shortCode ;;;
      ret (Ok (domain.LongURL url))
    | Err _ =>
      log_Debug shortCode "cache miss, querying from Postgres" ;;;
      r <- on_pgRepo (CallGetByShortCode shortCode)
                     (fun p => GetByShortCode p shortCode) ;;
      match r with
      | Err err =>
        if errors_Is err repo.ErrNotFound then
          ret (Err (Errorf "short URL not found"))
        else
          log_Error err (Some shortCode)
                    "error retrieving URL from the database" ;;;
          ret (Err (Errorf "error retrieving long URL"))
      | Ok url =>
        e <- on_redisRepo (CallSet shortCode url)
                          (fun r => Set_ r shortCode url) ;;
        match e with
        | Some err =>
          log_Warn (Some err) (Some shortCode) "error caching URL with Redis"
        | None => ret tt
        end ;;;
        incrementClicksAsync shortCode ;;;
        ret (Ok (domain.LongURL url))
      end
    end.

(** GetURLStats retrieves statistics for the given short code from the
    Postgres database. *)
Definition GetURLStats (shortCode : string) : M (result domain.StatsResponse) :=
  if negb (IsValidShortCode shortCode) then
    ret (Err (Errorf "invalid short code format"))
  else
    r <- on_pgRepo (CallGetByShortCode shortCode)
                   (fun p => GetByShortCode p shortCode) ;;
    match r with
    | Err err =>
      if errors_Is err repo.ErrNotFound then
        ret (Err (Errorf "short URL not found"))
      else ret (Err (Errorf "error retrieving URL stats"))
    | Ok url =>
      ret (Ok {| domain.stats_ShortCode := domain.ShortCode url;
                 domain.stats_LongURL := domain.LongURL url;
                 domain.stats_Clicks := domain.Clicks url;
                 domain.stats_CreatedAt := domain.CreatedAt url |})
    end.

(** *** The scheduler *)

(** The goroutine at position [k] runs to its end and leaves the list of
    running goroutines. *)
Definition run_goroutine (k : nat) : M unit :=
  fun w =>
    match goroutines w !! k with
    | None => (Returned tt, w)
    | Some shortCode =>
      incrementClicksTask shortCode
        {| svc := svc w; goroutines := delete k (goroutines w);
           logs := logs w; calls := calls w |}
    end.

(** One move of the program: a caller runs one of the public methods, or
    a started goroutine finishes. *)
Inductive step : Process -> Process -> Prop :=
| step_CreateShortURL longURL w :
    step w (snd (CreateShortURL longURL w))
| step_GetLongURL shortCode w :
    step w (snd (GetLongURL shortCode w))
| step_GetURLStats shortCode w :
    step w (snd (GetURLStats shortCode w))
| step_goroutine k w :
    (k < length (goroutines w))%nat ->
    step w (snd (run_goroutine k w)).

Inductive steps : Process -> Process -> Prop :=
| steps_refl w : steps w w
| steps_step w1 w2 w3 : steps w1 w2 -> step w2 w3 -> steps w1 w3.

(** *** The admission pool *)

(** The increment tasks in flight, the elements the channel holds, and
    its capacity. *)
Definition in_flight (w : Process) : nat := length (goroutines w).
Definition admitted (w : Process) : nat := held (clickWorkers (svc w)).
Definition capacity (w : Process) : nat := cap (clickWorkers (svc w)).

Definition pool_ok (w : Process) : Prop :=
  (in_flight w <= admitted w)%nat /\ (admitted w <= capacity w)%nat.

(** How the pool may change from one state of the program to a later
    one. *)
Definition pool_advances (w w' : Process) : Prop :=
  capacity w' = capacity w
  /\ (admitted w <= admitted w')%nat
  /\ (pool_ok w -> pool_ok w').

Definition advancing {A} (m : M A) : Prop :=
  forall w, pool_advances w (snd (m w)).

(** [n] resolutions of one short code, one after the other; the
    goroutine that a resolution starts finishes before the next
    resolution begins. *)
Fixpoint resolve_and_finish (n : nat) (shortCode : string) (w : Process)
    : Process :=
  match n with
  | O => w
  | S n' =>
    let w1 := snd (GetLongURL shortCode w) in
    let w2 := snd (run_goroutine 0 w1) in
    resolve_and_finish n' shortCode w2
  end.

End Service.
End service.

(** ** Package [api]: the HTTP handlers *)

Module api.
Import Go.

Definition StatusOK : Z := 200.
Definition StatusCreated : Z := 201.
Definition StatusFound : Z := 302.
Definition StatusBadRequest : Z := 400.
Definition StatusNotFound : Z := 404.
Definition StatusInternalServerError : Z := 500.

(** What a handler reads from its [echo.Context]: the path parameters
    and the request body. *)
Record Context : Type := {
  Param : string -> string;
  Body : string
}.

(** The framework and library calls of the handlers: [c.Bind] on the
    body, [c.Validate] (the struct validator), and [err.Error()]. *)
Class Echo : Type := {
  Bind : string -> result domain.CreateURLRequest;
  Validate : domain.CreateURLRequest -> option error;
  Error : error -> string
}.

(** What a handler writes: [c.JSON(code, payload)] or
    [c.Redirect(code, url)]. *)
Inductive Payload : Type :=
| ErrorPayload (msg : string)
| CreatedPayload (response : domain.CreateURLResponse)
| StatsPayload (stats : domain.StatsResponse)
| HealthPayload (status : string).

Inductive Response : Type :=
| JSON (code : Z) (payload : Payload)
| RedirectTo (code : Z) (url : string).

Section Handlers.
Context {P R : Type}.
Context {PG : service.PostgresRepository P} {RD : service.RedisRepository R}.
Context {T : Strings} {U : NetURL} {E : Echo}.

(** CreateShortURL handles the creation of a new short URL. *)
Definition CreateShortURL (c : Context) : @service.M P R Response :=
  match Bind (Body c) with
  | Err _ =>
    service.ret (JSON StatusBadRequest (ErrorPayload "Invalid request payload"))
  | Ok request =>
    match Validate request with
    | Some err =>
      service.ret
        (JSON StatusBadRequest
              (ErrorPayload ("Validation failed: " +:+ Error err)))
    | None =>
      service.bind (service.CreateShortURL (domain.req_LongURL request))
        (fun r =>
           match r with
           | Err err =>
             service.bind
               (service.log_Error err None "error creating short URL")
               (fun _ =>
                  service.ret
                    (JSON StatusInternalServerError
                          (ErrorPayload "Failed to create short URL")))
           | Ok response =>
             service.ret (JSON StatusCreated (CreatedPayload response))
           end)
    end
  end.

(** Redirect handles the redirection from a short URL to the original
    long URL. *)
Definition Redirect (c : Context) : @service.M P R Response :=
  let shortCode := Param c "shortCode" in
  service.bind (service.GetLongURL shortCode)
    (fun r =>
       match r with
       | Err _ =>
         service.ret (JSON StatusNotFound (ErrorPayload "Short URL not found"))
       | Ok longURL => service.ret (RedirectTo StatusFound longURL)
       end).

(** GetStats handles retrieving statistics for a short URL. *)
Definition GetStats (c : Context) : @service.M P R Response :=
  let shortCode := Param c "shortCode" in
  service.bind (service.GetURLStats shortCode)
    (fun r =>
       match r with
       | Err _ =>
         service.ret (JSON StatusNotFound (ErrorPayload "Short URL not found"))
       | Ok stats => service.ret (JSON StatusOK (StatsPayload stats))
       end).

(** HealthCheck handles the health check endpoint. *)
Definition HealthCheck (c : Context) : @service.M P R Response :=
  service.ret (JSON StatusOK (HealthPayload "healthy")).

End Handlers.
End api.

(** ** The server command: configuration and wiring *)

Module server.
Import Go.

(** [os.Getenv]: the value of a variable, empty when it is not set. *)
Class Environ : Type := Getenv : string -> string.

Definition requiredKeys : list string :=
  ["POSTGRES_HOST"; "POSTGRES_PORT"; "POSTGRES_USER"; "POSTGRES_PASSWORD";
   "POSTGRES_DATABASE"; "REDIS_HOST"; "REDIS_PORT"].

(** The loop of [validateConfig]: [for _, key := range requiredKeys]. *)
Fixpoint validate_keys {Env : Environ} (keys : list string) : option error :=
  match keys with
  | [] => None
  | key :: rest =>
    if String.eqb (Getenv key) "" then
      Some (service.Errorf ("missing required environment variable: " +:+ key))
    else validate_keys rest
  end.

(** validateConfig checks for the presence of required environment
    variables. *)
Definition validateConfig {Env : Environ} : option error :=
  validate_keys requiredKeys.

(** getEnvOrDefault (desktop command) retrieves the value of the
    environment variable or returns the default value. *)
Definition getEnvOrDefault {Env : Environ} (key defaultValue : string) : string :=
  let value := Getenv key in
  if negb (String.eqb value "") then value else defaultValue.

(** [*repo.RedisRepo] is what [main] passes to [NewShortenerService] as
    its [RedisRepository]. *)
#[export] Instance RedisRepo_RedisRepository {C : Type}
    {ClientC : repo.Client C} {J : repo.JSON}
    : service.RedisRepository (repo.RedisRepo C) := {
  service.Get := repo.RedisRepo.Get;
  service.Set_ := repo.RedisRepo.Set_;
  service.Delete := repo.RedisRepo.Delete;
  service.Exists := repo.RedisRepo.Exists
}.

End server.

(** ** Relations between two states of the program *)

Module frames.
Import Go validator.

Section Frames.
Context {P R : Type}.
Context {PG : service.PostgresRepository P} {RD : service.RedisRepository R}.

(** A computation keeps a relation when the state it ends in is related
    to the state it started from. *)
Definition keeps (Rel : @service.Process P R -> @service.Process P R -> Prop)
    {A} (m : @service.M P R A) : Prop :=
  forall w, Rel w (snd (m w)).

(** The configuration of the service is the same in both states. *)
Definition same_config (w w' : @service.Process P R) : Prop :=
  service.generator (service.svc w') = service.generator (service.svc w)
  /\ service.baseURL (service.svc w') = service.baseURL (service.svc w)
  /\ service.maxRetries (service.svc w') = service.maxRetries (service.svc w)
  /\ service.cap (service.clickWorkers (service.svc w'))
     = service.cap (service.clickWorkers (service.svc w)).

(** The state with the goroutine at position [k] gone. *)
Definition without_goroutine (k : nat) (w : @service.Process P R)
    : @service.Process P R :=
  {| service.svc := service.svc w;
     service.goroutines := delete k (service.goroutines w);
     service.logs := service.logs w;
     service.calls := service.calls w |}.

End Frames.

(** The commands that a [RedisRepo] cache was handed between two states
    all carry a valid short code as their key. *)
Definition valid_key (command : string * string) : bool :=
  IsValidShortCode (snd command).

Definition sends_valid_keys {P C : Type}
    (w w' : @service.Process P (repo.RedisRepo C)) : Prop :=
  exists sent,
    repo.commands (service.redisRepo (service.svc w'))
    = repo.commands (service.redisRepo (service.svc w)) ++ sent
    /\ forallb valid_key sent = true.

End frames.

(** ** In-memory collaborators

    Stand-ins for the library functions and for the two repositories,
    used to run the service on concrete inputs. The store and the cache
    follow the contracts of the interfaces: a unique short code per row,
    [ErrNotFound] for an absent code. *)

Module fakes.
Import Go.

(** [strings.TrimSpace] on ASCII white space. *)
Definition isSpace (c : ascii) : bool :=
  let b := byte_of_ascii c in between 9 13 b || (b =? 32).

Fixpoint trimLeft (s : string) : string :=
  match s with
  | EmptyString => EmptyString
  | String c t => if isSpace c then trimLeft t else s
  end.

Fixpoint trimRight (s : string) : string :=
  match s with
  | EmptyString => EmptyString
  | String c t =>
    match trimRight t with
    | EmptyString => if isSpace c then EmptyString else String c EmptyString
    | t' => String c t'
    end
  end.

#[export] Instance ascii_Strings : Strings := fun s => trimRight (trimLeft s).

(** [url.Parse], reduced to finding the host: what follows the first
    "://" up to the next '/', '?' or '#'. *)
Fixpoint after_scheme (s : string) : option string :=
  match s with
  | EmptyString => None
  | String _ t =>
    if String.prefix "://" s then Some (String.substring 3 (String.length s - 3) s)
    else after_scheme t
  end.

Fixpoint host_part (s : string) : string :=
  match s with
  | EmptyString => EmptyString
  | String c t =>
    if Ascii.eqb c "/" || Ascii.eqb c "?" || Ascii.eqb c "#" then EmptyString
    else String c (host_part t)
  end.

#[export] Instance host_NetURL : NetURL :=
  fun s =>
    match after_scheme s with
    | Some rest => Ok {| Host := host_part rest |}
    | None => Ok {| Host := EmptyString |}
    end.

(** The store: the rows by short code and the last value of the
    sequence. *)
Record memStore : Type := {
  rows : gmap string domain.URL;
  last_id : Z
}.

Definition add_click (u : domain.URL) : domain.URL :=
  {| domain.ID := domain.ID u; domain.ShortCode := domain.ShortCode u;
     domain.LongURL := domain.LongURL u; domain.CreatedAt := domain.CreatedAt u;
     domain.Clicks := domain.Clicks u + 1 |}.

#[export] Instance memStore_PostgresRepository
    : service.PostgresRepository memStore := {
  service.Create m id shortCode longURL :=
    match rows m !! shortCode with
    | Some _ => (m, Err repo.ErrAlreadyExists)
    | None =>
      let u := {| domain.ID := id; domain.ShortCode := shortCode;
                  domain.LongURL := longURL; domain.CreatedAt := 0;
                  domain.Clicks := 0 |} in
      ({| rows := <[shortCode := u]> (rows m); last_id := last_id m |}, Ok u)
    end;
  service.GetByShortCode m shortCode :=
    match rows m !! shortCode with
    | Some u => (m, Ok u)
    | None => (m, Err repo.ErrNotFound)
    end;
  service.IncrementClicksCounter m shortCode :=
    match rows m !! shortCode with
    | Some u =>
      ({| rows := <[shortCode := add_click u]> (rows m); last_id := last_id m |}, None)
    | None => (m, Some repo.ErrNotFound)
    end;
  service.GetNextID m :=
    ({| rows := rows m; last_id := last_id m + 1 |}, Ok (last_id m + 1))
}.

(** The cache: the entries by short code (no expiry). *)
Definition memCache : Type := gmap string domain.URL.

#[export] Instance memCache_RedisRepository
    : service.RedisRepository memCache := {
  service.Get m shortCode :=
    match m !! shortCode with
    | Some u => (m, Ok u)
    | None => (m, Err repo.ErrNotFound)
    end;
  service.Set_ m shortCode url := (<[shortCode := url]> m, None);
  service.Delete m shortCode := (delete shortCode m, None);
  service.Exists m shortCode :=
    (m, Ok (match m !! shortCode with Some _ => true | None => false end))
}.

(** A cache that is down: every call fails. *)
Inductive downCache : Type := Down.

Definition connection_refused : error := errorString "dial tcp: connection refused".

#[export] Instance downCache_RedisRepository
    : service.RedisRepository downCache := {
  service.Get m _ := (m, Err connection_refused);
  service.Set_ m _ _ := (m, Some connection_refused);
  service.Delete m _ := (m, Some connection_refused);
  service.Exists m _ := (m, Err connection_refused)
}.

(** A database and a Redis server that are down, and a JSON encoder that
    refuses its input. *)
Inductive downDB : Type := DownDB.

#[export] Instance downDB_Pool : repo.Pool downDB := {
  repo.QueryRow_ScanURL db _ _ := (db, Err connection_refused);
  repo.QueryRow_ScanInt64 db _ _ := (db, Err connection_refused);
  repo.Exec_RowsAffected db _ _ := (db, Err connection_refused)
}.

Inductive downRedis : Type := DownRedis.

#[export] Instance downRedis_Client : repo.Client downRedis := {
  repo.client_Set c _ _ _ := (c, Some connection_refused);
  repo.client_Get c _ := (c, Err connection_refused);
  repo.client_Del c _ := (c, Some connection_refused);
  repo.client_Exists c _ := (c, Err connection_refused)
}.

Definition refusing_JSON : repo.JSON := {|
  repo.json_Marshal _ := Err (errorString "json: unsupported value");
  repo.json_Unmarshal _ := Err (errorString "json: unexpected end of input")
|}.

Definition row (id : Z) (shortCode longURL : string) : domain.URL :=
  {| domain.ID := id; domain.ShortCode := shortCode; domain.LongURL := longURL;
     domain.CreatedAt := 0; domain.Clicks := 0 |}.

(** A store that holds the given rows. *)
Definition store_of (l : list domain.URL) (last_id : Z) : memStore :=
  {| rows := list_to_map (map (fun u => (domain.ShortCode u, u)) l); last_id := last_id |}.

(** A store that is down, and a store that hands out identifiers but
    refuses every insert. *)
Inductive downStore : Type := DownStore.

#[export] Instance downStore_PostgresRepository
    : service.PostgresRepository downStore := {
  service.Create m _ _ _ := (m, Err connection_refused);
  service.GetByShortCode m _ := (m, Err connection_refused);
  service.IncrementClicksCounter m _ := (m, Some connection_refused);
  service.GetNextID m := (m, Err connection_refused)
}.

Record readOnlyStore : Type := { next : Z }.

Definition read_only : error :=
  errorString "cannot execute INSERT in a read-only transaction".

#[export] Instance readOnlyStore_PostgresRepository
    : service.PostgresRepository readOnlyStore := {
  service.Create m _ _ _ := (m, Err read_only);
  service.GetByShortCode m _ := (m, Err repo.ErrNotFound);
  service.IncrementClicksCounter m _ := (m, Some repo.ErrNotFound);
  service.GetNextID m := ({| next := next m + 1 |}, Ok (next m + 1))
}.

(** A database in memory behind the pool: the rows of [urls] by short
    code and the last value of the sequence. An insert of a code that is
    there fails with SQLSTATE 23505, a select of a code that is not
    there with [pgx.ErrNoRows]. *)
Record memDB : Type := {
  urls : gmap string domain.URL;
  urls_id_seq : Z
}.

Definition unique_violation : error :=
  wrapError "ERROR: duplicate key value violates unique constraint"
            (PgError "23505").

Definition bad_statement : error := errorString "unexpected statement".

#[export] Instance memDB_Pool : repo.Pool memDB := {
  repo.QueryRow_ScanURL db query args :=
    match args with
    | [repo.ArgString shortCode; repo.ArgString longURL; repo.ArgTime now] =>
      if negb (String.eqb query repo.PostgresRepo.insert_query)
      then (db, Err bad_statement)
      else
        match urls db !! shortCode with
        | Some _ => (db, Err unique_violation)
        | None =>
          let id := urls_id_seq db + 1 in
          let u := {| domain.ID := id; domain.ShortCode := shortCode;
                      domain.LongURL := longURL; domain.CreatedAt := now;
                      domain.Clicks := 0 |} in
          ({| urls := <[shortCode := u]> (urls db); urls_id_seq := id |}, Ok u)
        end
    | [repo.ArgString shortCode] =>
      if negb (String.eqb query repo.PostgresRepo.select_query)
      then (db, Err bad_statement)
      else
        match urls db !! shortCode with
        | Some u => (db, Ok u)
        | None => (db, Err repo.pgx_ErrNoRows)
        end
    | _ => (db, Err bad_statement)
    end;
  repo.QueryRow_ScanInt64 db query args :=
    ({| urls := urls db; urls_id_seq := urls_id_seq db + 1 |},
     Ok (urls_id_seq db + 1));
  repo.Exec_RowsAffected db query args :=
    match args with
    | [repo.ArgString shortCode] =>
      match urls db !! shortCode with
      | Some u =>
        ({| urls := <[shortCode := add_click u]> (urls db);
            urls_id_seq := urls_id_seq db |}, Ok 1)
      | None => (db, Ok 0)
      end
    | _ => (db, Err bad_statement)
    end
}.

(** A Redis server in memory: the values by key (no expiry). *)
Definition memRedis : Type := gmap string string.

#[export] Instance memRedis_Client : repo.Client memRedis := {
  repo.client_Set c key value _ := (<[key := value]> c, None);
  repo.client_Get c key :=
    match c !! key with
    | Some value => (c, Ok value)
    | None => (c, Err repo.redis_Nil)
    end;
  repo.client_Del c key := (delete key c, None);
  repo.client_Exists c key :=
    (c, Ok (match c !! key with Some _ => 1 | None => 0 end))
}.

(** A stand-in for [encoding/json] on [domain.URL]: the three numbers in
    decimal, the short code and the long URL, separated by commas. *)
Definition decimal (z : Z) : string :=
  DecimalString.NilZero.string_of_int (Z.to_int z).

Definition parse_decimal (s : string) : option Z :=
  option_map Z.of_int (DecimalString.NilZero.int_of_string s).

Fixpoint cut_at_comma (s : string) : option (string * string) :=
  match s with
  | EmptyString => None
  | String c t =>
    if Ascii.eqb c "," then Some (EmptyString, t)
    else
      match cut_at_comma t with
      | Some (field, rest) => Some (String c field, rest)
      | None => None
      end
  end.

Definition bad_record : error := errorString "json: cannot unmarshal record".

Definition csv_JSON : repo.JSON := {|
  repo.json_Marshal u :=
    Ok (decimal (domain.ID u) +:+ "," +:+ decimal (domain.CreatedAt u) +:+ ","
        +:+ decimal (domain.Clicks u) +:+ "," +:+ domain.ShortCode u +:+ ","
        +:+ domain.LongURL u);
  repo.json_Unmarshal data :=
    match cut_at_comma data with
    | Some (f1, r1) =>
      match cut_at_comma r1 with
      | Some (f2, r2) =>
        match cut_at_comma r2 with
        | Some (f3, r3) =>
          match cut_at_comma r3 with
          | Some (f4, r4) =>
            match parse_decimal f1, parse_decimal f2, parse_decimal f3 with
            | Some id, Some created, Some clicks =>
              Ok {| domain.ID := id; domain.ShortCode := f4;
                    domain.LongURL := r4; domain.CreatedAt := created;
                    domain.Clicks := clicks |}
            | _, _, _ => Err bad_record
            end
          | None => Err bad_record
          end
        | None => Err bad_record
        end
      | None => Err bad_record
      end
    | None => Err bad_record
    end
|}.

(** An environment given by a list of settings. *)
Fixpoint lookup_env (settings : list (string * string)) (key : string) : string :=
  match settings with
  | [] => EmptyString
  | (k, v) :: rest => if String.eqb k key then v else lookup_env rest key
  end.

(** A request decoder that takes the body as the long URL, rejects an
    empty body, and a validator that wants a scheme separator. *)
Definition plain_Echo : api.Echo := {|
  api.Bind body :=
    if String.eqb body "" then Err (errorString "EOF")
    else Ok {| domain.req_LongURL := body |};
  api.Validate request :=
    match after_scheme (domain.req_LongURL request) with
    | Some _ => None
    | None => Some (errorString "Field validation for 'LongURL' failed on the 'url' tag")
    end;
  api.Error err :=
    match err with
    | errorString msg => msg
    | wrapError msg _ => msg
    | PgError code => code
    end
|}.

End fakes.

(** ** The states of the matcher on the short-code pattern *)

Module matcher_states.
Import Go regexp.

Definition alnum_class : Regexp :=
  CharClass [("0", "9"); ("A", "Z"); ("a", "z")]%char.

(** The states the matcher goes through on [[0-9A-Za-z]+]: after a
    character outside the class every state rejects whatever follows;
    after characters of the class only, a state accepts exactly the
    sequences of characters of the class. *)
Inductive rejecting : Regexp -> Prop :=
| rejecting_dead : rejecting (Concat NoMatch (Star alnum_class))
| rejecting_alt r1 r2 : rejecting r1 -> rejecting r2 -> rejecting (Alternate r1 r2).

Inductive accepting : Regexp -> Prop :=
| accepting_loop : accepting (Concat EmptyMatch (Star alnum_class))
| accepting_left r1 r2 : accepting r1 -> rejecting r2 -> accepting (Alternate r1 r2)
| accepting_right r1 r2 : rejecting r1 -> accepting r2 -> accepting (Alternate r1 r2)
| accepting_both r1 r2 : accepting r1 -> accepting r2 -> accepting (Alternate r1 r2).

End matcher_states.

(** ** Reference notions for the codec

    What the specification calls the alphabet, the value of a string of
    digits and the base-62 representation of a number, written
    independently of the code above. *)

Module codec_spec.
Import Go.

(** A character of [0-9A-Za-z]. *)
Definition alnum (c : Z) : bool :=
  between 48 57 c || between 65 90 c || between 97 122 c.

(** The value of a digit: digits, then upper case, then lower case;
    -1 for any other character. *)
Definition digit_of (c : Z) : Z :=
  if between 48 57 c then c - 48
  else if between 65 90 c then c - 65 + 10
  else if between 97 122 c then c - 97 + 36
  else -1.

(** The symbol of a digit value in 0..61. *)
Definition symbol_of (d : Z) : Z :=
  if d <? 10 then d + 48 else if d <? 36 then d - 10 + 65 else d - 36 + 97.

(** The characters of a string are its runes. *)
Definition all_alnum (s : string) : bool := forallb alnum (runes_of_string s).

(** The value of a sequence of characters read as base-62 digits, most
    significant first: each digit weighs 62 to the power of its distance
    from the end. *)
Fixpoint positional (cs : list Z) : Z :=
  match cs with
  | [] => 0
  | c :: rest => digit_of c * 62 ^ Z.of_nat (length rest) + positional rest
  end.

Definition value_of (s : string) : Z := positional (bytes s).

(** The digits of a positive number, least significant first: take the
    value modulo 62, divide by 62, stop at zero. The recursion follows the
    binary digits of the number, which outnumber its base-62 digits. *)
Fixpoint digits_from (fuel : nat) (n : Z) : list Z :=
  match fuel with
  | O => []
  | S fuel' =>
    if n <=? 0 then [] else symbol_of (n mod 62) :: digits_from fuel' (n / 62)
  end.

(** The base-62 representation: the digits most significant first, and
    "0" for zero. *)
Definition base62_repr (n : Z) : string :=
  if n =? 0 then "0"
  else string_of_bytes (rev (digits_from (S (Z.to_nat (Z.log2 n))) n)).

(** The characters a short code may have, and how many. *)
Definition short_code_spec (s : string) : bool :=
  let cs := runes_of_string s in
  (1 <=? length cs)%nat && (length cs <=? 10)%nat && forallb alnum cs.

(** Encoding and decoding again, as the round-trip test of the codec
    does. *)
Definition round_trip {P : shortid.MathPow} (g : shortid.Generator) (n : Z)
    : outcome Z :=
  match shortid.Encode g n with
  | Returned encoded => Returned (shortid.Decode g encoded)
  | Panicked msg => Panicked msg
  | OutOfFuel => OutOfFuel
  end.

End codec_spec.

(** * Properties *)

Import Go shortid validator codec_spec.

(** ** Bytes, runes and the alphabet *)

Section Runes.

Lemma wrap64_small z : min_int64 <= z <= max_int64 -> wrap64 z = z.
Proof.
  unfold wrap64, min_int64, max_int64. intros Hz.
  rewrite Z.mod_small by lia. lia.
Qed.

Lemma byte_of_ascii_range a : 0 <= byte_of_ascii a < 256.
Proof.
  unfold byte_of_ascii. pose proof (N_ascii_bounded a) as Hb. lia.
Qed.

Lemma ascii_of_byte_of_ascii a : ascii_of_byte (byte_of_ascii a) = a.
Proof.
  unfold ascii_of_byte, byte_of_ascii.
  rewrite N2Z.id. apply ascii_N_embedding.
Qed.

Lemma byte_of_ascii_of_byte b : 0 <= b < 256 -> byte_of_ascii (ascii_of_byte b) = b.
Proof.
  intros Hb. unfold ascii_of_byte, byte_of_ascii.
  rewrite N_ascii_embedding by lia. lia.
Qed.

Lemma string_of_bytes_bytes s : string_of_bytes (bytes s) = s.
Proof.
  unfold string_of_bytes, bytes. rewrite map_map.
  rewrite (map_ext _ (fun a => a)) by apply ascii_of_byte_of_ascii.
  rewrite map_id. apply string_of_list_ascii_of_string.
Qed.

Lemma bytes_string_of_bytes bs :
  Forall (fun b => 0 <= b < 256) bs -> bytes (string_of_bytes bs) = bs.
Proof.
  intros Hbs. unfold string_of_bytes, bytes.
  rewrite list_ascii_of_string_of_list_ascii, map_map.
  induction Hbs as [|b bs Hb _ IH]; simpl; [reflexivity|].
  rewrite byte_of_ascii_of_byte by exact Hb. now rewrite IH.
Qed.

Lemma bytes_range s : Forall (fun b => 0 <= b < 256) (bytes s).
Proof.
  unfold bytes. induction (list_ascii_of_string s) as [|a l IH]; simpl.
  - constructor.
  - constructor; [apply byte_of_ascii_range | exact IH].
Qed.

Lemma length_bytes s : length (bytes s) = String.length s.
Proof.
  unfold bytes. rewrite length_map.
  induction s as [|a s IH]; simpl; [reflexivity | now rewrite IH].
Qed.

Lemma len_bytes s : len s = Z.of_nat (length (bytes s)).
Proof. unfold len. now rewrite length_bytes. Qed.

Lemma alnum_range c : alnum c = true -> 48 <= c <= 122.
Proof. unfold alnum, between. lia. Qed.

Lemma alnum_digit_of c : alnum c = true -> 0 <= digit_of c <= 61.
Proof. unfold alnum, digit_of, between. intros H.
  repeat match goal with |- context [if ?b then _ else _] => destruct b eqn:? end; lia.
Qed.

Lemma not_alnum_digit_of c : alnum c = false -> digit_of c = -1.
Proof. unfold alnum, digit_of, between. intros H.
  repeat match goal with |- context [if ?b then _ else _] => destruct b eqn:? end; lia.
Qed.

(** A rune read from bytes is in the alphabet exactly when the first byte
    is, and then it is that byte, one byte wide. *)
Lemma DecodeRune_ascii b t : b < 128 -> DecodeRune (b :: t) = (b, 1%nat).
Proof.
  intros Hb. unfold DecodeRune, RuneSelf.
  destruct (Z.ltb_spec b 128); [reflexivity | lia].
Qed.

Lemma DecodeRune_not_ascii b t :
  128 <= b -> alnum (fst (DecodeRune (b :: t))) = false.
Proof.
  intros Hb. unfold DecodeRune, RuneSelf, RuneError.
  destruct (Z.ltb_spec b 128); [lia|].
  repeat match goal with
    | |- context [if ?c then _ else _] => destruct c eqn:?
    | |- context [match ?l with [] => _ | _ :: _ => _ end] => destruct l
    end; simpl; unfold alnum, between in *; lia.
Qed.

End Runes.

Section Alphabet.

Lemma range_from_cons b t i :
  range_from 0 i (b :: t) =
  (i, fst (DecodeRune (b :: t)))
    :: range_from (Nat.pred (snd (DecodeRune (b :: t)))) (i + 1) t.
Proof.
  cbn [range_from]. destruct (DecodeRune (b :: t)) as [r w]. reflexivity.
Qed.

Lemma range_from_cons_ascii b t i :
  b < 128 -> range_from 0 i (b :: t) = (i, b) :: range_from 0 (i + 1) t.
Proof.
  intros Hb. rewrite range_from_cons, DecodeRune_ascii by exact Hb. reflexivity.
Qed.

Lemma first_rune_alnum b t : alnum (fst (DecodeRune (b :: t))) = alnum b.
Proof.
  destruct (Z.lt_ge_cases b 128) as [Hb|Hb].
  - now rewrite DecodeRune_ascii.
  - rewrite DecodeRune_not_ascii by exact Hb.
    symmetry. unfold alnum, between. lia.
Qed.

(** The runes of a byte sequence are all in the alphabet exactly when
    its bytes are. *)
Lemma forallb_alnum_runes bs i :
  forallb alnum (map snd (range_from 0 i bs)) = forallb alnum bs.
Proof.
  revert i. induction bs as [|b t IH]; intros i; [reflexivity|].
  destruct (alnum b) eqn:Hb.
  - pose proof (alnum_range _ Hb).
    rewrite range_from_cons_ascii by lia. cbn [map snd forallb].
    now rewrite Hb, IH.
  - rewrite range_from_cons. cbn [map snd forallb].
    now rewrite first_rune_alnum, Hb.
Qed.

Lemma all_alnum_bytes s : all_alnum s = forallb alnum (bytes s).
Proof. unfold all_alnum, runes_of_string, range. apply forallb_alnum_runes. Qed.

Lemma runes_of_alnum_bytes bs i :
  forallb alnum bs = true -> map snd (range_from 0 i bs) = bs.
Proof.
  revert i. induction bs as [|b t IH]; intros i Hall; [reflexivity|].
  cbn [forallb] in Hall. apply andb_prop in Hall as [Hb Ht].
  pose proof (alnum_range _ Hb).
  rewrite range_from_cons_ascii by lia. cbn [map snd]. now rewrite IH.
Qed.

(** In the alphabet string, a rune sits at the offset that is its digit
    value; a rune that does not occur gives -1. *)
Lemma IndexRune_base62Chars c : IndexRune base62Chars c = digit_of c.
Proof.
  unfold IndexRune.
  let l := eval vm_compute in (range base62Chars) in
  change (range base62Chars) with l.
  cbn [first_offset].
  repeat match goal with
  | |- context [?k =? c] =>
    destruct (Z.eqb_spec k c) as [<-|?]; [reflexivity|]
  end.
  unfold digit_of, between.
  repeat match goal with
  | |- context [if ?b then _ else _] => destruct b eqn:?
  end; lia.
Qed.

Lemma IndexRune_alnum c : alnum c = true -> 0 <= IndexRune base62Chars c <= 61.
Proof. rewrite IndexRune_base62Chars. apply alnum_digit_of. Qed.

Lemma IndexRune_not_alnum c : alnum c = false -> IndexRune base62Chars c = -1.
Proof. rewrite IndexRune_base62Chars. apply not_alnum_digit_of. Qed.

Lemma positional_nonneg cs : forallb alnum cs = true -> 0 <= positional cs.
Proof.
  induction cs as [|c t IH]; intros Hall; cbn [positional]; [lia|].
  cbn [forallb] in Hall. apply andb_prop in Hall as [Hc Ht].
  pose proof (alnum_digit_of _ Hc). specialize (IH Ht).
  assert (0 <= 62 ^ Z.of_nat (length t)) by (apply Z.pow_nonneg; lia).
  nia.
Qed.

Lemma positional_bound cs :
  forallb alnum cs = true -> positional cs < 62 ^ Z.of_nat (length cs).
Proof.
  induction cs as [|c t IH]; intros Hall; cbn [positional length]; [simpl; lia|].
  cbn [forallb] in Hall. apply andb_prop in Hall as [Hc Ht].
  pose proof (alnum_digit_of _ Hc). specialize (IH Ht).
  rewrite Nat2Z.inj_succ, Z.pow_succ_r by lia. nia.
Qed.

End Alphabet.

(** ** The codec *)

Section Codec.
Context {P : MathPow}.

Lemma base_NewGenerator : base NewGenerator = 62.
Proof. reflexivity. Qed.

(** The loop of [Decode] stops with -1 at the first rune that is not in
    the alphabet, whatever it has added up so far. *)
Lemma decode_loop_invalid g encoded visits number :
  forallb alnum (map snd visits) = false ->
  decode_loop g encoded visits number = -1.
Proof.
  revert number. induction visits as [|[i c] rest IH]; intros number Hbad.
  - discriminate.
  - cbn [decode_loop]. cbn [map snd forallb] in Hbad.
    destruct (alnum c) eqn:Hc.
    + pose proof (IndexRune_alnum _ Hc).
      destruct (Z.eqb_spec (IndexRune base62Chars c) (-1)); [lia|].
      apply IH. exact Hbad.
    + now rewrite (IndexRune_not_alnum _ Hc).
Qed.

Lemma Decode_invalid g s : all_alnum s = false -> Decode g s = -1.
Proof. intros Hbad. unfold Decode. now apply decode_loop_invalid. Qed.

Context {E : MathPowExact P}.

(** One summand of [Decode]: the product is the exact weight of the digit
    whenever that weight fits [int64]. *)
Lemma digit_weight d p :
  0 <= d <= 61 -> 0 <= p -> d * 62 ^ p <= max_int64 ->
  wrap64 (d * pow_int64 62 p) = d * 62 ^ p.
Proof.
  intros Hd Hp Hfit.
  assert (0 < 62 ^ p) by (apply Z.pow_pos_nonneg; lia).
  destruct (Z.le_gt_cases p 10) as [Hle|Hgt].
  - rewrite pow_int64_exact by lia. apply wrap64_small.
    unfold min_int64. nia.
  - assert (62 ^ 11 <= 62 ^ p) by (apply Z.pow_le_mono_r; lia).
    assert (max_int64 < 62 ^ 11) by (vm_compute; reflexivity).
    assert (d = 0) by nia. subst d.
    rewrite !Z.mul_0_l. reflexivity.
Qed.

Lemma decode_loop_value encoded t k number :
  forallb alnum t = true ->
  len encoded = k + Z.of_nat (length t) ->
  0 <= number -> number + positional t <= max_int64 ->
  decode_loop NewGenerator encoded (range_from 0 k t) number
  = number + positional t.
Proof.
  revert k number. induction t as [|c t IH]; intros k number Hall Hlen Hn Hfit.
  - cbn. lia.
  - cbn [forallb] in Hall. apply andb_prop in Hall as [Hc Ht].
    pose proof (alnum_range _ Hc). pose proof (alnum_digit_of _ Hc) as Hd.
    pose proof (positional_nonneg _ Ht) as Hpos.
    rewrite range_from_cons_ascii by lia.
    cbn [decode_loop positional length] in *.
    rewrite IndexRune_base62Chars, base_NewGenerator.
    destruct (Z.eqb_spec (digit_of c) (-1)); [lia|].
    replace (len encoded - k - 1) with (Z.of_nat (length t)) by lia.
    set (p := Z.of_nat (length t)) in *.
    assert (0 <= 62 ^ p) by (apply Z.pow_nonneg; lia).
    rewrite digit_weight by (try lia; nia).
    rewrite wrap64_small by (unfold min_int64; nia).
    rewrite IH; try lia; try assumption.
Qed.

(** On a string of alphabet characters whose value fits [int64], [Decode]
    gives that value. *)
Lemma Decode_value s :
  all_alnum s = true -> value_of s <= max_int64 ->
  Decode NewGenerator s = value_of s.
Proof.
  intros Hall Hfit. rewrite all_alnum_bytes in Hall.
  unfold Decode, range, value_of in *.
  rewrite decode_loop_value; try assumption; try lia.
  rewrite len_bytes. lia.
Qed.

(** Strings of at most ten alphabet characters have a value that fits. *)
Lemma short_value_fits s :
  all_alnum s = true -> (String.length s <= 10)%nat -> value_of s <= max_int64.
Proof.
  intros Hall Hlen. rewrite all_alnum_bytes in Hall.
  pose proof (positional_bound _ Hall) as Hb. rewrite length_bytes in Hb.
  assert (62 ^ Z.of_nat (String.length s) <= 62 ^ 10)
    by (apply Z.pow_le_mono_r; lia).
  assert (62 ^ 10 <= max_int64) by (vm_compute; discriminate).
  unfold value_of. lia.
Qed.

End Codec.

Section Encoding.

Lemma elem_at_Some {A} (l : list A) i :
  0 <= i < Z.of_nat (length l) -> exists x, elem_at l i = Some x.
Proof.
  intros Hi. unfold elem_at.
  destruct (Z.leb_spec 0 i); [|lia].
  destruct (Z.ltb_spec i (Z.of_nat (length l))); [|lia].
  cbn [andb]. apply lookup_lt_is_Some_2. lia.
Qed.

Lemma elem_at_None {A} (l : list A) i :
  Z.of_nat (length l) <= i -> elem_at l i = None.
Proof.
  intros Hi. unfold elem_at.
  destruct (Z.ltb_spec i (Z.of_nat (length l))); [lia|].
  now rewrite andb_false_r.
Qed.

Ltac below_62 k :=
  do 62 (destruct k as [|k]; [vm_compute; reflexivity|]); lia.

(** [base62Chars[d]] is the symbol of the digit value [d]. *)
Lemma base62Chars_at d :
  0 <= d < 62 -> elem_at (bytes base62Chars) d = Some (symbol_of d).
Proof.
  intros Hd. replace d with (Z.of_nat (Z.to_nat d)) by lia.
  assert (Hk : (Z.to_nat d < 62)%nat) by lia.
  revert Hk. generalize (Z.to_nat d) as k. intros k Hk. below_62 k.
Qed.

Lemma symbol_of_alnum d : 0 <= d < 62 -> alnum (symbol_of d) = true.
Proof. unfold symbol_of, alnum, between. intros Hd.
  repeat match goal with |- context [if ?b then _ else _] => destruct b eqn:? end; lia.
Qed.

Lemma digit_of_symbol_of d : 0 <= d < 62 -> digit_of (symbol_of d) = d.
Proof.
  intros Hd. unfold symbol_of.
  destruct (Z.ltb_spec d 10); [|destruct (Z.ltb_spec d 36)];
    unfold digit_of, between;
    repeat match goal with |- context [if ?b then _ else _] => destruct b eqn:? end;
    lia.
Qed.

Lemma symbol_of_digit_of c : alnum c = true -> symbol_of (digit_of c) = c.
Proof.
  unfold digit_of, alnum, between. intros Hd.
  repeat match goal with |- context [if ?b then _ else _] => destruct b eqn:? end;
    unfold symbol_of;
    repeat match goal with |- context [if ?b then _ else _] => destruct b eqn:? end;
    lia.
Qed.

Lemma half_below n f : 0 <= n < 2 ^ Z.of_nat (S f) -> 0 <= n / 62 < 2 ^ Z.of_nat f.
Proof.
  rewrite Nat2Z.inj_succ, Z.pow_succ_r by lia. intros Hn. split.
  - apply Z.div_pos; lia.
  - apply Z.div_lt_upper_bound; lia.
Qed.

(** The digits of a number do not depend on the fuel, once there is
    enough of it. *)
Lemma digits_from_fuel f f' n :
  0 <= n < 2 ^ Z.of_nat f -> (f <= f')%nat ->
  digits_from f n = digits_from f' n.
Proof.
  revert f' n. induction f as [|f IH]; intros f' n Hn Hle.
  - cbn in Hn. assert (n = 0) by lia. subst n. destruct f'; reflexivity.
  - destruct f' as [|f']; [lia|]. cbn [digits_from].
    destruct (Z.leb_spec n 0); [reflexivity|].
    f_equal. apply IH; [apply half_below; lia | lia].
Qed.

Lemma digits_from_alnum f n : forallb alnum (digits_from f n) = true.
Proof.
  revert n. induction f as [|f IH]; intros n; cbn [digits_from]; [reflexivity|].
  destruct (Z.leb_spec n 0); [reflexivity|]. cbn [forallb].
  rewrite symbol_of_alnum by (apply Z.mod_pos_bound; lia). apply IH.
Qed.

Lemma positional_snoc cs c :
  positional (cs ++ [c]) = positional cs * 62 + digit_of c.
Proof.
  induction cs as [|a cs IH]; cbn [positional app length].
  - cbn. lia.
  - rewrite IH, length_app. cbn [length].
    replace (Z.of_nat (length cs + 1)) with (Z.succ (Z.of_nat (length cs))) by lia.
    rewrite Z.pow_succ_r by lia. ring.
Qed.

(** Read most significant first, the digits of [n] are worth [n]. *)
Lemma positional_digits_from f n :
  0 <= n < 2 ^ Z.of_nat f -> positional (rev (digits_from f n)) = n.
Proof.
  revert n. induction f as [|f IH]; intros n Hn.
  - cbn in *. lia.
  - cbn [digits_from]. destruct (Z.leb_spec n 0); [cbn; lia|].
    cbn [rev]. rewrite positional_snoc, IH by (apply half_below; lia).
    rewrite digit_of_symbol_of by (apply Z.mod_pos_bound; lia).
    pose proof (Z.div_mod n 62). lia.
Qed.

(** The first loop of [Encode] writes the digits of the number, least
    significant first, and returns. *)
Lemma encode_digits_digits_from fuel n acc :
  0 <= n < 2 ^ Z.of_nat fuel ->
  encode_digits fuel NewGenerator n acc = Returned (acc ++ digits_from fuel n).
Proof.
  revert n acc. induction fuel as [|fuel IH]; intros n acc Hn.
  - cbn in Hn. assert (n = 0) by lia. subst n. cbn. now rewrite app_nil_r.
  - cbn [encode_digits digits_from].
    destruct (Z.leb_spec n 0) as [Hle|Hgt].
    + assert (n = 0) by lia. subst n. cbn. now rewrite app_nil_r.
    + destruct (Z.gtb_spec n 0); [|lia].
      change (base NewGenerator) with 62. cbn [Z.eqb].
      rewrite Z.rem_mod_nonneg, Z.quot_div_nonneg by lia.
      rewrite base62Chars_at by (apply Z.mod_pos_bound; lia).
      rewrite IH by (apply half_below; lia).
      unfold WriteByte. now rewrite <- app_assoc.
Qed.

Lemma int64_below_64 n : 0 <= n <= max_int64 -> 0 <= n < 2 ^ Z.of_nat 64.
Proof. unfold max_int64. cbn. lia. Qed.

(** From 62 on a number has at least two digits. *)
Lemma two_digits n :
  62 <= n -> exists a b rest, digits_from 64 n = a :: b :: rest.
Proof.
  intros Hn. change 64%nat with (S (S 62)). cbn [digits_from].
  destruct (Z.leb_spec n 0); [lia|].
  assert (1 <= n / 62) by (apply Z.div_le_lower_bound; lia).
  destruct (Z.leb_spec (n / 62) 0); [lia|]. eauto.
Qed.

(** The second loop of [Encode], on two runes or more: the first round
    swaps the two ends; the second one reads [runes[len(runes)]]. *)
Lemma swap_loop_panics runes :
  (2 <= length runes)%nat ->
  swap_loop (S (length runes)) runes 0 (Z.of_nat (length runes) - 1)
  = Panicked index_out_of_range.
Proof.
  intros Hlen. cbn [swap_loop].
  destruct (Z.ltb_spec 0 (Z.of_nat (length runes) - 1)); [|lia].
  destruct (elem_at_Some runes (Z.of_nat (length runes) - 1)) as [rj ->]; [lia|].
  destruct (elem_at_Some runes 0) as [ri ->]; [lia|].
  set (runes' := <[_ := ri]> (<[_ := rj]> runes)).
  assert (Hlen' : length runes' = length runes)
    by (unfold runes'; now rewrite !length_insert).
  destruct (length runes) as [|m] eqn:Hm; [lia|]. cbn [swap_loop].
  destruct (Z.ltb_spec (0 + 1) (Z.of_nat (S m) - 1 + 1)); [|lia].
  rewrite (elem_at_None runes') by lia. reflexivity.
Qed.

(** On one rune or none the second loop does nothing. *)
Lemma swap_loop_short fuel runes :
  (length runes <= 1)%nat ->
  swap_loop fuel runes 0 (Z.of_nat (length runes) - 1) = Returned runes.
Proof.
  intros Hlen. destruct fuel; cbn [swap_loop];
    destruct (Z.ltb_spec 0 (Z.of_nat (length runes) - 1)); (lia || reflexivity).
Qed.

Lemma alnum_bytes_range bs :
  forallb alnum bs = true -> Forall (fun b => 0 <= b < 256) bs.
Proof.
  induction bs as [|b bs IH]; cbn [forallb]; intros H; constructor.
  - apply andb_prop in H as [H _]. apply alnum_range in H. lia.
  - apply IH. now apply andb_prop in H as [_ H].
Qed.

Lemma runes_of_alnum_string bs :
  forallb alnum bs = true -> runes_of_string (string_of_bytes bs) = bs.
Proof.
  intros H. unfold runes_of_string, range.
  rewrite bytes_string_of_bytes by now apply alnum_bytes_range.
  now apply runes_of_alnum_bytes.
Qed.

(** [Encode] on 62 and above: the run ends in a panic. *)
Lemma Encode_two_digits_panics n :
  62 <= n <= max_int64 -> Encode NewGenerator n = Panicked index_out_of_range.
Proof.
  intros Hn. unfold Encode.
  destruct (Z.eqb_spec n 0); [lia|].
  rewrite encode_digits_digits_from by (apply int64_below_64; lia).
  cbn [app]. rewrite runes_of_alnum_string by apply digits_from_alnum.
  destruct (two_digits n) as (a & b & rest & Hd); [lia|].
  rewrite swap_loop_panics; [reflexivity|]. rewrite Hd. cbn [length]. lia.
Qed.

(** [Encode] below 62: the one symbol of the number. *)
Lemma Encode_one_digit n :
  0 <= n < 62 -> Encode NewGenerator n = Returned (string_of_bytes [symbol_of n]).
Proof.
  intros Hn. replace n with (Z.of_nat (Z.to_nat n)) by lia.
  assert (Hk : (Z.to_nat n < 62)%nat) by lia.
  revert Hk. generalize (Z.to_nat n) as k. intros k Hk. below_62 k.
Qed.

Lemma base62_repr_one_digit n :
  0 <= n < 62 -> base62_repr n = string_of_bytes [symbol_of n].
Proof.
  intros Hn. replace n with (Z.of_nat (Z.to_nat n)) by lia.
  assert (Hk : (Z.to_nat n < 62)%nat) by lia.
  revert Hk. generalize (Z.to_nat n) as k. intros k Hk. below_62 k.
Qed.

Lemma log2_fuel n : 0 < n -> 0 <= n < 2 ^ Z.of_nat (S (Z.to_nat (Z.log2 n))).
Proof.
  intros Hn. pose proof (Z.log2_nonneg n).
  rewrite Nat2Z.inj_succ, Z2Nat.id by lia.
  pose proof (Z.log2_spec n Hn). lia.
Qed.

(** The reference representation is made of alphabet characters and is
    worth the number it represents. *)
Lemma base62_repr_value n :
  0 <= n -> all_alnum (base62_repr n) = true /\ value_of (base62_repr n) = n.
Proof.
  intros Hn. unfold base62_repr.
  destruct (Z.eqb_spec n 0) as [->|Hnz]; [split; reflexivity|].
  set (ds := digits_from _ n).
  assert (Hal : forallb alnum (rev ds) = true).
  { rewrite forallb_forall. intros c Hc. apply in_rev in Hc.
    pose proof (digits_from_alnum (S (Z.to_nat (Z.log2 n))) n) as Hds.
    rewrite forallb_forall in Hds. now apply Hds. }
  split.
  - rewrite all_alnum_bytes, bytes_string_of_bytes; [exact Hal|].
    now apply alnum_bytes_range.
  - unfold value_of. rewrite bytes_string_of_bytes by now apply alnum_bytes_range.
    apply positional_digits_from. apply log2_fuel. lia.
Qed.

End Encoding.

(** ** The short-code validator *)

Section ShortCodes.
Import regexp matcher_states.

Lemma in_class_alnum c :
  in_class [("0", "9"); ("A", "Z"); ("a", "z")]%char c = alnum c.
Proof.
  unfold in_class, alnum. cbn [existsb].
  change (byte_of_ascii "0") with 48. change (byte_of_ascii "9") with 57.
  change (byte_of_ascii "A") with 65. change (byte_of_ascii "Z") with 90.
  change (byte_of_ascii "a") with 97. change (byte_of_ascii "z") with 122.
  destruct (between 48 57 c), (between 65 90 c), (between 97 122 c); reflexivity.
Qed.

Lemma rejecting_deriv c r : rejecting r -> rejecting (deriv c r).
Proof. induction 1; cbn; now constructor. Qed.

Lemma rejecting_nullable r : rejecting r -> nullable r = false.
Proof. induction 1 as [|r1 r2 _ IH1 _ IH2]; cbn; [reflexivity|]. now rewrite IH1, IH2. Qed.

Lemma rejecting_matches r cs : rejecting r -> matches r cs = false.
Proof.
  revert r. induction cs as [|c cs IH]; intros r Hr; cbn.
  - now apply rejecting_nullable.
  - apply IH. now apply rejecting_deriv.
Qed.

Lemma accepting_nullable r : accepting r -> nullable r = true.
Proof.
  induction 1 as [|r1 r2 _ IH _|r1 r2 _ _ IH|r1 r2 _ IH _ _]; cbn;
    try reflexivity; rewrite IH; auto using orb_true_r.
Qed.

Lemma accepting_deriv c r :
  accepting r -> if alnum c then accepting (deriv c r) else rejecting (deriv c r).
Proof.
  induction 1 as [|r1 r2 H1 IH H2|r1 r2 H1 H2 IH|r1 r2 H1 IH1 H2 IH2].
  - cbn -[in_class]. rewrite in_class_alnum. destruct (alnum c).
    + apply accepting_right; constructor.
    + repeat constructor.
  - cbn [deriv]. pose proof (rejecting_deriv c _ H2).
    destruct (alnum c); now constructor.
  - cbn [deriv]. pose proof (rejecting_deriv c _ H1).
    destruct (alnum c); now constructor.
  - cbn [deriv]. destruct (alnum c); now constructor.
Qed.

Lemma accepting_matches r cs : accepting r -> matches r cs = forallb alnum cs.
Proof.
  revert r. induction cs as [|c cs IH]; intros r Hr; cbn [matches forallb].
  - now apply accepting_nullable.
  - pose proof (accepting_deriv c _ Hr) as Hd. destruct (alnum c).
    + now apply IH.
    + now apply rejecting_matches.
Qed.

(** The compiled pattern matches the non-empty sequences of characters
    of the class. *)
Lemma matches_validShortCodeRegex cs :
  matches validShortCodeRegex cs =
  match cs with [] => false | _ :: _ => forallb alnum cs end.
Proof.
  destruct cs as [|c cs]; [reflexivity|].
  unfold validShortCodeRegex, Plus. cbn -[in_class].
  rewrite in_class_alnum. destruct (alnum c) eqn:Hc; cbn [andb].
  - apply accepting_matches. constructor.
  - apply rejecting_matches. constructor.
Qed.

Lemma runes_nonempty b t : runes_of_string (string_of_bytes (b :: t)) <> [].
Proof.
  unfold runes_of_string, range, string_of_bytes, bytes.
  rewrite list_ascii_of_string_of_list_ascii. cbn [map].
  rewrite range_from_cons. discriminate.
Qed.

Lemma IsValidShortCode_bytes s :
  IsValidShortCode s =
  (1 <=? String.length s)%nat && (String.length s <=? 10)%nat
  && forallb alnum (bytes s).
Proof.
  unfold IsValidShortCode, MatchString, MinShortCodeLength, MaxShortCodeLength, len.
  destruct s as [|a s']; [reflexivity|].
  set (s := String a s'). cbn [String.eqb].
  assert (Hn : (1 <= String.length s)%nat) by (cbn; lia).
  destruct (Z.ltb_spec (Z.of_nat (String.length s)) 1); [lia|].
  destruct (Nat.leb_spec 1 (String.length s)); [|lia]. cbn [orb andb].
  destruct (Nat.leb_spec (String.length s) 10);
    destruct (Z.gtb_spec (Z.of_nat (String.length s)) 10); try lia;
    [|reflexivity].
  cbn [andb]. rewrite matches_validShortCodeRegex.
  rewrite <- all_alnum_bytes. unfold all_alnum.
  destruct (runes_of_string s) eqn:Hr; [|reflexivity].
  exfalso. rewrite <- (string_of_bytes_bytes s) in Hr.
  unfold s, bytes in Hr. cbn [list_ascii_of_string map] in Hr.
  now apply runes_nonempty in Hr.
Qed.

End ShortCodes.

(** [Encode] on a non-negative [int64]: one symbol, or a panic. *)
Lemma Encode_against_one_or_panic n :
  0 <= n <= max_int64 ->
  Encode NewGenerator n =
  if n <? 62 then Returned (string_of_bytes [symbol_of n])
  else Panicked index_out_of_range.
Proof.
  intros Hn. destruct (Z.ltb_spec n 62).
  - apply Encode_one_digit. lia.
  - apply Encode_two_digits_panics. lia.
Qed.

(** ** Claims about the validator and the codec *)

(** C8. [IsValidShortCode] accepts exactly the strings of one to ten
    characters that are all in [0-9A-Za-z]: whatever the string, the
    validator and [short_code_spec] agree. *)
Theorem IsValidShortCode_exact (s : string) :
  IsValidShortCode s = short_code_spec s.
Proof.
  rewrite IsValidShortCode_bytes. unfold short_code_spec, runes_of_string, range.
  rewrite forallb_alnum_runes.
  destruct (forallb alnum (bytes s)) eqn:Hall.
  - rewrite runes_of_alnum_bytes by exact Hall. now rewrite length_bytes.
  - now rewrite !andb_false_r.
Qed.

(** The rejections that the tests of the validator list: the empty string,
    eleven characters, a space, '@', '_', '-', '.', a non-ASCII letter,
    white space in front or behind, a newline inside. *)
Example IsValidShortCode_rejects :
  map IsValidShortCode
    [""; "abcdefghijk"; "abc 123"; "abc@123"; "abc_123"; "abc-123"; "abc.123";
     String "195" (String "169" "abc"); " abc123"; "abc123 ";
     String "a" (String "010" "b")]%string
  = repeat false 11.
Proof. vm_compute. reflexivity. Qed.

Example IsValidShortCode_accepts :
  map IsValidShortCode ["a"; "abc123"; "abcdefghij"; "0"; "ZZZ999"]%string
  = repeat true 5.
Proof. vm_compute. reflexivity. Qed.

Lemma pow_amd64_exact : MathPowExact pow_amd64.
Proof.
  intros p Hp. unfold pow_int64, pow_amd64.
  destruct (Z.leb_spec p 10); [reflexivity | lia].
Qed.

(** [Decode] inverts the reference representation on every non-negative
    [int64]. *)
Lemma Decode_base62_repr {P : MathPow} {E : MathPowExact P} n :
  0 <= n <= max_int64 -> Decode NewGenerator (base62_repr n) = n.
Proof.
  intros Hn. destruct (base62_repr_value n) as [Hal Hv]; [lia|].
  rewrite Decode_value; [exact Hv | exact Hal | lia].
Qed.

(** C1. The round trip gives the number back below 62, and ends in an
    index-out-of-range panic of [Encode] for every number from 62 up to
    the largest [int64]. *)
Theorem round_trip_outcome {P : MathPow} {E : MathPowExact P} (n : Z) :
  0 <= n <= max_int64 ->
  round_trip NewGenerator n =
  if n <? 62 then Returned n else Panicked index_out_of_range.
Proof.
  intros Hn. unfold round_trip. destruct (Z.ltb_spec n 62) as [Hlt|Hge].
  - rewrite Encode_one_digit by lia. f_equal.
    rewrite <- base62_repr_one_digit by lia. apply Decode_base62_repr. lia.
  - now rewrite Encode_two_digits_panics.
Qed.

Lemma round_trip_outcome_witness :
  round_trip (P := pow_amd64) NewGenerator 62 = Panicked index_out_of_range.
Proof.
  apply (round_trip_outcome (P := pow_amd64) (E := pow_amd64_exact) 62).
  vm_compute. split; discriminate.
Defined.

(** C2. [Encode] gives the reference base-62 representation below 62
    ("0" for zero), and panics from 62 on, where the representation has
    two characters or more. *)
Theorem Encode_against_base62_repr (n : Z) :
  0 <= n <= max_int64 ->
  Encode NewGenerator n =
  if n <? 62 then Returned (base62_repr n) else Panicked index_out_of_range.
Proof.
  intros Hn. destruct (Z.ltb_spec n 62) as [Hlt|Hge].
  - rewrite Encode_one_digit, base62_repr_one_digit by lia. reflexivity.
  - now apply Encode_two_digits_panics.
Qed.

Lemma Encode_against_base62_repr_witness :
  Encode NewGenerator 62 = Panicked index_out_of_range
  /\ base62_repr 62 = "10"%string.
Proof.
  split; [|reflexivity].
  apply (Encode_against_base62_repr 62). vm_compute. split; discriminate.
Defined.

(** The expectations of the tests of the codec that the code does not
    meet. *)
Example Encode_test_expectations :
  map base62_repr [0; 5; 62; 1000; 123456789] = ["0"; "5"; "10"; "G8"; "8M0kX"]%string
  /\ map (Encode NewGenerator) [0; 5; 62; 1000; 123456789]
     = [Returned "0"; Returned "5"; Panicked index_out_of_range;
        Panicked index_out_of_range; Panicked index_out_of_range]%string.
Proof. split; vm_compute; reflexivity. Qed.

(** C5. [Decode] returns -1, hence not 0, on every string with a
    character outside the alphabet; on a string of alphabet characters
    whose value fits [int64] it returns that value, which is not
    negative. Every string of at most ten alphabet characters is such a
    string. *)
Theorem Decode_marker_and_value {P : MathPow} {E : MathPowExact P}
    (bad good : string) :
  all_alnum bad = false ->
  all_alnum good = true ->
  value_of good <= max_int64 ->
  Decode NewGenerator bad = -1
  /\ Decode NewGenerator bad <> 0
  /\ Decode NewGenerator good = value_of good
  /\ 0 <= Decode NewGenerator good
  /\ forall s, all_alnum s = true -> (String.length s <= 10)%nat ->
               value_of s <= max_int64.
Proof.
  intros Hbad Hgood Hfit.
  rewrite (Decode_invalid _ _ Hbad), (Decode_value _ Hgood Hfit).
  repeat split; try lia.
  - rewrite all_alnum_bytes in Hgood. now apply positional_nonneg.
  - intros s Hs Hlen. now apply short_value_fits.
Qed.

Lemma Decode_marker_and_value_witness :
  Decode (P := pow_amd64) NewGenerator "a@b" = -1
  /\ Decode (P := pow_amd64) NewGenerator "8M0kX" = 123456789.
Proof.
  pose proof (Decode_marker_and_value (P := pow_amd64) (E := pow_amd64_exact)
                "a@b" "8M0kX") as H.
  destruct H as (H1 & _ & H2 & _).
  - vm_compute. reflexivity.
  - vm_compute. reflexivity.
  - vm_compute. discriminate.
  - split; [exact H1 | exact H2].
Defined.

(** Eleven times 'z' is a string of alphabet characters, worth 62^11 - 1;
    [Decode] returns a negative number for it. *)
Lemma Decode_overflow_counterexample :
  all_alnum "zzzzzzzzzzz" = true
  /\ value_of "zzzzzzzzzzz" = 62 ^ 11 - 1
  /\ Decode (P := pow_amd64) NewGenerator "zzzzzzzzzzz" = -3303671537291560961
  /\ Decode (P := pow_amd64) NewGenerator "zzzzzzzzzzz" < 0.
Proof. repeat split; vm_compute; reflexivity. Qed.

(** C9. [Decode] returns 0 on the empty string as on "0"; the empty
    string is not a valid short code and not the encoding of a
    non-negative number. [Decode] returns -1 only on a string with a
    character outside the alphabet or on one whose value does not fit
    [int64]; the latter has more than ten characters. *)
Theorem Decode_empty_is_zero {P : MathPow} {E : MathPowExact P} :
  Decode NewGenerator "" = 0
  /\ Decode NewGenerator "0" = 0
  /\ IsValidShortCode "" = false
  /\ (forall n, 0 <= n <= max_int64 -> Encode NewGenerator n <> Returned ""%string)
  /\ (forall s, Decode NewGenerator s = -1 ->
                all_alnum s = false \/ max_int64 < value_of s)
  /\ (forall s, (String.length s <= 10)%nat -> Decode NewGenerator s = -1 ->
                all_alnum s = false).
Proof.
  assert (Hmark : forall s, Decode NewGenerator s = -1 ->
                  all_alnum s = false \/ max_int64 < value_of s).
  { intros s Hd. destruct (all_alnum s) eqn:Hall; [right | now left].
    destruct (Z.lt_ge_cases max_int64 (value_of s)) as [Hlt|Hge]; [exact Hlt|].
    rewrite Decode_value in Hd by (assumption || lia).
    rewrite all_alnum_bytes in Hall.
    pose proof (positional_nonneg _ Hall). unfold value_of in Hd. lia. }
  repeat split; try reflexivity.
  - intros n Hn. rewrite Encode_against_one_or_panic by exact Hn.
    destruct (n <? 62); discriminate.
  - exact Hmark.
  - intros s Hlen Hd. destruct (Hmark s Hd) as [Hbad|Hbig]; [exact Hbad|].
    destruct (all_alnum s) eqn:Hall; [|reflexivity].
    pose proof (short_value_fits s Hall Hlen). lia.
Qed.

Lemma Decode_empty_is_zero_witness :
  Decode (P := pow_amd64) NewGenerator "" = 0
  /\ Decode (P := pow_amd64) NewGenerator "0" = 0.
Proof.
  destruct (Decode_empty_is_zero (P := pow_amd64) (E := pow_amd64_exact))
    as (H1 & H2 & _).
  split; [exact H1 | exact H2].
Defined.

(** "LygHa16AHYF" is a string of alphabet characters, worth 2^64 - 1:
    [Decode] returns -1 for it. [Encode] returns the empty string for a
    negative number. *)
Lemma Decode_minus_one_counterexample :
  all_alnum "LygHa16AHYF" = true
  /\ value_of "LygHa16AHYF" = 2 ^ 64 - 1
  /\ Decode (P := pow_amd64) NewGenerator "LygHa16AHYF" = -1
  /\ Encode NewGenerator (-1) = Returned ""%string.
Proof. repeat split; vm_compute; reflexivity. Qed.

(** ** The repositories *)

Section Repositories.
Context {DB : Type} {PoolDB : repo.Pool DB}.
Context {C : Type} {ClientC : repo.Client C} {J : repo.JSON}.

(** C10. Each repository operation that takes a short code returns
    [ErrInvalidShortCode] when the code fails [IsValidShortCode], and
    leaves the repository as it was: the pool or client is the same and
    nothing was handed to it. *)
Theorem repositories_reject_invalid_codes
    (pg : repo.PostgresRepo DB) (rd : repo.RedisRepo C)
    (now : Z) (shortCode longURL : string) (url : domain.URL) :
  IsValidShortCode shortCode = false ->
  repo.PostgresRepo.Create pg now shortCode longURL
    = (pg, Err repo.ErrInvalidShortCode)
  /\ repo.PostgresRepo.GetByShortCode pg shortCode
    = (pg, Err repo.ErrInvalidShortCode)
  /\ repo.PostgresRepo.IncrementClicksCounter pg shortCode
    = (pg, Some repo.ErrInvalidShortCode)
  /\ repo.RedisRepo.Set_ rd shortCode url = (rd, Some repo.ErrInvalidShortCode)
  /\ repo.RedisRepo.Get rd shortCode = (rd, Err repo.ErrInvalidShortCode)
  /\ repo.RedisRepo.Delete rd shortCode = (rd, Some repo.ErrInvalidShortCode)
  /\ repo.RedisRepo.Exists rd shortCode = (rd, Err repo.ErrInvalidShortCode).
Proof.
  intros Hbad.
  unfold repo.PostgresRepo.Create, repo.PostgresRepo.GetByShortCode,
    repo.PostgresRepo.IncrementClicksCounter, repo.RedisRepo.Set_,
    repo.RedisRepo.Get, repo.RedisRepo.Delete, repo.RedisRepo.Exists.
  rewrite Hbad. cbn [negb]. repeat split.
Qed.

End Repositories.

Import fakes.

Lemma repositories_reject_invalid_codes_witness :
  repo.PostgresRepo.GetByShortCode (repo.NewPostgresRepo fakes.DownDB) "abc 123"
    = (repo.NewPostgresRepo fakes.DownDB, Err repo.ErrInvalidShortCode)
  /\ repo.RedisRepo.Get (J := fakes.refusing_JSON)
       (repo.NewRedisRepo fakes.DownRedis 86400) "abc 123"
    = (repo.NewRedisRepo fakes.DownRedis 86400, Err repo.ErrInvalidShortCode).
Proof.
  pose proof (repositories_reject_invalid_codes (J := fakes.refusing_JSON)
                (repo.NewPostgresRepo fakes.DownDB)
                (repo.NewRedisRepo fakes.DownRedis 86400)
                0 "abc 123" "https://example.com"
                (fakes.row 1 "abc 123" "https://example.com")) as H.
  destruct H as (_ & H2 & _ & _ & H5 & _).
  - vm_compute. reflexivity.
  - split; [exact H2 | exact H5].
Defined.

(** With a valid code the statement does reach the pool. *)
Example valid_code_reaches_the_pool :
  repo.sent (fst (repo.PostgresRepo.GetByShortCode
                    (repo.NewPostgresRepo fakes.DownDB) "abc123"))
  = [(repo.PostgresRepo.select_query, [repo.ArgString "abc123"])].
Proof. reflexivity. Qed.

(** ** The library stand-ins obey the laws assumed of the library *)

Section Trimming.

Lemma trimRight_keeps c t :
  isSpace c = false -> trimRight (String c t) = String c (trimRight t).
Proof. intros Hc. cbn [trimRight]. rewrite Hc. now destruct (trimRight t). Qed.

Lemma trimLeft_keeps c t : isSpace c = false -> trimLeft (String c t) = String c t.
Proof. intros Hc. cbn [trimLeft]. now rewrite Hc. Qed.

Lemma trimRight_idem s : trimRight (trimRight s) = trimRight s.
Proof.
  induction s as [|c t IH]; [reflexivity|]. cbn [trimRight].
  destruct (trimRight t) as [|d t'] eqn:Ht.
  - destruct (isSpace c) eqn:Hc; [reflexivity|]. cbn [trimRight]. now rewrite Hc.
  - cbn [trimRight] in *. now rewrite IH.
Qed.

Lemma trimLeft_head s :
  trimLeft s = EmptyString
  \/ exists c t, trimLeft s = String c t /\ isSpace c = false.
Proof.
  induction s as [|c t IH]; [now left|]. cbn [trimLeft].
  destruct (isSpace c) eqn:Hc; [exact IH | right; eauto].
Qed.

Lemma ascii_Strings_laws : StringsLaws ascii_Strings.
Proof.
  split; intros s; unfold TrimSpace, ascii_Strings; cbv beta.
  - destruct (trimLeft_head s) as [->|(c & t & -> & Hc)]; [reflexivity|].
    rewrite (trimRight_keeps _ _ Hc), (trimLeft_keeps _ _ Hc).
    rewrite <- (trimRight_keeps _ _ Hc). apply trimRight_idem.
  - cbv [String.append]. rewrite trimLeft_keeps by reflexivity.
    rewrite !trimRight_keeps by reflexivity. now rewrite trimRight_idem.
Qed.

End Trimming.

(** ** The service *)

Section ServiceProperties.
Import service.
Context {P R : Type} {PG : PostgresRepository P} {RD : RedisRepository R}.
Context {T : Strings} {U : NetURL}.

Lemma HasPrefix_https x : HasPrefix ("https://" +:+ x) "https://" = true.
Proof. unfold HasPrefix. cbv [String.append]. cbn. now destruct x. Qed.

Lemma NormalizeURL_idem {L : StringsLaws T} l :
  NormalizeURL (NormalizeURL l) = NormalizeURL l.
Proof.
  unfold NormalizeURL.
  destruct (negb (HasPrefix (TrimSpace l) "http://")
            && negb (HasPrefix (TrimSpace l) "https://")) eqn:Hp.
  - rewrite TrimSpace_https, HasPrefix_https. cbn [negb].
    now rewrite andb_false_r.
  - rewrite TrimSpace_idem. now rewrite Hp.
Qed.

(** C6. A call whose input fails validation returns the validation error
    and leaves the whole process as it was: the store, the cache, the
    list of calls made through the interfaces, the log and the
    goroutines. *)
Theorem validation_failure_touches_nothing
    (w : @Process P R) (longURL shortCode : string) :
  0 < maxRetries (svc w) ->
  IsValidURL (NormalizeURL longURL) = false ->
  IsValidShortCode shortCode = false ->
  CreateShortURL longURL w
    = (Returned (Err (Errorf ("invalid URL: " +:+ NormalizeURL longURL))), w)
  /\ GetLongURL shortCode w
    = (Returned (Err (Errorf "invalid short code format")), w)
  /\ GetURLStats shortCode w
    = (Returned (Err (Errorf "invalid short code format")), w).
Proof.
  intros Hmax Hurl Hcode. repeat split.
  - unfold CreateShortURL, bind, gets.
    destruct (Z.to_nat (maxRetries (svc w))); cbn [createShortURLWithRetries];
      (destruct (Z.geb_spec 0 (maxRetries (svc w))); [lia|]);
      now rewrite Hurl.
  - unfold GetLongURL. now rewrite Hcode.
  - unfold GetURLStats. now rewrite Hcode.
Qed.

End ServiceProperties.

Lemma validation_failure_touches_nothing_witness :
  let w := service.start
             (service.NewShortenerService
                (store_of [row 1 "1" "https://a.com"] 1) (∅ : memCache)
                NewGenerator "http://localhost:8080") in
  service.CreateShortURL "   " w
    = (Returned (Err (service.Errorf "invalid URL: https://")), w)
  /\ service.GetLongURL "abc 123" w
    = (Returned (Err (service.Errorf "invalid short code format")), w).
Proof.
  intros w.
  destruct (validation_failure_touches_nothing w "   " "abc 123") as (H1 & H2 & _).
  - vm_compute. reflexivity.
  - vm_compute. reflexivity.
  - vm_compute. reflexivity.
  - split; [exact H1 | exact H2].
Defined.

Section Creation.
Import service.
Context {P R : Type} {PG : PostgresRepository P} {RD : RedisRepository R}.
Context {T : Strings} {U : NetURL} {L : StringsLaws T}.

Lemma bind_ext {A B} (m : @M P R A) (k k' : A -> @M P R B) w :
  (forall a w', k a w' = k' a w') -> bind m k w = bind m k' w.
Proof.
  intros Hk. unfold bind. destruct (m w) as [[a|msg|] w']; auto.
Qed.

(** The recursion of [createShortURLWithRetries] has fuel enough: with
    at least as much fuel as attempts are left, the amount of fuel does
    not matter. *)
Lemma retries_have_enough_fuel fuel1 fuel2 l attempt mr (w : @Process P R) :
  mr - attempt <= Z.of_nat fuel1 ->
  mr - attempt <= Z.of_nat fuel2 ->
  createShortURLWithRetries fuel1 l attempt mr w
  = createShortURLWithRetries fuel2 l attempt mr w.
Proof.
  revert fuel2 l attempt w.
  induction fuel1 as [|fuel1 IH]; intros [|fuel2] l attempt w H1 H2;
    cbn [createShortURLWithRetries];
    (destruct (Z.geb_spec attempt mr); [reflexivity|]); try lia.
  destruct (negb (IsValidURL (NormalizeURL l))); [reflexivity|].
  apply bind_ext. intros [id|err] w1; [|reflexivity].
  apply bind_ext. intros g w2.
  apply bind_ext. intros shortCode w3.
  apply bind_ext. intros [url|err] w4; [reflexivity|].
  destruct (errors_Is err repo.ErrAlreadyExists); [|reflexivity].
  apply bind_ext. intros _ w5. apply IH; lia.
Qed.

Lemma CreateShortURL_fuel extra l (w : @Process P R) :
  createShortURLWithRetries (Z.to_nat (maxRetries (svc w)) + extra) l 0
    (maxRetries (svc w)) w
  = CreateShortURL l w.
Proof.
  unfold CreateShortURL, bind, gets. apply retries_have_enough_fuel; lia.
Qed.

(** One attempt that ends in a collision: the identifier was asked for,
    the insert was tried, a warning was logged, and the next attempt
    starts. *)
Lemma attempt_collides fuel l attempt mr (w : @Process P R) pa p' id c e :
  attempt < mr ->
  IsValidURL (NormalizeURL l) = true ->
  GetNextID (pgRepo (svc w)) = (pa, Ok id) ->
  Encode (generator (svc w)) id = Returned c ->
  Create pa id c (NormalizeURL l) = (p', Err e) ->
  errors_Is e repo.ErrAlreadyExists = true ->
  createShortURLWithRetries (S fuel) l attempt mr w =
  createShortURLWithRetries fuel (NormalizeURL l) (attempt + 1) mr
    {| svc := with_pgRepo (svc w) p';
       goroutines := goroutines w;
       logs := logs w ++ [{| level := WarnLevel; log_err := None;
                             log_short_code := Some c;
                             message := "collision detected, retrying" |}];
       calls := calls w ++ [CallGetNextID; CallCreate id c (NormalizeURL l)] |}.
Proof.
  intros Hlt Hvalid Hid Hc Hcreate Hdup.
  cbn [createShortURLWithRetries].
  destruct (Z.geb_spec attempt mr); [lia|].
  rewrite Hvalid. cbn [negb].
  unfold bind at 1. unfold on_pgRepo at 1. rewrite Hid.
  unfold bind at 1. unfold gets at 1. cbn [svc generator with_pgRepo].
  unfold bind at 1. unfold lift at 1. rewrite Hc.
  unfold bind at 1. unfold on_pgRepo at 1. cbn [svc pgRepo with_pgRepo].
  rewrite Hcreate, Hdup.
  unfold bind at 1. unfold log_Warn, log. cbn [svc goroutines logs calls].
  rewrite <- app_assoc. reflexivity.
Qed.

(** One attempt that succeeds. *)
Lemma attempt_succeeds fuel l attempt mr (w : @Process P R) pa p' id c u :
  attempt < mr ->
  IsValidURL (NormalizeURL l) = true ->
  GetNextID (pgRepo (svc w)) = (pa, Ok id) ->
  Encode (generator (svc w)) id = Returned c ->
  Create pa id c (NormalizeURL l) = (p', Ok u) ->
  exists w',
    createShortURLWithRetries fuel l attempt mr w =
    (Returned (Ok {| domain.resp_ShortCode := c;
                     domain.resp_ShortURL := baseURL (svc w) +:+ "/" +:+ c;
                     domain.resp_LongURL := NormalizeURL l |}), w')
    /\ pgRepo (svc w') = p'
    /\ redisRepo (svc w') = fst (Set_ (redisRepo (svc w)) c u)
    /\ calls w' = calls w ++ [CallGetNextID; CallCreate id c (NormalizeURL l);
                              CallSet c u].
Proof.
  intros Hlt Hvalid Hid Hc Hcreate.
  destruct fuel; cbn [createShortURLWithRetries];
    (destruct (Z.geb_spec attempt mr); [lia|]);
    rewrite Hvalid; cbn [negb];
    unfold bind at 1; unfold on_pgRepo at 1; rewrite Hid;
    unfold bind at 1; unfold gets at 1; cbn [svc generator with_pgRepo];
    unfold bind at 1; unfold lift at 1; rewrite Hc;
    unfold bind at 1; unfold on_pgRepo at 1; cbn [svc pgRepo with_pgRepo];
    rewrite Hcreate;
    unfold bind, on_redisRepo, log_Warn, log, ret, gets;
    cbn [svc redisRepo pgRepo with_pgRepo with_redisRepo baseURL];
    destruct (Set_ (redisRepo (svc w)) c u) as [r' [err|]] eqn:Hset;
    cbn [svc redisRepo pgRepo with_pgRepo with_redisRepo baseURL
         goroutines logs calls fst];
    eexists; (split; [reflexivity|]);
    cbn [svc redisRepo pgRepo with_pgRepo with_redisRepo calls];
    rewrite <- !app_assoc; repeat split.
Qed.

(** C4. With a valid long URL and the three attempts that
    [NewShortenerService] allows: when the first insert collides and the
    second succeeds, [CreateShortURL] returns the second short code and
    no error; when three inserts in a row collide, it returns the
    max-retries error after exactly three requests for an identifier. *)
Theorem collisions_are_retried (w : @Process P R) (l : string) :
  maxRetries (svc w) = 3 ->
  IsValidURL (NormalizeURL l) = true ->
  (forall pa1 p1 id1 c1 e1 pa2 p2 id2 c2 u,
      GetNextID (pgRepo (svc w)) = (pa1, Ok id1) ->
      Encode (generator (svc w)) id1 = Returned c1 ->
      Create pa1 id1 c1 (NormalizeURL l) = (p1, Err e1) ->
      errors_Is e1 repo.ErrAlreadyExists = true ->
      GetNextID p1 = (pa2, Ok id2) ->
      Encode (generator (svc w)) id2 = Returned c2 ->
      Create pa2 id2 c2 (NormalizeURL l) = (p2, Ok u) ->
      exists w',
        CreateShortURL l w =
        (Returned (Ok {| domain.resp_ShortCode := c2;
                         domain.resp_ShortURL := baseURL (svc w) +:+ "/" +:+ c2;
                         domain.resp_LongURL := NormalizeURL l |}), w')
        /\ pgRepo (svc w') = p2
        /\ calls w' = calls w ++
             [CallGetNextID; CallCreate id1 c1 (NormalizeURL l);
              CallGetNextID; CallCreate id2 c2 (NormalizeURL l);
              CallSet c2 u])
  /\ (forall pa1 p1 id1 c1 e1 pa2 p2 id2 c2 e2 pa3 p3 id3 c3 e3,
      GetNextID (pgRepo (svc w)) = (pa1, Ok id1) ->
      Encode (generator (svc w)) id1 = Returned c1 ->
      Create pa1 id1 c1 (NormalizeURL l) = (p1, Err e1) ->
      errors_Is e1 repo.ErrAlreadyExists = true ->
      GetNextID p1 = (pa2, Ok id2) ->
      Encode (generator (svc w)) id2 = Returned c2 ->
      Create pa2 id2 c2 (NormalizeURL l) = (p2, Err e2) ->
      errors_Is e2 repo.ErrAlreadyExists = true ->
      GetNextID p2 = (pa3, Ok id3) ->
      Encode (generator (svc w)) id3 = Returned c3 ->
      Create pa3 id3 c3 (NormalizeURL l) = (p3, Err e3) ->
      errors_Is e3 repo.ErrAlreadyExists = true ->
      exists w',
        CreateShortURL l w =
        (Returned (Err (Errorf "max retries reached for creating short URL")), w')
        /\ pgRepo (svc w') = p3
        /\ redisRepo (svc w') = redisRepo (svc w)
        /\ calls w' = calls w ++
             [CallGetNextID; CallCreate id1 c1 (NormalizeURL l);
              CallGetNextID; CallCreate id2 c2 (NormalizeURL l);
              CallGetNextID; CallCreate id3 c3 (NormalizeURL l)]).
Proof.
  intros Hmax Hvalid.
  assert (Hstart : CreateShortURL l w = createShortURLWithRetries 3 l 0 3 w).
  { unfold CreateShortURL, bind, gets. now rewrite Hmax. }
  rewrite Hstart. split.
  - intros pa1 p1 id1 c1 e1 pa2 p2 id2 c2 u Hid1 Hc1 Hcr1 Hdup1 Hid2 Hc2 Hcr2.
    rewrite (attempt_collides 2 l 0 3 w pa1 p1 id1 c1 e1) by (assumption || lia).
    match goal with
    | |- context [createShortURLWithRetries _ _ _ _ ?w1] =>
      destruct (attempt_succeeds 2 (NormalizeURL l) (0 + 1) 3 w1 pa2 p2 id2 c2 u)
        as (w' & Hrun & Hpg & _ & Hcalls);
        rewrite ?NormalizeURL_idem; try assumption; try lia
    end.
    rewrite NormalizeURL_idem in Hrun, Hcalls.
    exists w'. rewrite Hrun. cbn [svc baseURL with_pgRepo calls] in *.
    repeat split; [exact Hpg|]. rewrite Hcalls, <- app_assoc. reflexivity.
  - intros pa1 p1 id1 c1 e1 pa2 p2 id2 c2 e2 pa3 p3 id3 c3 e3
           Hid1 Hc1 Hcr1 Hdup1 Hid2 Hc2 Hcr2 Hdup2 Hid3 Hc3 Hcr3 Hdup3.
    rewrite (attempt_collides 2 l 0 3 w pa1 p1 id1 c1 e1) by (assumption || lia).
    rewrite (attempt_collides 1 _ (0 + 1) 3 _ pa2 p2 id2 c2 e2);
      rewrite ?NormalizeURL_idem; try assumption; try lia.
    rewrite (attempt_collides 0 _ (0 + 1 + 1) 3 _ pa3 p3 id3 c3 e3);
      rewrite ?NormalizeURL_idem; try assumption; try lia.
    cbn [createShortURLWithRetries]. eexists. split; [reflexivity|].
    cbn [svc pgRepo redisRepo with_pgRepo calls].
    rewrite <- !app_assoc. repeat split.
Qed.

End Creation.

Lemma collisions_are_retried_witness :
  (exists w',
      service.CreateShortURL "  www.example.com  "
        (service.start
           (service.NewShortenerService
              (store_of [row 1 "1" "https://a.com"] 0) (∅ : memCache)
              NewGenerator "http://localhost:8080"))
      = (Returned (Ok {| domain.resp_ShortCode := "2";
                         domain.resp_ShortURL := "http://localhost:8080/2";
                         domain.resp_LongURL := "https://www.example.com" |}), w'))
  /\ (exists w',
      service.CreateShortURL "  www.example.com  "
        (service.start
           (service.NewShortenerService
              (store_of [row 1 "1" "https://a.com"; row 2 "2" "https://b.com";
                         row 3 "3" "https://c.com"] 0) (∅ : memCache)
              NewGenerator "http://localhost:8080"))
      = (Returned (Err (service.Errorf
                          "max retries reached for creating short URL")), w')).
Proof.
  split.
  - edestruct (collisions_are_retried (L := ascii_Strings_laws)
        (service.start
           (service.NewShortenerService
              (store_of [row 1 "1" "https://a.com"] 0) (∅ : memCache)
              NewGenerator "http://localhost:8080"))
        "  www.example.com  ") as [Hone _].
    + reflexivity.
    + vm_compute. reflexivity.
    + edestruct Hone as (w' & Hrun & _).
      * vm_compute. reflexivity.
      * vm_compute. reflexivity.
      * vm_compute. reflexivity.
      * vm_compute. reflexivity.
      * vm_compute. reflexivity.
      * vm_compute. reflexivity.
      * vm_compute. reflexivity.
      * exists w'. exact Hrun.
  - edestruct (collisions_are_retried (L := ascii_Strings_laws)
        (service.start
           (service.NewShortenerService
              (store_of [row 1 "1" "https://a.com"; row 2 "2" "https://b.com";
                         row 3 "3" "https://c.com"] 0) (∅ : memCache)
              NewGenerator "http://localhost:8080"))
        "  www.example.com  ") as [_ Hthree].
    + reflexivity.
    + vm_compute. reflexivity.
    + edestruct Hthree as (w' & Hrun & _).
      * vm_compute. reflexivity.
      * vm_compute. reflexivity.
      * vm_compute. reflexivity.
      * vm_compute. reflexivity.
      * vm_compute. reflexivity.
      * vm_compute. reflexivity.
      * vm_compute. reflexivity.
      * vm_compute. reflexivity.
      * vm_compute. reflexivity.
      * vm_compute. reflexivity.
      * vm_compute. reflexivity.
      * vm_compute. reflexivity.
      * exists w'. exact Hrun.
Defined.

Section Resolution.
Import service.
Context {P R : Type} {PG : PostgresRepository P} {RD : RedisRepository R}.
Context {T : Strings} {U : NetURL}.

(** A cache hit: the long URL of the cached record is returned after one
    call to the cache and none to the store. *)
Lemma cache_hit (w : @Process P R) shortCode r2 u :
  IsValidShortCode shortCode = true ->
  Get (redisRepo (svc w)) shortCode = (r2, Ok u) ->
  exists w',
    GetLongURL shortCode w = (Returned (Ok (domain.LongURL u)), w')
    /\ pgRepo (svc w') = pgRepo (svc w)
    /\ redisRepo (svc w') = r2
    /\ calls w' = calls w ++ [CallGet shortCode].
Proof.
  intros Hvalid Hhit. unfold GetLongURL. rewrite Hvalid. cbn [negb].
  unfold bind at 1. unfold on_redisRepo at 1. rewrite Hhit.
  unfold bind, log_Debug, log, incrementClicksAsync, log_Warn, ret.
  cbn [svc pgRepo redisRepo with_pgRepo with_redisRepo with_clickWorkers
       goroutines logs calls clickWorkers held cap].
  destruct (held (clickWorkers (svc w)) <? cap (clickWorkers (svc w)))%nat;
    (eexists; split; [reflexivity|]); repeat split.
Qed.

(** A cache miss answered by the store. *)
Lemma cache_miss_store_hit (w : @Process P R) shortCode r1 e p1 u :
  IsValidShortCode shortCode = true ->
  Get (redisRepo (svc w)) shortCode = (r1, Err e) ->
  GetByShortCode (pgRepo (svc w)) shortCode = (p1, Ok u) ->
  exists w',
    GetLongURL shortCode w = (Returned (Ok (domain.LongURL u)), w')
    /\ pgRepo (svc w') = p1
    /\ redisRepo (svc w') = fst (Set_ r1 shortCode u)
    /\ calls w' = calls w ++ [CallGet shortCode; CallGetByShortCode shortCode;
                              CallSet shortCode u]
    /\ logs w' = logs w
         ++ [{| level := DebugLevel; log_err := None;
                log_short_code := Some shortCode;
                message := "cache miss, querying from Postgres" |}]
         ++ match snd (Set_ r1 shortCode u) with
            | Some err => [{| level := WarnLevel; log_err := Some err;
                              log_short_code := Some shortCode;
                              message := "error caching URL with Redis" |}]
            | None => []
            end
         ++ (if (held (clickWorkers (svc w)) <? cap (clickWorkers (svc w)))%nat
             then []
             else [{| level := WarnLevel; log_err := None;
                      log_short_code := None;
                      message := "click workers limit reached, skipping increment" |}]).
Proof.
  intros Hvalid Hmiss Hstore.
  unfold GetLongURL. rewrite Hvalid. cbn [negb].
  unfold bind at 1. unfold on_redisRepo at 1. rewrite Hmiss.
  unfold bind at 1. unfold log_Debug, log at 1.
  unfold bind at 1. unfold on_pgRepo at 1.
  cbn [svc pgRepo redisRepo with_pgRepo with_redisRepo]. rewrite Hstore.
  unfold bind, on_redisRepo, log_Warn, log, ret, incrementClicksAsync.
  cbn [svc pgRepo redisRepo with_pgRepo with_redisRepo goroutines logs calls
       clickWorkers].
  destruct (Set_ r1 shortCode u) as [r' [err|]] eqn:Hset;
    cbn [svc pgRepo redisRepo with_pgRepo with_redisRepo goroutines logs calls
         clickWorkers with_clickWorkers fst snd];
    destruct (held (clickWorkers (svc w)) <? cap (clickWorkers (svc w)))%nat;
    (eexists; split; [reflexivity|]);
    cbn [svc pgRepo redisRepo with_pgRepo with_redisRepo with_clickWorkers
         goroutines logs calls];
    rewrite <- ?app_assoc; cbn [app];
    repeat split.
Qed.

(** C7. On a valid short code that the cache does not return:
    - when the store returns the record, [GetLongURL] returns its long
      URL, whether the cache write succeeds or not; the record is handed
      to the cache, and a failed write is logged as a warning; a cache that
      then returns the record makes the next [GetLongURL] a cache hit,
      answered without a call to the store;
    - when the store reports [ErrNotFound], the error is "short URL not
      found"; for any other store error it is "error retrieving long
      URL", a different error. *)
Theorem cache_miss_reads_through
    (w : @Process P R) (shortCode : string) (r1 : R) (e : error) :
  IsValidShortCode shortCode = true ->
  Get (redisRepo (svc w)) shortCode = (r1, Err e) ->
  (forall p1 u,
      GetByShortCode (pgRepo (svc w)) shortCode = (p1, Ok u) ->
      exists w',
        GetLongURL shortCode w = (Returned (Ok (domain.LongURL u)), w')
        /\ pgRepo (svc w') = p1
        /\ redisRepo (svc w') = fst (Set_ r1 shortCode u)
        /\ calls w' = calls w ++ [CallGet shortCode; CallGetByShortCode shortCode;
                                  CallSet shortCode u]
        /\ logs w' = logs w
             ++ [{| level := DebugLevel; log_err := None;
                    log_short_code := Some shortCode;
                    message := "cache miss, querying from Postgres" |}]
             ++ match snd (Set_ r1 shortCode u) with
                | Some err => [{| level := WarnLevel; log_err := Some err;
                                  log_short_code := Some shortCode;
                                  message := "error caching URL with Redis" |}]
                | None => []
                end
             ++ (if (held (clickWorkers (svc w)) <? cap (clickWorkers (svc w)))%nat
                 then []
                 else [{| level := WarnLevel; log_err := None;
                          log_short_code := None;
                          message := "click workers limit reached, skipping increment" |}])
        /\ (forall r2,
               Get (redisRepo (svc w')) shortCode = (r2, Ok u) ->
               exists w'',
                 GetLongURL shortCode w' = (Returned (Ok (domain.LongURL u)), w'')
                 /\ pgRepo (svc w'') = p1
                 /\ calls w'' = calls w' ++ [CallGet shortCode]))
  /\ (forall p1 e',
      GetByShortCode (pgRepo (svc w)) shortCode = (p1, Err e') ->
      errors_Is e' repo.ErrNotFound = true ->
      exists w',
        GetLongURL shortCode w
          = (Returned (Err (Errorf "short URL not found")), w')
        /\ redisRepo (svc w') = r1
        /\ calls w' = calls w ++ [CallGet shortCode; CallGetByShortCode shortCode])
  /\ (forall p1 e',
      GetByShortCode (pgRepo (svc w)) shortCode = (p1, Err e') ->
      errors_Is e' repo.ErrNotFound = false ->
      exists w',
        GetLongURL shortCode w
          = (Returned (Err (Errorf "error retrieving long URL")), w')
        /\ redisRepo (svc w') = r1)
  /\ Errorf "short URL not found" <> Errorf "error retrieving long URL".
Proof.
  intros Hvalid Hmiss. repeat split.
  - intros p1 u Hstore.
    destruct (cache_miss_store_hit w shortCode r1 e p1 u Hvalid Hmiss Hstore)
      as (w' & Hrun & Hpg & Hrd & Hcalls & Hlogs).
    exists w'. do 5 (split; [assumption|]).
    intros r2 Hhit.
    destruct (cache_hit w' shortCode r2 u Hvalid Hhit)
      as (w'' & Hrun' & Hpg' & _ & Hcalls').
    exists w''. rewrite Hpg' , Hpg. now repeat split.
  - intros p1 e' Hstore Hnf.
    unfold GetLongURL. rewrite Hvalid. cbn [negb].
    unfold bind at 1. unfold on_redisRepo at 1. rewrite Hmiss.
    unfold bind at 1. unfold log_Debug, log at 1.
    unfold bind at 1. unfold on_pgRepo at 1.
    cbn [svc pgRepo redisRepo with_pgRepo with_redisRepo]. rewrite Hstore, Hnf.
    eexists. split; [reflexivity|].
    cbn [svc redisRepo with_pgRepo calls]. rewrite <- app_assoc. now split.
  - intros p1 e' Hstore Hnf.
    unfold GetLongURL. rewrite Hvalid. cbn [negb].
    unfold bind at 1. unfold on_redisRepo at 1. rewrite Hmiss.
    unfold bind at 1. unfold log_Debug, log at 1.
    unfold bind at 1. unfold on_pgRepo at 1.
    cbn [svc pgRepo redisRepo with_pgRepo with_redisRepo]. rewrite Hstore, Hnf.
    unfold bind, log_Error, log, ret.
    eexists. split; [reflexivity|]. reflexivity.
  - discriminate.
Qed.

End Resolution.

Lemma cache_miss_reads_through_witness :
  let w := service.start
             (service.NewShortenerService
                (store_of [row 7 "abc123" "https://example.com"] 7)
                (∅ : memCache) NewGenerator "http://localhost:8080") in
  (exists w',
      service.GetLongURL "abc123" w = (Returned (Ok "https://example.com"), w')
      /\ exists w'',
          service.GetLongURL "abc123" w'
            = (Returned (Ok "https://example.com"), w'')
          /\ service.calls w'' = service.calls w' ++ [service.CallGet "abc123"])
  /\ (exists w',
      service.GetLongURL "nothere" w
        = (Returned (Err (service.Errorf "short URL not found")), w')).
Proof.
  intros w. split.
  - destruct (cache_miss_reads_through w "abc123" ∅ repo.ErrNotFound)
      as (Hfound & _).
    + vm_compute. reflexivity.
    + vm_compute. reflexivity.
    + destruct (Hfound (store_of [row 7 "abc123" "https://example.com"] 7)
                       (row 7 "abc123" "https://example.com"))
        as (w' & Hrun & _ & Hcache & _ & _ & Hnext).
      * vm_compute. reflexivity.
      * exists w'. split; [exact Hrun|].
        destruct (Hnext (<["abc123" := row 7 "abc123" "https://example.com"]> ∅))
          as (w'' & Hrun' & _ & Hcalls).
        -- rewrite Hcache. vm_compute. reflexivity.
        -- exists w''. split; [exact Hrun' | exact Hcalls].
  - destruct (cache_miss_reads_through w "nothere" ∅ repo.ErrNotFound)
      as (_ & Habsent & _).
    + vm_compute. reflexivity.
    + vm_compute. reflexivity.
    + destruct (Habsent (store_of [row 7 "abc123" "https://example.com"] 7)
                        repo.ErrNotFound) as (w' & Hrun & _).
      * vm_compute. reflexivity.
      * vm_compute. reflexivity.
      * exists w'. exact Hrun.
Defined.

(** With a cache that is down the long URL is returned all the same, and
    the failed write is in the log. *)
Example cache_down_still_resolves :
  let w := service.start
             (service.NewShortenerService
                (store_of [row 7 "abc123" "https://example.com"] 7)
                Down NewGenerator "http://localhost:8080") in
  fst (service.GetLongURL "abc123" w) = Returned (Ok "https://example.com")
  /\ map service.message (service.logs (snd (service.GetLongURL "abc123" w)))
     = ["cache miss, querying from Postgres"; "error caching URL with Redis"].
Proof. split; vm_compute; reflexivity. Qed.

(** ** The click-increment admission pool *)

Section Pool.
Import service.
Context {P R : Type} {PG : PostgresRepository P} {RD : RedisRepository R}.
Context {T : Strings} {U : NetURL}.

Lemma pool_advances_refl (w : @Process P R) : pool_advances w w.
Proof. unfold pool_advances. auto. Qed.

Lemma pool_advances_trans (w1 w2 w3 : @Process P R) :
  pool_advances w1 w2 -> pool_advances w2 w3 -> pool_advances w1 w3.
Proof.
  unfold pool_advances. intros (Hc1 & Ha1 & Hk1) (Hc2 & Ha2 & Hk2).
  split; [congruence|]. split; [lia | auto].
Qed.

Lemma advancing_ret {A} (a : A) : @advancing P R _ (ret a).
Proof. intros w. apply pool_advances_refl. Qed.

Lemma advancing_lift {A} (o : outcome A) : @advancing P R _ (lift o).
Proof. intros w. apply pool_advances_refl. Qed.

Lemma advancing_gets {A} (f : @ShortenerService P R -> A) : @advancing P R _ (gets f).
Proof. intros w. apply pool_advances_refl. Qed.

Lemma advancing_bind {A B} (m : M A) (k : A -> M B) :
  advancing m -> (forall a, @advancing P R _ (k a)) -> @advancing P R _ (bind m k).
Proof.
  intros Hm Hk w. unfold bind. specialize (Hm w).
  destruct (m w) as [[a|msg|] w1]; cbn [snd] in *; try exact Hm.
  eapply pool_advances_trans; [exact Hm | apply Hk].
Qed.

Lemma advancing_on_pgRepo {A} c (f : P -> P * A) : @advancing P R _ (on_pgRepo c f).
Proof.
  intros w. unfold on_pgRepo. destruct (f (pgRepo (svc w))) as [p a].
  unfold pool_advances, pool_ok, in_flight, admitted, capacity. cbn. auto.
Qed.

Lemma advancing_on_redisRepo {A} c (f : R -> R * A) : @advancing P R _ (on_redisRepo c f).
Proof.
  intros w. unfold on_redisRepo. destruct (f (redisRepo (svc w))) as [r a].
  unfold pool_advances, pool_ok, in_flight, admitted, capacity. cbn. auto.
Qed.

Lemma advancing_log e : @advancing P R _ (log e).
Proof.
  intros w. unfold log, pool_advances, pool_ok, in_flight, admitted, capacity.
  cbn. auto.
Qed.

(** The one place where the channel changes: a send. Nothing receives
    from it. *)
Lemma advancing_incrementClicksAsync shortCode :
  @advancing P R _ (incrementClicksAsync shortCode).
Proof.
  intros w. unfold incrementClicksAsync.
  destruct (Nat.ltb_spec (held (clickWorkers (svc w))) (cap (clickWorkers (svc w)))).
  - unfold pool_advances, pool_ok, in_flight, admitted, capacity. cbn.
    rewrite length_app. cbn. lia.
  - apply advancing_log.
Qed.

Ltac solve_advancing :=
  repeat first
    [ apply advancing_ret | apply advancing_lift | apply advancing_gets
    | apply advancing_on_pgRepo | apply advancing_on_redisRepo
    | apply advancing_log | apply advancing_incrementClicksAsync
    | apply advancing_bind; [|intros]
    | match goal with
      | |- advancing (if ?b then _ else _) => destruct b
      | |- advancing (match ?x with _ => _ end) => destruct x
      end ].

Lemma advancing_createShortURLWithRetries fuel l attempt mr :
  @advancing P R _ (createShortURLWithRetries fuel l attempt mr).
Proof.
  revert l attempt. induction fuel as [|fuel IH]; intros l attempt;
    cbn [createShortURLWithRetries]; unfold log_Warn, log_Error; solve_advancing.
  apply IH.
Qed.

Lemma advancing_CreateShortURL l : @advancing P R _ (CreateShortURL l).
Proof.
  unfold CreateShortURL. solve_advancing. apply advancing_createShortURLWithRetries.
Qed.

Lemma advancing_GetLongURL shortCode : @advancing P R _ (GetLongURL shortCode).
Proof. unfold GetLongURL, log_Debug, log_Warn, log_Error. solve_advancing. Qed.

Lemma advancing_GetURLStats shortCode : @advancing P R _ (GetURLStats shortCode).
Proof. unfold GetURLStats. solve_advancing. Qed.

Lemma advancing_incrementClicksTask shortCode :
  @advancing P R _ (incrementClicksTask shortCode).
Proof. unfold incrementClicksTask, log_Warn. solve_advancing. Qed.

(** A goroutine that finishes leaves the list of those in flight; the
    channel keeps the element that admitted it. *)
Lemma advancing_run_goroutine k : @advancing P R _ (run_goroutine k).
Proof.
  intros w. unfold run_goroutine.
  destruct (goroutines w !! k) as [shortCode|] eqn:Hk;
    [|apply pool_advances_refl].
  eapply pool_advances_trans; [|apply advancing_incrementClicksTask].
  unfold pool_advances, pool_ok, in_flight, admitted, capacity. cbn.
  assert (length (delete k (goroutines w)) <= length (goroutines w))%nat.
  { rewrite length_delete by eauto. lia. }
  repeat split; lia.
Qed.

Lemma step_advances (w w' : @Process P R) : step w w' -> pool_advances w w'.
Proof.
  destruct 1.
  - apply advancing_CreateShortURL.
  - apply advancing_GetLongURL.
  - apply advancing_GetURLStats.
  - apply advancing_run_goroutine.
Qed.

Lemma steps_advance (w w' : @Process P R) : steps w w' -> pool_advances w w'.
Proof.
  induction 1 as [|w1 w2 w3 _ IH Hstep]; [apply pool_advances_refl|].
  eapply pool_advances_trans; [exact IH | now apply step_advances].
Qed.

(** At most 100 increment tasks are in flight, whatever the program has
    done since the service was made. *)
Lemma in_flight_at_most_100 pg rd g b (w : @Process P R) :
  steps (start (NewShortenerService pg rd g b)) w -> (in_flight w <= 100)%nat.
Proof.
  intros Hsteps. apply steps_advance in Hsteps as (Hcap & _ & Hok).
  assert (Hstart : pool_ok (start (NewShortenerService pg rd g b)))
    by (split; cbn; lia).
  destruct (Hok Hstart) as [H1 H2].
  change (capacity (start (NewShortenerService pg rd g b))) with 100%nat in Hcap.
  lia.
Qed.

(** The channel never gives an element back: once it is full it stays
    full, and every later increment is skipped with a warning, however
    few tasks are in flight. *)
Lemma full_pool_stays_full (w w' : @Process P R) shortCode :
  pool_ok w -> admitted w = capacity w -> steps w w' ->
  incrementClicksAsync shortCode w'
  = log_Warn None None "click workers limit reached, skipping increment" w'.
Proof.
  intros Hok Hfull Hsteps.
  apply steps_advance in Hsteps as (Hcap & Hadm & Hok').
  destruct (Hok' Hok) as [_ Hle]. unfold incrementClicksAsync.
  unfold admitted, capacity in *.
  destruct (Nat.ltb_spec (held (clickWorkers (svc w'))) (cap (clickWorkers (svc w'))));
    [lia | reflexivity].
Qed.

End Pool.

(** C3. A service with one row in the store resolves the same short code
    100 times, each goroutine finishing before the next resolution. No
    task is in flight then, the channel holds 100 elements and the row
    has 100 clicks. The 101st resolution returns the long URL, starts no
    goroutine and logs that the limit is reached; its click is not
    counted when all goroutines have finished. *)
Theorem click_pool_never_frees_a_slot :
  let w100 :=
    service.resolve_and_finish 100 "abc123"
      (service.start
         (service.NewShortenerService
            (store_of [row 7 "abc123" "https://example.com"] 7)
            (∅ : memCache) NewGenerator "http://localhost:8080")) in
  let w101 := snd (service.GetLongURL "abc123" w100) in
  service.in_flight w100 = 0%nat
  /\ service.admitted w100 = 100%nat
  /\ option_map domain.Clicks (rows (service.pgRepo (service.svc w100)) !! "abc123")
     = Some 100
  /\ fst (service.GetLongURL "abc123" w100) = Returned (Ok "https://example.com")
  /\ service.in_flight w101 = 0%nat
  /\ option_map service.message (last (service.logs w101))
     = Some "click workers limit reached, skipping increment"
  /\ option_map domain.Clicks (rows (service.pgRepo (service.svc w101)) !! "abc123")
     = Some 100.
Proof. vm_compute. repeat split. Qed.

(** * Further properties of the code *)

(** ** The codec *)

Section CodecMore.
Context {P : MathPow} {E : MathPowExact P}.

(** X1. [Decode] gives back every non-negative [int64] from its base-62
    representation (digits most significant first, "0" for zero). *)
Theorem Decode_inverts_base62_repr (n : Z) :
  0 <= n <= max_int64 -> Decode NewGenerator (base62_repr n) = n.
Proof.
  intros Hn. destruct (base62_repr_value n) as [Halnum Hvalue]; [lia|].
  rewrite <- Hvalue at 2. apply Decode_value; [exact Halnum | lia].
Qed.

Lemma bytes_String a s : bytes (String a s) = byte_of_ascii a :: bytes s.
Proof. reflexivity. Qed.

(** X2. A zero in front does not change what [Decode] returns: "0" and
    "00" and "007" decode like "", "0" and "7". *)
Theorem Decode_ignores_leading_zero (s : string) :
  all_alnum s = true -> value_of s <= max_int64 ->
  Decode NewGenerator (String "0" s) = Decode NewGenerator s.
Proof.
  intros Halnum Hfit.
  assert (Hvalue : value_of (String "0" s) = value_of s).
  { unfold value_of. rewrite bytes_String. cbn [positional].
    change (digit_of (byte_of_ascii "0")) with 0. lia. }
  rewrite !Decode_value; try assumption; try lia.
  rewrite all_alnum_bytes in *. rewrite bytes_String. cbn [forallb].
  now rewrite Halnum.
Qed.

Lemma digit_of_inj c1 c2 :
  alnum c1 = true -> alnum c2 = true -> digit_of c1 = digit_of c2 -> c1 = c2.
Proof.
  intros H1 H2 Heq.
  rewrite <- (symbol_of_digit_of c1 H1), <- (symbol_of_digit_of c2 H2).
  now rewrite Heq.
Qed.

Lemma positional_inj cs1 cs2 :
  forallb alnum cs1 = true -> forallb alnum cs2 = true ->
  length cs1 = length cs2 -> positional cs1 = positional cs2 -> cs1 = cs2.
Proof.
  revert cs2. induction cs1 as [|c1 t1 IH]; intros [|c2 t2] H1 H2 Hlen Hpos;
    try discriminate; [reflexivity|].
  cbn [forallb] in H1, H2.
  apply andb_prop in H1 as [Hc1 Ht1]. apply andb_prop in H2 as [Hc2 Ht2].
  cbn [length] in Hlen. injection Hlen as Hlen.
  cbn [positional] in Hpos. rewrite Hlen in Hpos.
  pose proof (positional_nonneg _ Ht1). pose proof (positional_nonneg _ Ht2).
  pose proof (positional_bound _ Ht1) as Hb1.
  pose proof (positional_bound _ Ht2) as Hb2.
  rewrite Hlen in Hb1.
  set (K := 62 ^ Z.of_nat (length t2)) in *.
  assert (Hd : digit_of c1 = digit_of c2) by nia.
  f_equal.
  - now apply digit_of_inj.
  - apply IH; try assumption. rewrite Hd in Hpos. lia.
Qed.

(** X3. Two different strings of alphabet characters that have the same
    length, ten characters at most, decode to different numbers. *)
Theorem Decode_separates_equal_length (s1 s2 : string) :
  all_alnum s1 = true -> all_alnum s2 = true ->
  String.length s1 = String.length s2 -> (String.length s1 <= 10)%nat ->
  s1 <> s2 ->
  Decode NewGenerator s1 <> Decode NewGenerator s2.
Proof.
  intros H1 H2 Hlen Hshort Hne Heq. apply Hne.
  rewrite !Decode_value in Heq;
    try assumption; try (apply short_value_fits; [assumption | lia]).
  rewrite all_alnum_bytes in H1, H2. unfold value_of in Heq.
  rewrite <- (string_of_bytes_bytes s1), <- (string_of_bytes_bytes s2).
  f_equal. apply positional_inj; try assumption.
  now rewrite !length_bytes.
Qed.

(** X5. A valid short code never decodes to the invalid marker: it
    decodes to a number from 0 up to 62^10 - 1. *)
Theorem valid_short_code_decodes (s : string) :
  IsValidShortCode s = true -> 0 <= Decode NewGenerator s < 62 ^ 10.
Proof.
  intros Hvalid. rewrite IsValidShortCode_bytes in Hvalid.
  apply andb_prop in Hvalid as [Hlen Halnum].
  apply andb_prop in Hlen as [_ Hlen]. apply Nat.leb_le in Hlen.
  assert (Hall : all_alnum s = true) by now rewrite all_alnum_bytes.
  rewrite Decode_value by (try assumption; now apply short_value_fits).
  pose proof (positional_nonneg _ Halnum).
  pose proof (positional_bound _ Halnum) as Hb. rewrite length_bytes in Hb.
  assert (62 ^ Z.of_nat (String.length s) <= 62 ^ 10)
    by (apply Z.pow_le_mono_r; lia).
  unfold value_of. lia.
Qed.

End CodecMore.

Lemma Decode_inverts_base62_repr_witness :
  base62_repr 123456789 = "8M0kX"%string
  /\ Decode (P := pow_amd64) NewGenerator (base62_repr 123456789) = 123456789.
Proof.
  split; [reflexivity|].
  apply (Decode_inverts_base62_repr (E := pow_amd64_exact) 123456789).
  vm_compute. split; discriminate.
Defined.

Lemma Decode_ignores_leading_zero_witness :
  Decode (P := pow_amd64) NewGenerator "007" = Decode (P := pow_amd64) NewGenerator "07".
Proof.
  apply (Decode_ignores_leading_zero (E := pow_amd64_exact) "07").
  - vm_compute. reflexivity.
  - vm_compute. discriminate.
Defined.

Lemma Decode_separates_equal_length_witness :
  Decode (P := pow_amd64) NewGenerator "G8" <> Decode (P := pow_amd64) NewGenerator "8G".
Proof.
  apply (Decode_separates_equal_length (E := pow_amd64_exact) "G8" "8G").
  - vm_compute. reflexivity.
  - vm_compute. reflexivity.
  - reflexivity.
  - vm_compute. lia.
  - discriminate.
Defined.

Lemma valid_short_code_decodes_witness :
  0 <= Decode (P := pow_amd64) NewGenerator "abc123" < 62 ^ 10.
Proof.
  apply (valid_short_code_decodes (E := pow_amd64_exact) "abc123").
  vm_compute. reflexivity.
Defined.

(** X4. [Encode] returns the empty string for every negative number,
    whatever the base of the generator: neither of its loops runs. *)
Theorem Encode_negative_is_empty (g : Generator) (n : Z) :
  n < 0 -> Encode g n = Returned ""%string.
Proof.
  intros Hn. unfold Encode.
  destruct (Z.eqb_spec n 0); [lia|].
  change 64%nat with (S 63). cbn [encode_digits].
  destruct (Z.gtb_spec n 0); [lia|]. reflexivity.
Qed.

Lemma Encode_negative_is_empty_witness :
  Encode NewGenerator (-42) = Returned ""%string.
Proof. apply (Encode_negative_is_empty NewGenerator (-42)). lia. Defined.

(** ** The URL validator *)

Section URLs.
Context {T : Strings} {U : NetURL}.

Lemma HasPrefix_nonempty s p :
  p <> EmptyString -> HasPrefix s p = true -> String.eqb s "" = false.
Proof.
  intros Hp Hpre. destruct s; [|reflexivity].
  unfold HasPrefix in Hpre. destruct p; [congruence | discriminate].
Qed.

(** X6. Whatever the input, [NormalizeURL] returns a string that starts
    with "http://" or with "https://". *)
Theorem NormalizeURL_has_scheme (rawURL : string) :
  HasPrefix (NormalizeURL rawURL) "http://"
  || HasPrefix (NormalizeURL rawURL) "https://" = true.
Proof.
  unfold NormalizeURL.
  destruct (HasPrefix (TrimSpace rawURL) "http://") eqn:Hhttp; cbn [negb andb].
  - now rewrite Hhttp.
  - destruct (HasPrefix (TrimSpace rawURL) "https://") eqn:Hhttps; cbn [negb].
    + now rewrite Hhttps, orb_true_r.
    + now rewrite HasPrefix_https, orb_true_r.
Qed.

(** X8. On a normalized URL the validator only asks the parser: the URL
    is valid exactly when it parses to a URL with a host. *)
Theorem IsValidURL_of_normalized (rawURL : string) :
  IsValidURL (NormalizeURL rawURL) =
  match url_Parse (NormalizeURL rawURL) with
  | Ok finalURL => negb (String.eqb (Host finalURL) "")
  | Err _ => false
  end.
Proof.
  pose proof (NormalizeURL_has_scheme rawURL) as Hscheme.
  unfold IsValidURL. set (u := NormalizeURL rawURL) in *.
  assert (Hne : String.eqb u "" = false).
  { apply orb_prop in Hscheme as [H|H];
      eapply HasPrefix_nonempty; try exact H; discriminate. }
  rewrite Hne.
  destruct (HasPrefix u "http://"), (HasPrefix u "https://");
    try discriminate; cbn [negb andb];
    destruct (url_Parse u) as [finalURL|]; try reflexivity;
    now destruct (String.eqb (Host finalURL) "").
Qed.

(** X7. Normalizing twice is normalizing once, for a [TrimSpace] that
    is idempotent and leaves "https://" followed by a trimmed string as
    it is. *)
Theorem NormalizeURL_twice {L : StringsLaws T} (rawURL : string) :
  NormalizeURL (NormalizeURL rawURL) = NormalizeURL rawURL.
Proof.
  unfold NormalizeURL.
  destruct (negb (HasPrefix (TrimSpace rawURL) "http://")
            && negb (HasPrefix (TrimSpace rawURL) "https://")) eqn:Hp.
  - rewrite TrimSpace_https, HasPrefix_https. cbn [negb].
    now rewrite andb_false_r.
  - rewrite TrimSpace_idem. now rewrite Hp.
Qed.

End URLs.

Lemma NormalizeURL_twice_witness :
  NormalizeURL (NormalizeURL "  www.example.com  ") = "https://www.example.com"%string.
Proof.
  rewrite (NormalizeURL_twice (L := ascii_Strings_laws) "  www.example.com  ").
  vm_compute. reflexivity.
Defined.

(** ** The shortening orchestrator: the outcomes of the first attempt *)

Section CreationMore.
Import service.
Context {P R : Type} {PG : PostgresRepository P} {RD : RedisRepository R}.
Context {T : Strings} {U : NetURL}.

Ltac first_attempt Hvalid :=
  unfold CreateShortURL; unfold bind at 1; unfold gets at 1;
  match goal with
  | |- context [createShortURLWithRetries ?fuel _ _ _ _] => destruct fuel
  end;
  cbn [createShortURLWithRetries];
  match goal with
  | |- context [0 >=? ?mr] => destruct (Z.geb_spec 0 mr); [lia|]
  end;
  rewrite Hvalid; cbn [negb].

(** X9. When the store issues an identifier and the insert succeeds at
    once, [CreateShortURL] returns the code, base URL + "/" + code and the
    normalized long URL after exactly three calls: GetNextID, Create and
    the cache write. That holds whether the cache write succeeds or
    fails; a failed write only adds a warning to the log. *)
Theorem CreateShortURL_without_collision
    (w : @Process P R) (l : string) pa p' id c u :
  0 < maxRetries (svc w) ->
  IsValidURL (NormalizeURL l) = true ->
  GetNextID (pgRepo (svc w)) = (pa, Ok id) ->
  Encode (generator (svc w)) id = Returned c ->
  Create pa id c (NormalizeURL l) = (p', Ok u) ->
  exists w',
    CreateShortURL l w =
    (Returned (Ok {| domain.resp_ShortCode := c;
                     domain.resp_ShortURL := baseURL (svc w) +:+ "/" +:+ c;
                     domain.resp_LongURL := NormalizeURL l |}), w')
    /\ pgRepo (svc w') = p'
    /\ redisRepo (svc w') = fst (Set_ (redisRepo (svc w)) c u)
    /\ calls w' = calls w ++ [CallGetNextID; CallCreate id c (NormalizeURL l);
                              CallSet c u]
    /\ logs w' = logs w ++
         match snd (Set_ (redisRepo (svc w)) c u) with
         | Some err => [{| level := WarnLevel; log_err := Some err;
                           log_short_code := Some c;
                           message := "error caching URL with Redis" |}]
         | None => []
         end
    /\ goroutines w' = goroutines w.
Proof.
  intros Hmax Hvalid Hid Hc Hcreate.
  first_attempt Hvalid;
    unfold bind at 1; unfold on_pgRepo at 1; rewrite Hid;
    unfold bind at 1; unfold gets at 1; cbn [svc generator with_pgRepo];
    unfold bind at 1; unfold lift at 1; rewrite Hc;
    unfold bind at 1; unfold on_pgRepo at 1; cbn [svc pgRepo with_pgRepo];
    rewrite Hcreate;
    unfold bind, on_redisRepo, log_Warn, log, ret, gets;
    cbn [svc redisRepo pgRepo with_pgRepo with_redisRepo baseURL];
    destruct (Set_ (redisRepo (svc w)) c u) as [r' [err|]] eqn:Hset;
    cbn [svc redisRepo pgRepo with_pgRepo with_redisRepo baseURL
         goroutines logs calls fst snd];
    (eexists; split; [reflexivity|]);
    cbn [svc redisRepo pgRepo with_pgRepo with_redisRepo calls logs goroutines];
    rewrite <- ?app_assoc, ?app_nil_r; cbn [app];
    do 4 (split; [reflexivity|]); reflexivity.
Qed.

(** X10. When the store cannot issue an identifier, [CreateShortURL]
    returns "error generating short code" and logs the store's error; it
    made that one call and none to Create or to the cache. *)
Theorem CreateShortURL_without_identifier
    (w : @Process P R) (l : string) pa e :
  0 < maxRetries (svc w) ->
  IsValidURL (NormalizeURL l) = true ->
  GetNextID (pgRepo (svc w)) = (pa, Err e) ->
  exists w',
    CreateShortURL l w
      = (Returned (Err (Errorf "error generating short code")), w')
    /\ pgRepo (svc w') = pa
    /\ redisRepo (svc w') = redisRepo (svc w)
    /\ calls w' = calls w ++ [CallGetNextID]
    /\ logs w' = logs w ++ [{| level := ErrorLevel; log_err := Some e;
                               log_short_code := None;
                               message := "error getting next ID" |}].
Proof.
  intros Hmax Hvalid Hid.
  first_attempt Hvalid;
    unfold bind at 1; unfold on_pgRepo at 1; rewrite Hid;
    unfold bind, log_Error, log, ret;
    (eexists; split; [reflexivity|]); repeat split.
Qed.

(** X11. When the insert fails with an error that is not a collision,
    [CreateShortURL] does not try again: it returns "error creating short
    URL" after one GetNextID and one Create, and writes nothing to the
    cache. *)
Theorem CreateShortURL_insert_failure_is_final
    (w : @Process P R) (l : string) pa p' id c e :
  0 < maxRetries (svc w) ->
  IsValidURL (NormalizeURL l) = true ->
  GetNextID (pgRepo (svc w)) = (pa, Ok id) ->
  Encode (generator (svc w)) id = Returned c ->
  Create pa id c (NormalizeURL l) = (p', Err e) ->
  errors_Is e repo.ErrAlreadyExists = false ->
  exists w',
    CreateShortURL l w
      = (Returned (Err (Errorf "error creating short URL")), w')
    /\ pgRepo (svc w') = p'
    /\ redisRepo (svc w') = redisRepo (svc w)
    /\ calls w' = calls w ++ [CallGetNextID; CallCreate id c (NormalizeURL l)].
Proof.
  intros Hmax Hvalid Hid Hc Hcreate Hother.
  first_attempt Hvalid;
    unfold bind at 1; unfold on_pgRepo at 1; rewrite Hid;
    unfold bind at 1; unfold gets at 1; cbn [svc generator with_pgRepo];
    unfold bind at 1; unfold lift at 1; rewrite Hc;
    unfold bind at 1; unfold on_pgRepo at 1; cbn [svc pgRepo with_pgRepo];
    rewrite Hcreate, Hother;
    unfold bind, log_Error, log, ret;
    (eexists; split; [reflexivity|]);
    cbn [svc redisRepo pgRepo with_pgRepo calls];
    rewrite <- ?app_assoc; repeat split.
Qed.

(** X12. With the generator that [NewGenerator] makes, an identifier of
    62 or more makes [CreateShortURL] panic in [Encode]: the identifier
    has been taken from the store, and neither Create nor the cache has
    been called. *)
Theorem CreateShortURL_panics_from_id_62
    (w : @Process P R) (l : string) pa id :
  0 < maxRetries (svc w) ->
  IsValidURL (NormalizeURL l) = true ->
  generator (svc w) = NewGenerator ->
  GetNextID (pgRepo (svc w)) = (pa, Ok id) ->
  62 <= id <= max_int64 ->
  exists w',
    CreateShortURL l w = (Panicked index_out_of_range, w')
    /\ pgRepo (svc w') = pa
    /\ redisRepo (svc w') = redisRepo (svc w)
    /\ calls w' = calls w ++ [CallGetNextID].
Proof.
  intros Hmax Hvalid Hgen Hid Hrange.
  first_attempt Hvalid;
    unfold bind at 1; unfold on_pgRepo at 1; rewrite Hid;
    unfold bind at 1; unfold gets at 1; cbn [svc generator with_pgRepo];
    unfold bind at 1; unfold lift at 1;
    rewrite Hgen, Encode_two_digits_panics by exact Hrange;
    (eexists; split; [reflexivity|]); repeat split.
Qed.

End CreationMore.

Lemma CreateShortURL_without_collision_witness :
  exists w',
    service.CreateShortURL "http://example.com/a"
      (service.start
         (service.NewShortenerService (store_of [] 4) Down NewGenerator
                                      "http://localhost:8080"))
    = (Returned (Ok {| domain.resp_ShortCode := "5";
                       domain.resp_ShortURL := "http://localhost:8080/5";
                       domain.resp_LongURL := "http://example.com/a" |}), w')
    /\ map service.message (service.logs w') = ["error caching URL with Redis"].
Proof.
  destruct (CreateShortURL_without_collision
              (service.start
                 (service.NewShortenerService (store_of [] 4) Down NewGenerator
                                              "http://localhost:8080"))
              "http://example.com/a"
              (store_of [] 5)
              (store_of [row 5 "5" "http://example.com/a"] 5)
              5 "5" (row 5 "5" "http://example.com/a"))
    as (w' & Hrun & _ & _ & _ & Hlogs & _).
  - vm_compute. reflexivity.
  - vm_compute. reflexivity.
  - vm_compute. reflexivity.
  - vm_compute. reflexivity.
  - vm_compute. reflexivity.
  - exists w'. split; [exact Hrun|]. rewrite Hlogs. reflexivity.
Defined.

Lemma CreateShortURL_without_identifier_witness :
  exists w',
    service.CreateShortURL "example.com"
      (service.start
         (service.NewShortenerService DownStore (∅ : memCache) NewGenerator
                                      "http://localhost:8080"))
    = (Returned (Err (service.Errorf "error generating short code")), w')
    /\ service.calls w' = [service.CallGetNextID].
Proof.
  destruct (CreateShortURL_without_identifier
              (service.start
                 (service.NewShortenerService DownStore (∅ : memCache)
                                              NewGenerator "http://localhost:8080"))
              "example.com" DownStore connection_refused)
    as (w' & Hrun & _ & _ & Hcalls & _).
  - vm_compute. reflexivity.
  - vm_compute. reflexivity.
  - vm_compute. reflexivity.
  - exists w'. split; [exact Hrun | exact Hcalls].
Defined.

Lemma CreateShortURL_insert_failure_is_final_witness :
  exists w',
    service.CreateShortURL "example.com"
      (service.start
         (service.NewShortenerService {| next := 0 |} (∅ : memCache)
                                      NewGenerator "http://localhost:8080"))
    = (Returned (Err (service.Errorf "error creating short URL")), w')
    /\ service.calls w'
       = [service.CallGetNextID; service.CallCreate 1 "1" "https://example.com"].
Proof.
  destruct (CreateShortURL_insert_failure_is_final
              (service.start
                 (service.NewShortenerService {| next := 0 |} (∅ : memCache)
                                              NewGenerator "http://localhost:8080"))
              "example.com" {| next := 1 |} {| next := 1 |} 1 "1" read_only)
    as (w' & Hrun & _ & _ & Hcalls).
  - vm_compute. reflexivity.
  - vm_compute. reflexivity.
  - vm_compute. reflexivity.
  - vm_compute. reflexivity.
  - vm_compute. reflexivity.
  - vm_compute. reflexivity.
  - exists w'. split; [exact Hrun | exact Hcalls].
Defined.

Lemma CreateShortURL_panics_from_id_62_witness :
  exists w',
    service.CreateShortURL "example.com"
      (service.start
         (service.NewShortenerService (store_of [] 61) (∅ : memCache)
                                      NewGenerator "http://localhost:8080"))
    = (Panicked index_out_of_range, w')
    /\ service.calls w' = [service.CallGetNextID].
Proof.
  destruct (CreateShortURL_panics_from_id_62
              (service.start
                 (service.NewShortenerService (store_of [] 61) (∅ : memCache)
                                              NewGenerator "http://localhost:8080"))
              "example.com" (store_of [] 62) 62)
    as (w' & Hrun & _ & _ & Hcalls).
  - vm_compute. reflexivity.
  - vm_compute. reflexivity.
  - reflexivity.
  - vm_compute. reflexivity.
  - vm_compute. split; discriminate.
  - exists w'. split; [exact Hrun | exact Hcalls].
Defined.

(** ** Statistics and resolution *)

Section ResolutionMore.
Import service.
Context {P R : Type} {PG : PostgresRepository P} {RD : RedisRepository R}.
Context {T : Strings} {U : NetURL}.

(** X13. [GetURLStats] never goes to the cache and never counts a click:
    whatever the short code and the state, the cache, the admission
    channel, the goroutines and the log are the same afterwards, and at
    most one call was made, GetByShortCode on the store. *)
Theorem GetURLStats_reads_only_the_store (shortCode : string) (w : @Process P R) :
  let w' := snd (GetURLStats shortCode w) in
  redisRepo (svc w') = redisRepo (svc w)
  /\ clickWorkers (svc w') = clickWorkers (svc w)
  /\ goroutines w' = goroutines w
  /\ logs w' = logs w
  /\ (calls w' = calls w
      \/ calls w' = calls w ++ [CallGetByShortCode shortCode]).
Proof.
  unfold GetURLStats.
  destruct (negb (IsValidShortCode shortCode)).
  - cbn. repeat split. now left.
  - unfold bind, on_pgRepo, ret.
    destruct (GetByShortCode (pgRepo (svc w)) shortCode) as [p [u|e]];
      [|destruct (errors_Is e repo.ErrNotFound)];
      cbn; repeat split; now right.
Qed.

(** X14. On a valid short code [GetURLStats] returns the short code, long
    URL, click count and creation time of the record that the store
    returns; "short URL not found" when the store reports [ErrNotFound];
    and "error retrieving URL stats" for any other store error. *)
Theorem GetURLStats_outcomes (shortCode : string) (w : @Process P R) :
  IsValidShortCode shortCode = true ->
  (forall p1 u,
      GetByShortCode (pgRepo (svc w)) shortCode = (p1, Ok u) ->
      fst (GetURLStats shortCode w)
      = Returned (Ok {| domain.stats_ShortCode := domain.ShortCode u;
                        domain.stats_LongURL := domain.LongURL u;
                        domain.stats_Clicks := domain.Clicks u;
                        domain.stats_CreatedAt := domain.CreatedAt u |}))
  /\ (forall p1 e,
      GetByShortCode (pgRepo (svc w)) shortCode = (p1, Err e) ->
      fst (GetURLStats shortCode w)
      = Returned (Err (Errorf (if errors_Is e repo.ErrNotFound
                               then "short URL not found"
                               else "error retrieving URL stats")))).
Proof.
  intros Hvalid. unfold GetURLStats. rewrite Hvalid. cbn [negb].
  unfold bind, on_pgRepo, ret. split.
  - intros p1 u Hstore. now rewrite Hstore.
  - intros p1 e Hstore. rewrite Hstore.
    now destruct (errors_Is e repo.ErrNotFound).
Qed.

(** X15. On a cache hit [GetLongURL] answers from the cache alone: it
    returns the long URL of the cached record after the one call to the
    cache, and the store is neither called nor changed, whatever it
    holds for that code. *)
Theorem cache_hit_skips_the_store
    (w : @Process P R) (shortCode : string) (r2 : R) (u : domain.URL) :
  IsValidShortCode shortCode = true ->
  Get (redisRepo (svc w)) shortCode = (r2, Ok u) ->
  fst (GetLongURL shortCode w) = Returned (Ok (domain.LongURL u))
  /\ pgRepo (svc (snd (GetLongURL shortCode w))) = pgRepo (svc w)
  /\ calls (snd (GetLongURL shortCode w)) = calls w ++ [CallGet shortCode].
Proof.
  intros Hvalid Hhit.
  destruct (cache_hit w shortCode r2 u Hvalid Hhit)
    as (w' & Hrun & Hpg & _ & Hcalls).
  rewrite Hrun. cbn [fst snd]. auto.
Qed.

(** X16. What [GetLongURL] returns does not depend on the admission
    channel, the goroutines, the log or the calls made before: two states
    with the same store and the same cache give the same answer, whether
    the click is admitted or skipped. *)
Theorem resolution_ignores_the_pool (shortCode : string) (w1 w2 : @Process P R) :
  pgRepo (svc w1) = pgRepo (svc w2) ->
  redisRepo (svc w1) = redisRepo (svc w2) ->
  fst (GetLongURL shortCode w1) = fst (GetLongURL shortCode w2).
Proof.
  intros Hpg Hrd.
  destruct w1 as [[pg1 rd1 g1 b1 m1 [cap1 held1]] go1 lo1 ca1].
  destruct w2 as [[pg2 rd2 g2 b2 m2 [cap2 held2]] go2 lo2 ca2].
  cbn [svc pgRepo redisRepo] in Hpg, Hrd. subst pg1 rd1.
  unfold GetLongURL.
  destruct (negb (IsValidShortCode shortCode)); [reflexivity|].
  unfold bind, on_redisRepo, on_pgRepo, log_Debug, log_Error, log_Warn, log,
    ret, incrementClicksAsync.
  cbn -[Nat.ltb].
  destruct (Get rd2 shortCode) as [r [u|e]]; cbn -[Nat.ltb].
  - destruct (held1 <? cap1)%nat, (held2 <? cap2)%nat; reflexivity.
  - destruct (GetByShortCode pg2 shortCode) as [p [u|e']]; cbn -[Nat.ltb].
    + destruct (Set_ r shortCode u) as [r' [err|]]; cbn -[Nat.ltb];
        destruct (held1 <? cap1)%nat, (held2 <? cap2)%nat; reflexivity.
    + destruct (errors_Is e' repo.ErrNotFound); reflexivity.
Qed.

End ResolutionMore.

Lemma GetURLStats_outcomes_witness :
  fst (service.GetURLStats "abc123"
         (service.start
            (service.NewShortenerService
               (store_of [row 7 "abc123" "https://example.com"] 7)
               Down NewGenerator "http://localhost:8080")))
  = Returned (Ok {| domain.stats_ShortCode := "abc123";
                    domain.stats_LongURL := "https://example.com";
                    domain.stats_Clicks := 0;
                    domain.stats_CreatedAt := 0 |}).
Proof.
  destruct (GetURLStats_outcomes "abc123"
              (service.start
                 (service.NewShortenerService
                    (store_of [row 7 "abc123" "https://example.com"] 7)
                    Down NewGenerator "http://localhost:8080")))
    as [Hfound _].
  - vm_compute. reflexivity.
  - apply (Hfound (store_of [row 7 "abc123" "https://example.com"] 7)
                  (row 7 "abc123" "https://example.com")).
    vm_compute. reflexivity.
Defined.

Lemma cache_hit_skips_the_store_witness :
  let w := service.start
             (service.NewShortenerService
                DownStore
                ({["abc123" := row 7 "abc123" "https://example.com"]} : memCache)
                NewGenerator "http://localhost:8080") in
  fst (service.GetLongURL "abc123" w) = Returned (Ok "https://example.com")
  /\ service.calls (snd (service.GetLongURL "abc123" w))
     = [service.CallGet "abc123"].
Proof.
  intros w.
  destruct (cache_hit_skips_the_store w "abc123"
              ({["abc123" := row 7 "abc123" "https://example.com"]} : memCache)
              (row 7 "abc123" "https://example.com"))
    as (Hrun & _ & Hcalls).
  - vm_compute. reflexivity.
  - vm_compute. reflexivity.
  - split; [exact Hrun | exact Hcalls].
Defined.

Lemma resolution_ignores_the_pool_witness :
  let s := service.NewShortenerService
             (store_of [row 7 "abc123" "https://example.com"] 7)
             (∅ : memCache) NewGenerator "http://localhost:8080" in
  let full := {| service.svc :=
                   service.with_clickWorkers s
                     {| service.cap := 100; service.held := 100 |};
                 service.goroutines := [];
                 service.logs := [];
                 service.calls := [] |} in
  fst (service.GetLongURL "abc123" (service.start s))
  = fst (service.GetLongURL "abc123" full).
Proof.
  intros s full.
  apply (resolution_ignores_the_pool "abc123" (service.start s) full);
    reflexivity.
Defined.

(** ** The admission pool, along any run *)

Section PoolMore.
Import service.
Context {P R : Type} {PG : PostgresRepository P} {RD : RedisRepository R}.
Context {T : Strings} {U : NetURL}.

(** X17. In every state that a service made by [NewShortenerService]
    reaches, through any interleaving of public calls and finishing
    goroutines, the increment tasks in flight are at most as many as the
    elements in the channel, and those are at most 100. *)
Theorem in_flight_bounded_by_pool pg rd g b (w : @Process P R) :
  steps (start (NewShortenerService pg rd g b)) w ->
  (in_flight w <= admitted w)%nat
  /\ (admitted w <= 100)%nat
  /\ capacity w = 100%nat.
Proof.
  intros Hsteps. apply steps_advance in Hsteps as (Hcap & _ & Hok).
  assert (Hstart : pool_ok (start (NewShortenerService pg rd g b)))
    by (split; cbn; lia).
  destruct (Hok Hstart) as [H1 H2].
  change (capacity (start (NewShortenerService pg rd g b))) with 100%nat in Hcap.
  repeat split; lia.
Qed.

(** X18. No step of the program takes an element out of the admission
    channel: its capacity stays the same and the number of elements it
    holds never goes down. So from a state in which the channel is full,
    every later [incrementClicksAsync] only logs that the limit is
    reached. *)
Theorem admitted_slots_are_never_released (w w' : @Process P R) shortCode :
  steps w w' ->
  capacity w' = capacity w
  /\ (admitted w <= admitted w')%nat
  /\ (pool_ok w -> admitted w = capacity w ->
      incrementClicksAsync shortCode w'
      = log_Warn None None "click workers limit reached, skipping increment" w').
Proof.
  intros Hsteps.
  pose proof (steps_advance _ _ Hsteps) as (Hcap & Hadm & Hok').
  repeat split; try assumption.
  intros Hok Hfull. destruct (Hok' Hok) as [_ Hle].
  unfold incrementClicksAsync. unfold admitted, capacity in *.
  destruct (Nat.ltb_spec (held (clickWorkers (svc w'))) (cap (clickWorkers (svc w'))));
    [lia | reflexivity].
Qed.

End PoolMore.

Lemma in_flight_bounded_by_pool_witness :
  let w := snd (service.GetLongURL "abc123"
                  (service.start
                     (service.NewShortenerService
                        (store_of [row 7 "abc123" "https://example.com"] 7)
                        (∅ : memCache) NewGenerator "http://localhost:8080"))) in
  (service.in_flight w <= service.admitted w)%nat
  /\ (service.admitted w <= 100)%nat
  /\ service.capacity w = 100%nat.
Proof.
  intros w.
  apply (in_flight_bounded_by_pool
           (store_of [row 7 "abc123" "https://example.com"] 7)
           (∅ : memCache) NewGenerator "http://localhost:8080" w).
  eapply service.steps_step; [apply service.steps_refl|].
  apply service.step_GetLongURL.
Defined.

Lemma admitted_slots_are_never_released_witness :
  let w := service.resolve_and_finish 100 "abc123"
             (service.start
                (service.NewShortenerService
                   (store_of [row 7 "abc123" "https://example.com"] 7)
                   (∅ : memCache) NewGenerator "http://localhost:8080")) in
  let w' := snd (service.GetURLStats "abc123" w) in
  service.incrementClicksAsync "abc123" w'
  = service.log_Warn None None
      "click workers limit reached, skipping increment" w'.
Proof.
  intros w w'.
  destruct (admitted_slots_are_never_released w w' "abc123") as (_ & _ & Hfull).
  - eapply service.steps_step; [apply service.steps_refl|].
    apply service.step_GetURLStats.
  - apply Hfull.
    + vm_compute. split; lia.
    + vm_compute. reflexivity.
Defined.

(** ** What every run of the program keeps *)

Section Keeping.
Import service frames.
Context {P R : Type} {PG : PostgresRepository P} {RD : RedisRepository R}.
Context {T : Strings} {U : NetURL}.

Variable Rel : @Process P R -> @Process P R -> Prop.
Hypothesis Rel_refl : forall w, Rel w w.
Hypothesis Rel_trans : forall w1 w2 w3, Rel w1 w2 -> Rel w2 w3 -> Rel w1 w3.
Hypothesis Rel_pgRepo :
  forall A c (f : P -> P * A), keeps Rel (on_pgRepo c f).
Hypothesis Rel_Get :
  forall shortCode,
    keeps Rel (on_redisRepo (CallGet shortCode) (fun r => Get r shortCode)).
Hypothesis Rel_Set :
  forall shortCode url,
    keeps Rel (on_redisRepo (CallSet shortCode url)
                            (fun r => Set_ r shortCode url)).
Hypothesis Rel_log : forall e, keeps Rel (log e).
Hypothesis Rel_async : forall shortCode, keeps Rel (incrementClicksAsync shortCode).
Hypothesis Rel_done : forall k w, Rel w (without_goroutine k w).

Lemma keeps_ret {A} (a : A) : keeps Rel (@ret P R A a).
Proof. intros w. apply Rel_refl. Qed.

Lemma keeps_lift {A} (o : outcome A) : keeps Rel (@lift P R A o).
Proof. intros w. apply Rel_refl. Qed.

Lemma keeps_gets {A} (f : @ShortenerService P R -> A) : keeps Rel (gets f).
Proof. intros w. apply Rel_refl. Qed.

Lemma keeps_bind {A B} (m : @M P R A) (k : A -> @M P R B) :
  keeps Rel m -> (forall a, keeps Rel (k a)) -> keeps Rel (bind m k).
Proof.
  intros Hm Hk w. unfold bind. specialize (Hm w).
  destruct (m w) as [[a|msg|] w1]; cbn [snd] in *; try exact Hm.
  eapply Rel_trans; [exact Hm | apply Hk].
Qed.

Ltac solve_keeps :=
  repeat first
    [ apply keeps_ret | apply keeps_lift | apply keeps_gets
    | apply Rel_pgRepo | apply Rel_Get | apply Rel_Set
    | apply Rel_log | apply Rel_async
    | apply keeps_bind; [|intros]
    | match goal with
      | |- keeps _ (if ?b then _ else _) => destruct b
      | |- keeps _ (match ?x with _ => _ end) => destruct x
      end ].

Lemma keeps_createShortURLWithRetries fuel l attempt mr :
  keeps Rel (createShortURLWithRetries fuel l attempt mr).
Proof.
  revert l attempt. induction fuel as [|fuel IH]; intros l attempt;
    cbn [createShortURLWithRetries]; unfold log_Warn, log_Error; solve_keeps.
  apply IH.
Qed.

Lemma keeps_CreateShortURL l : keeps Rel (CreateShortURL l).
Proof.
  unfold CreateShortURL. solve_keeps. apply keeps_createShortURLWithRetries.
Qed.

Lemma keeps_GetLongURL shortCode : keeps Rel (GetLongURL shortCode).
Proof. unfold GetLongURL, log_Debug, log_Warn, log_Error. solve_keeps. Qed.

Lemma keeps_GetURLStats shortCode : keeps Rel (GetURLStats shortCode).
Proof. unfold GetURLStats. solve_keeps. Qed.

Lemma keeps_run_goroutine k : keeps Rel (run_goroutine k).
Proof.
  intros w. unfold run_goroutine.
  destruct (goroutines w !! k) as [shortCode|]; [|apply Rel_refl].
  eapply Rel_trans; [apply (Rel_done k w)|].
  unfold incrementClicksTask, log_Warn.
  apply keeps_bind; [apply Rel_pgRepo|]. intros [err|]; solve_keeps.
Qed.

(** A relation that is reflexive and transitive and kept by the calls
    through the two interfaces, by logging, by the admission of an
    increment and by the end of a goroutine holds between any state and
    every state reached from it. *)
Lemma steps_keep w w' : steps w w' -> Rel w w'.
Proof.
  induction 1 as [|w1 w2 w3 _ IH Hstep]; [apply Rel_refl|].
  eapply Rel_trans; [exact IH|]. destruct Hstep.
  - apply keeps_CreateShortURL.
  - apply keeps_GetLongURL.
  - apply keeps_GetURLStats.
  - apply keeps_run_goroutine.
Qed.

End Keeping.

Section Configuration.
Import service frames.
Context {P R : Type} {PG : PostgresRepository P} {RD : RedisRepository R}.
Context {T : Strings} {U : NetURL}.

(** X19. Nothing the program does changes the configuration of the
    service: after any interleaving of public calls and finishing
    goroutines the generator, the base URL, the number of attempts and
    the capacity of the admission channel are what they were. A service
    made by [NewShortenerService] therefore always has 3 attempts and
    capacity 100. *)
Theorem configuration_is_kept (w w' : @Process P R) :
  steps w w' -> same_config w w'.
Proof.
  apply steps_keep.
  - intros w0. unfold same_config. auto.
  - intros w1 w2 w3 (A1 & A2 & A3 & A4) (B1 & B2 & B3 & B4).
    unfold same_config. repeat split; congruence.
  - intros A c f w0. unfold on_pgRepo.
    destruct (f (pgRepo (svc w0))) as [p a]. unfold same_config. cbn. auto.
  - intros shortCode w0. unfold on_redisRepo.
    destruct (Get (redisRepo (svc w0)) shortCode) as [r a].
    unfold same_config. cbn. auto.
  - intros shortCode url w0. unfold on_redisRepo.
    destruct (Set_ (redisRepo (svc w0)) shortCode url) as [r a].
    unfold same_config. cbn. auto.
  - intros e w0. unfold same_config, log. cbn. auto.
  - intros shortCode w0. unfold incrementClicksAsync, log_Warn, log.
    destruct (held (clickWorkers (svc w0)) <? cap (clickWorkers (svc w0)))%nat;
      unfold same_config; cbn; auto.
  - intros k w0. unfold same_config, without_goroutine. cbn. auto.
Qed.

End Configuration.

Lemma configuration_is_kept_witness :
  let w := service.start
             (service.NewShortenerService
                (store_of [row 7 "abc123" "https://example.com"] 7)
                (∅ : memCache) NewGenerator "http://localhost:8080") in
  service.maxRetries (service.svc (snd (service.CreateShortURL "example.com" w))) = 3.
Proof.
  intros w.
  destruct (configuration_is_kept w (snd (service.CreateShortURL "example.com" w)))
    as (_ & _ & Hmax & _).
  - eapply service.steps_step; [apply service.steps_refl|].
    apply service.step_CreateShortURL.
  - rewrite Hmax. reflexivity.
Defined.

(** ** The repositories on valid short codes *)

Section RepositoriesMore.
Context {DB : Type} {PoolDB : repo.Pool DB}.
Context {C : Type} {ClientC : repo.Client C} {J : repo.JSON}.

(** X20. [PostgresRepo] turns what the driver reports into the errors of
    the repository. On a valid short code: an insert that fails with
    SQLSTATE 23505, wrapped or not, gives [ErrAlreadyExists], the error
    on which the service retries; a select that fails with
    [pgx.ErrNoRows], wrapped or not, gives [ErrNotFound]; an update that
    affects no row gives [ErrNotFound]. Each operation hands exactly one
    statement to the pool. *)
Theorem PostgresRepo_sentinel_errors
    (pg : repo.PostgresRepo DB) (now : Z) (shortCode longURL : string) :
  IsValidShortCode shortCode = true ->
  (forall db err,
      repo.QueryRow_ScanURL (repo.pool pg) repo.PostgresRepo.insert_query
        [repo.ArgString shortCode; repo.ArgString longURL; repo.ArgTime now]
      = (db, Err err) ->
      errors_As_PgError err = Some "23505"%string ->
      repo.PostgresRepo.Create pg now shortCode longURL
      = ({| repo.pool := db;
            repo.sent := repo.sent pg ++
              [(repo.PostgresRepo.insert_query,
                [repo.ArgString shortCode; repo.ArgString longURL;
                 repo.ArgTime now])] |},
         Err repo.ErrAlreadyExists))
  /\ (forall db err,
      repo.QueryRow_ScanURL (repo.pool pg) repo.PostgresRepo.select_query
        [repo.ArgString shortCode] = (db, Err err) ->
      errors_Is err repo.pgx_ErrNoRows = true ->
      repo.PostgresRepo.GetByShortCode pg shortCode
      = ({| repo.pool := db;
            repo.sent := repo.sent pg ++
              [(repo.PostgresRepo.select_query, [repo.ArgString shortCode])] |},
         Err repo.ErrNotFound))
  /\ (forall db,
      repo.Exec_RowsAffected (repo.pool pg) repo.PostgresRepo.update_query
        [repo.ArgString shortCode] = (db, Ok 0) ->
      repo.PostgresRepo.IncrementClicksCounter pg shortCode
      = ({| repo.pool := db;
            repo.sent := repo.sent pg ++
              [(repo.PostgresRepo.update_query, [repo.ArgString shortCode])] |},
         Some repo.ErrNotFound)).
Proof.
  intros Hvalid. repeat split.
  - intros db err Hrow Hcode. unfold repo.PostgresRepo.Create.
    rewrite Hvalid. cbn [negb]. rewrite Hrow, Hcode. reflexivity.
  - intros db err Hrow Hnone. unfold repo.PostgresRepo.GetByShortCode.
    rewrite Hvalid. cbn [negb]. rewrite Hrow, Hnone. reflexivity.
  - intros db Hexec. unfold repo.PostgresRepo.IncrementClicksCounter.
    rewrite Hvalid. cbn [negb]. rewrite Hexec. reflexivity.
Qed.

(** X21. A record that [RedisRepo.Set] stores comes back from
    [RedisRepo.Get]: when the client accepts the write and then returns
    the stored bytes, and the decoder reads what the encoder wrote, [Set]
    returns no error and [Get] returns the record; the client was handed
    one SET and one GET for that key. *)
Theorem RedisRepo_Set_then_Get
    (rd : repo.RedisRepo C) (shortCode : string) (url : domain.URL)
    (data : string) (c1 c2 : C) :
  IsValidShortCode shortCode = true ->
  repo.json_Marshal url = Ok data ->
  repo.client_Set (repo.client rd) shortCode data (repo.ttl rd) = (c1, None) ->
  repo.client_Get c1 shortCode = (c2, Ok data) ->
  repo.json_Unmarshal data = Ok url ->
  snd (repo.RedisRepo.Set_ rd shortCode url) = None
  /\ snd (repo.RedisRepo.Get (fst (repo.RedisRepo.Set_ rd shortCode url)) shortCode)
     = Ok url
  /\ repo.commands
       (fst (repo.RedisRepo.Get (fst (repo.RedisRepo.Set_ rd shortCode url))
                                shortCode))
     = repo.commands rd ++ [("SET", shortCode); ("GET", shortCode)]%string.
Proof.
  intros Hvalid Hmarshal Hset Hget Hunmarshal.
  unfold repo.RedisRepo.Set_. rewrite Hvalid, Hmarshal. cbn [negb].
  rewrite Hset. cbn [fst snd]. split; [reflexivity|].
  unfold repo.RedisRepo.Get. rewrite Hvalid. cbn [negb].
  unfold repo.RedisRepo.sent_to. cbn [repo.client repo.ttl repo.commands].
  rewrite Hget, Hunmarshal. cbn [fst snd repo.commands].
  split; [reflexivity | now rewrite <- app_assoc].
Qed.

(** X22. What [RedisRepo.Get] makes of the client's answer on a valid
    short code: a missing key ([redis.Nil]) is [ErrNotFound]; stored bytes
    that the decoder rejects are an error too, the decoder's. And when
    the encoder rejects a record, [RedisRepo.Set] returns the encoder's
    error and hands nothing to the client. *)
Theorem RedisRepo_miss_and_bad_data
    (rd : repo.RedisRepo C) (shortCode : string) (url : domain.URL) :
  IsValidShortCode shortCode = true ->
  (forall c err,
      repo.client_Get (repo.client rd) shortCode = (c, Err err) ->
      errors_Is err repo.redis_Nil = true ->
      snd (repo.RedisRepo.Get rd shortCode) = Err repo.ErrNotFound)
  /\ (forall c data err,
      repo.client_Get (repo.client rd) shortCode = (c, Ok data) ->
      repo.json_Unmarshal data = Err err ->
      snd (repo.RedisRepo.Get rd shortCode) = Err err)
  /\ (forall err,
      repo.json_Marshal url = Err err ->
      repo.RedisRepo.Set_ rd shortCode url = (rd, Some err)).
Proof.
  intros Hvalid. repeat split.
  - intros c err Hget Hnil. unfold repo.RedisRepo.Get.
    rewrite Hvalid. cbn [negb]. now rewrite Hget, Hnil.
  - intros c data err Hget Hbad. unfold repo.RedisRepo.Get.
    rewrite Hvalid. cbn [negb]. now rewrite Hget, Hbad.
  - intros err Hmarshal. unfold repo.RedisRepo.Set_.
    rewrite Hvalid. cbn [negb]. now rewrite Hmarshal.
Qed.

End RepositoriesMore.

Lemma PostgresRepo_sentinel_errors_witness :
  let db := {| urls := {["abc123" := row 1 "abc123" "https://example.com"]};
               urls_id_seq := 1 |} in
  snd (repo.PostgresRepo.Create (repo.NewPostgresRepo db) 0 "abc123"
                                "https://other.example")
    = Err repo.ErrAlreadyExists
  /\ snd (repo.PostgresRepo.GetByShortCode (repo.NewPostgresRepo db) "zzz")
    = Err repo.ErrNotFound
  /\ snd (repo.PostgresRepo.IncrementClicksCounter (repo.NewPostgresRepo db) "zzz")
    = Some repo.ErrNotFound.
Proof.
  intros db.
  destruct (PostgresRepo_sentinel_errors (repo.NewPostgresRepo db) 0 "abc123"
              "https://other.example") as (Hinsert & _ & _);
    [vm_compute; reflexivity|].
  destruct (PostgresRepo_sentinel_errors (repo.NewPostgresRepo db) 0 "zzz"
              "https://other.example") as (_ & Hselect & Hupdate);
    [vm_compute; reflexivity|].
  split; [|split].
  - rewrite (Hinsert db unique_violation); reflexivity.
  - rewrite (Hselect db repo.pgx_ErrNoRows); reflexivity.
  - rewrite (Hupdate db); reflexivity.
Defined.

Lemma RedisRepo_Set_then_Get_witness :
  let rd := repo.NewRedisRepo (∅ : memRedis) 86400 in
  let u := {| domain.ID := 7; domain.ShortCode := "abc123";
              domain.LongURL := "https://example.com/a,b";
              domain.CreatedAt := 1700000000; domain.Clicks := 12 |} in
  snd (repo.RedisRepo.Get (J := csv_JSON)
         (fst (repo.RedisRepo.Set_ (J := csv_JSON) rd "abc123" u)) "abc123")
  = Ok u.
Proof.
  intros rd u.
  destruct (RedisRepo_Set_then_Get (J := csv_JSON) rd "abc123" u
              "7,1700000000,12,abc123,https://example.com/a,b"
              ({["abc123" := "7,1700000000,12,abc123,https://example.com/a,b"]}
                 : memRedis)
              ({["abc123" := "7,1700000000,12,abc123,https://example.com/a,b"]}
                 : memRedis))
    as (_ & Hget & _).
  - vm_compute. reflexivity.
  - vm_compute. reflexivity.
  - vm_compute. reflexivity.
  - vm_compute. reflexivity.
  - vm_compute. reflexivity.
  - exact Hget.
Defined.

Lemma RedisRepo_miss_and_bad_data_witness :
  snd (repo.RedisRepo.Get (J := csv_JSON)
         (repo.NewRedisRepo (∅ : memRedis) 86400) "abc123")
    = Err repo.ErrNotFound
  /\ snd (repo.RedisRepo.Get (J := csv_JSON)
            (repo.NewRedisRepo ({["abc123" := "not a record"]} : memRedis) 86400)
            "abc123")
    = Err bad_record.
Proof.
  split.
  - destruct (RedisRepo_miss_and_bad_data (J := csv_JSON)
                (repo.NewRedisRepo (∅ : memRedis) 86400) "abc123"
                (row 1 "abc123" "https://example.com")) as (Hmiss & _).
    + vm_compute. reflexivity.
    + apply (Hmiss (∅ : memRedis) repo.redis_Nil).
      * vm_compute. reflexivity.
      * vm_compute. reflexivity.
  - destruct (RedisRepo_miss_and_bad_data (J := csv_JSON)
                (repo.NewRedisRepo ({["abc123" := "not a record"]} : memRedis)
                                   86400)
                "abc123" (row 1 "abc123" "https://example.com"))
      as (_ & Hbad & _).
    + vm_compute. reflexivity.
    + apply (Hbad ({["abc123" := "not a record"]} : memRedis) "not a record"%string
                  bad_record).
      * vm_compute. reflexivity.
      * vm_compute. reflexivity.
Defined.

(** ** The service on top of [RedisRepo] *)

Section ValidKeys.
Import service frames server.
Context {P C : Type} {PG : PostgresRepository P}.
Context {ClientC : repo.Client C} {J : repo.JSON}.
Context {T : Strings} {U : NetURL}.

Lemma sends_valid_keys_same (w w' : @Process P (repo.RedisRepo C)) :
  redisRepo (svc w') = redisRepo (svc w) -> sends_valid_keys w w'.
Proof. intros Heq. exists []. rewrite Heq, app_nil_r. now split. Qed.

(** X23. With [RedisRepo] as the cache of the service, every command
    that reaches the Redis client carries a valid short code as its key,
    in any run of the program: through the public calls, with any input,
    and through the goroutines. *)
Theorem redis_only_sees_valid_keys (w w' : @Process P (repo.RedisRepo C)) :
  steps w w' -> sends_valid_keys w w'.
Proof.
  apply steps_keep.
  - intros w0. now apply sends_valid_keys_same.
  - intros w1 w2 w3 (s1 & E1 & V1) (s2 & E2 & V2).
    exists (s1 ++ s2). rewrite E2, E1, <- app_assoc. split; [reflexivity|].
    rewrite forallb_app. now rewrite V1, V2.
  - intros A c f w0. unfold on_pgRepo.
    destruct (f (pgRepo (svc w0))) as [p a]. now apply sends_valid_keys_same.
  - intros shortCode w0. unfold on_redisRepo. cbn [Get server.RedisRepo_RedisRepository].
    unfold repo.RedisRepo.Get.
    destruct (IsValidShortCode shortCode) eqn:Hvalid; cbn [negb].
    + destruct (repo.client_Get (repo.client (redisRepo (svc w0))) shortCode)
        as [c [data|err]];
        [destruct (repo.json_Unmarshal data)
        |destruct (errors_Is err repo.redis_Nil)];
        (exists [("GET"%string, shortCode)]; cbn;
         unfold valid_key; cbn; rewrite Hvalid; now split).
    + now apply sends_valid_keys_same.
  - intros shortCode url w0. unfold on_redisRepo.
    cbn [Set_ server.RedisRepo_RedisRepository].
    unfold repo.RedisRepo.Set_.
    destruct (IsValidShortCode shortCode) eqn:Hvalid; cbn [negb].
    + destruct (repo.json_Marshal url) as [data|err].
      * destruct (repo.client_Set (repo.client (redisRepo (svc w0))) shortCode
                    data (repo.ttl (redisRepo (svc w0)))) as [c e].
        exists [("SET"%string, shortCode)]. cbn.
        unfold valid_key. cbn. rewrite Hvalid. now split.
      * now apply sends_valid_keys_same.
    + now apply sends_valid_keys_same.
  - intros e w0. now apply sends_valid_keys_same.
  - intros shortCode w0. unfold incrementClicksAsync, log_Warn, log.
    destruct (held (clickWorkers (svc w0)) <? cap (clickWorkers (svc w0)))%nat;
      now apply sends_valid_keys_same.
  - intros k w0. now apply sends_valid_keys_same.
Qed.

End ValidKeys.

Lemma redis_only_sees_valid_keys_witness :
  let w := service.start
             (service.NewShortenerService
                (store_of [row 7 "abc123" "https://example.com"] 7)
                (repo.NewRedisRepo (∅ : memRedis) 86400)
                NewGenerator "http://localhost:8080") in
  let w' := snd (service.GetLongURL
                   (RD := server.RedisRepo_RedisRepository (J := csv_JSON))
                   "abc123" w) in
  frames.sends_valid_keys w w'
  /\ repo.commands (service.redisRepo (service.svc w'))
     = [("GET", "abc123"); ("SET", "abc123")]%string.
Proof.
  intros w w'. split; [|vm_compute; reflexivity].
  apply (redis_only_sees_valid_keys (J := csv_JSON) w w').
  eapply service.steps_step; [apply service.steps_refl|].
  apply (service.step_GetLongURL
           (RD := server.RedisRepo_RedisRepository (J := csv_JSON))).
Defined.

(** ** The HTTP handlers *)

Section HandlersMore.
Import service.
Context {P R : Type} {PG : PostgresRepository P} {RD : RedisRepository R}.
Context {T : Strings} {U : NetURL} {E : api.Echo}.

(** [GetLongURL] and [GetURLStats] always return: they neither panic nor
    loop. *)
Lemma GetLongURL_returns shortCode (w : @Process P R) :
  exists r, fst (GetLongURL shortCode w) = Returned r.
Proof.
  unfold GetLongURL.
  destruct (negb (IsValidShortCode shortCode)); [cbn; eauto|].
  unfold bind, on_redisRepo, on_pgRepo, log_Debug, log_Error, log_Warn, log,
    ret, incrementClicksAsync.
  destruct (Get (redisRepo (svc w)) shortCode) as [r [u|e]]; cbn -[Nat.ltb].
  - match goal with
    | |- context [(?a <? ?b)%nat] => destruct (a <? b)%nat
    end; cbn; eauto.
  - destruct (GetByShortCode (pgRepo (svc w)) shortCode) as [p [u|e']];
      cbn -[Nat.ltb].
    + destruct (Set_ r shortCode u) as [r' [err|]]; cbn -[Nat.ltb];
        match goal with
        | |- context [(?a <? ?b)%nat] => destruct (a <? b)%nat
        end; cbn; eauto.
    + destruct (errors_Is e' repo.ErrNotFound); cbn; eauto.
Qed.

Lemma GetURLStats_returns shortCode (w : @Process P R) :
  exists r, fst (GetURLStats shortCode w) = Returned r.
Proof.
  unfold GetURLStats.
  destruct (negb (IsValidShortCode shortCode)); [cbn; eauto|].
  unfold bind, on_pgRepo, ret.
  destruct (GetByShortCode (pgRepo (svc w)) shortCode) as [p [u|e]];
    [|destruct (errors_Is e repo.ErrNotFound)]; cbn; eauto.
Qed.

(** X24. The Redirect handler always answers, with one of two responses:
    302 to the long URL that [GetLongURL] returned, or 404 "Short URL not
    found" for every error of [GetLongURL], be it a malformed code, a
    missing code or a failure of the store. A malformed code gets its
    404 without any access to the store or the cache. *)
Theorem Redirect_is_302_or_404 (c : api.Context) (w : @Process P R) :
  ((exists longURL,
       fst (GetLongURL (api.Param c "shortCode") w) = Returned (Ok longURL)
       /\ fst (api.Redirect c w)
          = Returned (api.RedirectTo api.StatusFound longURL))
   \/ (exists err,
       fst (GetLongURL (api.Param c "shortCode") w) = Returned (Err err)
       /\ fst (api.Redirect c w)
          = Returned (api.JSON api.StatusNotFound
                               (api.ErrorPayload "Short URL not found"))))
  /\ snd (api.Redirect c w) = snd (GetLongURL (api.Param c "shortCode") w)
  /\ (IsValidShortCode (api.Param c "shortCode") = false ->
      api.Redirect c w
      = (Returned (api.JSON api.StatusNotFound
                            (api.ErrorPayload "Short URL not found")), w)).
Proof.
  unfold api.Redirect, bind.
  destruct (GetLongURL_returns (api.Param c "shortCode") w) as [r Hr].
  destruct (GetLongURL (api.Param c "shortCode") w) as [o w1] eqn:Hrun.
  cbn [fst snd] in *. subst o.
  split; [|split].
  - destruct r as [longURL|err]; [left | right]; eauto.
  - now destruct r.
  - intros Hbad. unfold GetLongURL in Hrun. rewrite Hbad in Hrun.
    cbn in Hrun. now inversion Hrun.
Qed.

(** X26. The GetStats handler always answers, with one of two responses:
    200 with the statistics that [GetURLStats] returned, or 404 "Short
    URL not found" for every error of [GetURLStats]. *)
Theorem GetStats_is_200_or_404 (c : api.Context) (w : @Process P R) :
  ((exists stats,
       fst (GetURLStats (api.Param c "shortCode") w) = Returned (Ok stats)
       /\ fst (api.GetStats c w)
          = Returned (api.JSON api.StatusOK (api.StatsPayload stats)))
   \/ (exists err,
       fst (GetURLStats (api.Param c "shortCode") w) = Returned (Err err)
       /\ fst (api.GetStats c w)
          = Returned (api.JSON api.StatusNotFound
                               (api.ErrorPayload "Short URL not found"))))
  /\ snd (api.GetStats c w) = snd (GetURLStats (api.Param c "shortCode") w).
Proof.
  unfold api.GetStats, bind.
  destruct (GetURLStats_returns (api.Param c "shortCode") w) as [r Hr].
  destruct (GetURLStats (api.Param c "shortCode") w) as [o w1] eqn:Hrun.
  cbn [fst snd] in *. subst o. split.
  - destruct r as [stats|err]; [left | right]; eauto.
  - now destruct r.
Qed.

(** X25. The CreateShortURL handler answers 400 and leaves the service
    alone when the body cannot be bound or the request fails the struct
    validation. When the request passes both and the service rejects
    the URL as invalid, the answer is 500 "Failed to create short URL":
    the service's error is logged, and neither the store nor the cache
    was called. *)
Theorem CreateShortURL_handler_rejections (c : api.Context) (w : @Process P R) :
  (forall err,
      api.Bind (api.Body c) = Err err ->
      api.CreateShortURL c w
      = (Returned (api.JSON api.StatusBadRequest
                            (api.ErrorPayload "Invalid request payload")), w))
  /\ (forall request err,
      api.Bind (api.Body c) = Ok request ->
      api.Validate request = Some err ->
      api.CreateShortURL c w
      = (Returned (api.JSON api.StatusBadRequest
                            (api.ErrorPayload
                               ("Validation failed: " +:+ api.Error err))), w))
  /\ (forall request,
      api.Bind (api.Body c) = Ok request ->
      api.Validate request = None ->
      0 < maxRetries (svc w) ->
      IsValidURL (NormalizeURL (domain.req_LongURL request)) = false ->
      fst (api.CreateShortURL c w)
      = Returned (api.JSON api.StatusInternalServerError
                           (api.ErrorPayload "Failed to create short URL"))
      /\ svc (snd (api.CreateShortURL c w)) = svc w
      /\ calls (snd (api.CreateShortURL c w)) = calls w
      /\ logs (snd (api.CreateShortURL c w))
         = logs w ++
           [{| level := ErrorLevel;
               log_err :=
                 Some (Errorf ("invalid URL: "
                               +:+ NormalizeURL (domain.req_LongURL request)));
               log_short_code := None;
               message := "error creating short URL" |}]).
Proof.
  split; [|split].
  - intros err Hbind. unfold api.CreateShortURL. now rewrite Hbind.
  - intros request err Hbind Hval. unfold api.CreateShortURL.
    now rewrite Hbind, Hval.
  - intros request Hbind Hval Hmax Hurl.
    assert (Hrun : CreateShortURL (domain.req_LongURL request) w
                   = (Returned (Err (Errorf ("invalid URL: "
                        +:+ NormalizeURL (domain.req_LongURL request)))), w)).
    { unfold CreateShortURL, bind, gets.
      destruct (Z.to_nat (maxRetries (svc w))); cbn [createShortURLWithRetries];
        (destruct (Z.geb_spec 0 (maxRetries (svc w))); [lia|]);
        now rewrite Hurl. }
    assert (Hall : api.CreateShortURL c w
                   = (Returned (api.JSON api.StatusInternalServerError
                                  (api.ErrorPayload "Failed to create short URL")),
                      snd (log_Error
                             (Errorf ("invalid URL: "
                                +:+ NormalizeURL (domain.req_LongURL request)))
                             None "error creating short URL" w))).
    { unfold api.CreateShortURL. rewrite Hbind, Hval.
      unfold bind at 1. rewrite Hrun. reflexivity. }
    rewrite Hall. cbn [fst snd log_Error log svc calls logs]. auto.
Qed.

End HandlersMore.

Lemma CreateShortURL_handler_rejections_witness :
  let w := service.start
             (service.NewShortenerService
                (store_of [] 0) (∅ : memCache) NewGenerator
                "http://localhost:8080") in
  api.CreateShortURL (E := plain_Echo)
    {| api.Param := fun _ => EmptyString; api.Body := "" |} w
    = (Returned (api.JSON 400 (api.ErrorPayload "Invalid request payload")), w)
  /\ fst (api.CreateShortURL (E := plain_Echo)
            {| api.Param := fun _ => EmptyString; api.Body := "http://" |} w)
    = Returned (api.JSON 500 (api.ErrorPayload "Failed to create short URL"))
  /\ service.calls
       (snd (api.CreateShortURL (E := plain_Echo)
               {| api.Param := fun _ => EmptyString; api.Body := "http://" |} w))
    = [].
Proof.
  intros w. split; [|].
  - destruct (CreateShortURL_handler_rejections (E := plain_Echo)
                {| api.Param := fun _ => EmptyString; api.Body := "" |} w)
      as (Hbind & _).
    apply (Hbind (errorString "EOF")). reflexivity.
  - destruct (CreateShortURL_handler_rejections (E := plain_Echo)
                {| api.Param := fun _ => EmptyString; api.Body := "http://" |} w)
      as (_ & _ & Hinvalid).
    destruct (Hinvalid {| domain.req_LongURL := "http://" |})
      as (Hresp & _ & Hcalls & _).
    + reflexivity.
    + vm_compute. reflexivity.
    + vm_compute. reflexivity.
    + vm_compute. reflexivity.
    + split; [exact Hresp | exact Hcalls].
Defined.

(** ** The configuration check of the server *)

Section ServerConfiguration.
Context {Env : server.Environ}.

Lemma validate_keys_first_missing (keys : list string) :
  match server.validate_keys keys with
  | None => forallb (fun key => negb (String.eqb (server.Getenv key) "")) keys = true
  | Some err =>
    exists before key after,
      keys = before ++ key :: after
      /\ forallb (fun k => negb (String.eqb (server.Getenv k) "")) before = true
      /\ server.Getenv key = EmptyString
      /\ err = service.Errorf
                 ("missing required environment variable: " +:+ key)
  end.
Proof.
  induction keys as [|key rest IH]; cbn [server.validate_keys]; [reflexivity|].
  destruct (String.eqb_spec (server.Getenv key) ""%string) as [Hempty|Hset].
  - exists [], key, rest. repeat split. exact Hempty.
  - destruct (server.validate_keys rest) as [err|].
    + destruct IH as (before & k & after & -> & Hbefore & Hk & ->).
      exists (key :: before), k, after. cbn [app forallb].
      destruct (String.eqb_spec (server.Getenv key) ""%string); [contradiction|].
      now repeat split.
    + cbn [forallb].
      destruct (String.eqb_spec (server.Getenv key) ""%string); [contradiction|].
      exact IH.
Qed.

(** X27. [validateConfig] returns no error exactly when the seven
    required variables are all set to a non-empty value; otherwise its
    error names the first of them, in the order of the list, that is
    unset or empty. *)
Theorem validateConfig_names_first_missing :
  (server.validateConfig = None <->
   forallb (fun key => negb (String.eqb (server.Getenv key) ""))
           server.requiredKeys = true)
  /\ (forall err,
      server.validateConfig = Some err ->
      exists before key after,
        server.requiredKeys = before ++ key :: after
        /\ forallb (fun k => negb (String.eqb (server.Getenv k) "")) before = true
        /\ server.Getenv key = EmptyString
        /\ err = service.Errorf
                   ("missing required environment variable: " +:+ key)).
Proof.
  pose proof (validate_keys_first_missing server.requiredKeys) as H.
  unfold server.validateConfig.
  destruct (server.validate_keys server.requiredKeys) as [err|].
  - split.
    + split; [discriminate|]. intros Hall.
      destruct H as (before & key & after & Hkeys & _ & Hempty & _).
      rewrite Hkeys, forallb_app in Hall. cbn [forallb] in Hall.
      rewrite Hempty in Hall. cbn in Hall.
      now rewrite andb_false_r in Hall.
    + intros err' [= <-]. exact H.
  - split; [tauto | discriminate].
Qed.

End ServerConfiguration.

Lemma validateConfig_names_first_missing_witness :
  server.validateConfig
    (Env := lookup_env
              [("POSTGRES_HOST", "db"); ("POSTGRES_PORT", "5432");
               ("POSTGRES_USER", "gosnap"); ("POSTGRES_PASSWORD", "secret");
               ("POSTGRES_DATABASE", "urlshortener"); ("REDIS_HOST", "");
               ("REDIS_PORT", "6379")]%string)
  = Some (service.Errorf "missing required environment variable: REDIS_HOST").
Proof.
  set (env := lookup_env _).
  destruct (validateConfig_names_first_missing (Env := env)) as [_ Hsome].
  destruct (server.validateConfig (Env := env)) as [err|] eqn:Hv;
    [|vm_compute in Hv; discriminate].
  destruct (Hsome err eq_refl) as (before & key & after & Hkeys & Hset & Hempty & ->).
  f_equal. f_equal. f_equal.
  vm_compute in Hv. now injection Hv as <-.
Defined.

Lemma Redirect_is_302_or_404_witness :
  let w := service.start
             (service.NewShortenerService
                DownStore (∅ : memCache) NewGenerator "http://localhost:8080") in
  api.Redirect
    {| api.Param := fun _ => "abc 123"%string; api.Body := "" |} w
  = (Returned (api.JSON 404 (api.ErrorPayload "Short URL not found")), w)
  /\ fst (api.Redirect
            {| api.Param := fun _ => "abc123"%string; api.Body := "" |} w)
     = Returned (api.JSON 404 (api.ErrorPayload "Short URL not found")).
Proof.
  intros w. split.
  - destruct (Redirect_is_302_or_404
                {| api.Param := fun _ => "abc 123"%string; api.Body := "" |} w)
      as (_ & _ & Hbad).
    apply Hbad. vm_compute. reflexivity.
  - destruct (Redirect_is_302_or_404
                {| api.Param := fun _ => "abc123"%string; api.Body := "" |} w)
      as ([(longURL & Hok & _)|(err & _ & Hresp)] & _).
    + vm_compute in Hok. discriminate.
    + exact Hresp.
Defined.

(** ** A damaged cache entry *)

Section CacheRepair.
Import service server.
Context {P C : Type} {PG : PostgresRepository P}.
Context {ClientC : repo.Client C} {J : repo.JSON}.
Context {T : Strings} {U : NetURL}.

(** X28. With [RedisRepo] as the cache: when Redis holds bytes for a valid
    short code that the decoder rejects, [GetLongURL] treats the entry
    as a miss, returns the long URL of the record in the store, and
    writes that record over the damaged entry. Redis was handed one GET
    and one SET for the code. *)
Theorem damaged_cache_entry_is_replaced
    (w : @Process P (repo.RedisRepo C)) (shortCode : string)
    (c1 c2 : C) (data data' : string) (e : error) (p1 : P) (u : domain.URL) :
  IsValidShortCode shortCode = true ->
  repo.client_Get (repo.client (redisRepo (svc w))) shortCode = (c1, Ok data) ->
  repo.json_Unmarshal data = Err e ->
  GetByShortCode (pgRepo (svc w)) shortCode = (p1, Ok u) ->
  repo.json_Marshal u = Ok data' ->
  repo.client_Set c1 shortCode data' (repo.ttl (redisRepo (svc w))) = (c2, None) ->
  fst (GetLongURL shortCode w) = Returned (Ok (domain.LongURL u))
  /\ repo.client (redisRepo (svc (snd (GetLongURL shortCode w)))) = c2
  /\ repo.commands (redisRepo (svc (snd (GetLongURL shortCode w))))
     = repo.commands (redisRepo (svc w))
       ++ [("GET", shortCode); ("SET", shortCode)]%string
  /\ map message (logs (snd (GetLongURL shortCode w)))
     = map message (logs w) ++ ["cache miss, querying from Postgres"]%string
       ++ (if (held (clickWorkers (svc w)) <? cap (clickWorkers (svc w)))%nat
           then []
           else ["click workers limit reached, skipping increment"]%string).
Proof.
  intros Hvalid Hget Hbad Hstore Hmarshal Hset.
  set (rd1 := repo.RedisRepo.sent_to (redisRepo (svc w)) c1 "GET" shortCode).
  assert (Hmiss : Get (redisRepo (svc w)) shortCode = (rd1, Err e)).
  { cbn [Get RedisRepo_RedisRepository]. unfold repo.RedisRepo.Get.
    rewrite Hvalid. cbn [negb]. now rewrite Hget, Hbad. }
  assert (Hwrite : Set_ rd1 shortCode u
                   = (repo.RedisRepo.sent_to rd1 c2 "SET" shortCode, None)).
  { cbn [Set_ RedisRepo_RedisRepository]. unfold repo.RedisRepo.Set_.
    rewrite Hvalid, Hmarshal. cbn [negb].
    unfold rd1 at 1 2. unfold repo.RedisRepo.sent_to at 1 2.
    cbn [repo.client repo.ttl]. now rewrite Hset. }
  destruct (cache_miss_store_hit w shortCode rd1 e p1 u Hvalid Hmiss Hstore)
    as (w' & Hrun & _ & Hrd & _ & Hlogs).
  rewrite Hrun. cbn [fst snd]. rewrite Hrd, Hlogs, Hwrite. cbn [fst snd].
  split; [reflexivity|]. split; [reflexivity|]. split.
  - unfold rd1, repo.RedisRepo.sent_to. cbn [repo.commands].
    now rewrite <- app_assoc.
  - rewrite !map_app. cbn [map message app].
    now destruct (held (clickWorkers (svc w)) <? cap (clickWorkers (svc w)))%nat.
Qed.

End CacheRepair.

Lemma damaged_cache_entry_is_replaced_witness :
  let w := service.start
             (service.NewShortenerService
                (store_of [row 7 "abc123" "https://example.com"] 7)
                (repo.NewRedisRepo ({["abc123" := "not a record"]} : memRedis) 86400)
                NewGenerator "http://localhost:8080") in
  fst (service.GetLongURL
         (RD := server.RedisRepo_RedisRepository (J := csv_JSON)) "abc123" w)
  = Returned (Ok "https://example.com")
  /\ repo.client
       (service.redisRepo
          (service.svc
             (snd (service.GetLongURL
                     (RD := server.RedisRepo_RedisRepository (J := csv_JSON))
                     "abc123" w))))
     = ({["abc123" := "7,0,0,abc123,https://example.com"]} : memRedis).
Proof.
  intros w.
  destruct (damaged_cache_entry_is_replaced (J := csv_JSON) w "abc123"
              ({["abc123" := "not a record"]} : memRedis)
              ({["abc123" := "7,0,0,abc123,https://example.com"]} : memRedis)
              "not a record" "7,0,0,abc123,https://example.com" bad_record
              (store_of [row 7 "abc123" "https://example.com"] 7)
              (row 7 "abc123" "https://example.com"))
    as (Hrun & Hclient & _).
  - vm_compute. reflexivity.
  - vm_compute. reflexivity.
  - vm_compute. reflexivity.
  - vm_compute. reflexivity.
  - vm_compute. reflexivity.
  - vm_compute. reflexivity.
  - split; [exact Hrun | exact Hclient].
Defined.
